(** * Document lifecycle engine of re-software: a shallow embedding

    The development follows [app/models/document.py],
    [app/repositories/document_repository.py], [app/repositories/base.py],
    [app/services/document_service.py] and [app/utils/pagination.py].

    Modelling conventions.
    - Python [float] is IEEE 754 binary64: amounts are primitive floats
      ([PrimFloat.float]) and [+], [-], [*], [/], [abs], [<], [<=], [==]
      are the primitive operations.  The builtin [round(x, 2)] is
      [Py.round2] below.
    - MongoDB collections are lists in insertion order; identifiers are
      strings and are assumed to be well-formed ObjectId strings.
    - A service method is a computation in the monad [M]: it threads the
      database and either returns a value or raises; writes done before a
      raise stay in the database.
    - [datetime.utcnow()] is the [clock]/[today] of the environment.
    - A MongoDB filter is a dictionary in insertion order; the search of
      a [$regex] in a text is a parameter of the listing. *)

From Stdlib Require Import ZArith List String Ascii Bool Floats Lia.
Import ListNotations.
Set Warnings "-inexact-float".
Open Scope string_scope.
Open Scope float_scope.

(** ** Python floats *)

Module Py.

(** [round_half_even_div a d] is the integer nearest to [a / d]
    ([a >= 0], [d > 0]), ties going to the even neighbour. *)
Definition round_half_even_div (a d : Z) : Z :=
  let q := (a / d)%Z in
  let r := (a mod d)%Z in
  match (2 * r ?= d)%Z with
  | Lt => q
  | Gt => (q + 1)%Z
  | Eq => if Z.even q then q else (q + 1)%Z
  end.

(** The integer nearest to [m * 2^e * 100], ties to even: the exact
    binary value scaled to hundredths. *)
Definition hundredths (m : positive) (e : Z) : Z :=
  match e with
  | Zneg p => round_half_even_div (Zpos m * 100)%Z (Z.pow_pos 2 p)
  | _ => (Zpos m * 100 * 2 ^ e)%Z
  end.

(** [round(x, 2)] on a float: CPython's [float.__round__] returns
    non-finite values unchanged and otherwise rounds the exact binary
    value of [x] to two decimals, ties to even ([_Py_dg_dtoa], mode 3),
    and converts that decimal back to the nearest double
    ([_Py_dg_strtod]), keeping the sign also when the result is zero. *)
Definition round2 (x : float) : float :=
  match Prim2SF x with
  | S754_finite s m e =>
      match hundredths m e with
      | Zpos n =>
          SF2Prim (SFdiv prec emax (S754_finite s n 0%Z)
                                   (S754_finite false 100 0%Z))
      | _ => if s then neg_zero else zero
      end
  | _ => x
  end.

(** Truthiness of a float: [bool(x)] is [x != 0.0]. *)
Definition truthy (x : float) : bool := negb (PrimFloat.eqb x 0).

(** [sum(xs)] starts from the integer [0] and adds from left to right. *)
Definition sum (xs : list float) : float :=
  fold_left PrimFloat.add xs 0.

End Py.

(** ** Strings *)

(** [str.lower()] on ASCII letters. *)
Definition lower_ascii (c : ascii) : ascii :=
  let n := nat_of_ascii c in
  if ((65 <=? n) && (n <=? 90))%nat then ascii_of_nat (n + 32) else c.

Fixpoint lower (s : string) : string :=
  match s with
  | EmptyString => EmptyString
  | String c r => String (lower_ascii c) (lower r)
  end.

Definition digit_char (n : nat) : ascii := ascii_of_nat (48 + n).

Fixpoint decimal_fuel (fuel n : nat) (acc : string) : string :=
  match fuel with
  | O => acc
  | S f =>
      let acc' := String (digit_char (n mod 10)) acc in
      if (n / 10 =? 0)%nat then acc' else decimal_fuel f (n / 10) acc'
  end.

(** [str(n)] for a natural number. *)
Definition decimal (n : nat) : string := decimal_fuel (S n) n "".

Fixpoint zeros (k : nat) : string :=
  match k with
  | O => ""
  | S k' => String "0" (zeros k')
  end.

(** [f"{n:0{w}d}"]: decimal, padded with zeros on the left to width [w]. *)
Definition zero_pad (w n : nat) : string :=
  let d := decimal n in zeros (w - String.length d) ++ d.

(** Python truthiness of an optional string: [None] and [""] are falsy. *)
Definition str_or (a : option string) (b : string) : string :=
  match a with
  | Some s => if String.eqb s "" then b else s
  | None => b
  end.

(** ** Data model ([app/models/document.py]) *)

Inductive DocumentType :=
| INVOICE | QUOTE | DELIVERY_NOTE | ORDER_CONFIRMATION
| PARTIAL_INVOICE | CREDIT_NOTE | CANCELLATION.

Inductive DocumentStatus :=
| DRAFT | SENT | PAID | PARTIALLY_PAID | CANCELLED | OVERDUE
| ACCEPTED | REJECTED | CONVERTED.

Inductive PaymentMethod := BANK | CASH | PAYPAL.

Definition DocumentType_eqb (a b : DocumentType) : bool :=
  match a, b with
  | INVOICE, INVOICE | QUOTE, QUOTE | DELIVERY_NOTE, DELIVERY_NOTE
  | ORDER_CONFIRMATION, ORDER_CONFIRMATION
  | PARTIAL_INVOICE, PARTIAL_INVOICE | CREDIT_NOTE, CREDIT_NOTE
  | CANCELLATION, CANCELLATION => true
  | _, _ => false
  end.

Definition DocumentStatus_eqb (a b : DocumentStatus) : bool :=
  match a, b with
  | DRAFT, DRAFT | SENT, SENT | PAID, PAID
  | PARTIALLY_PAID, PARTIALLY_PAID | CANCELLED, CANCELLED
  | OVERDUE, OVERDUE | ACCEPTED, ACCEPTED | REJECTED, REJECTED
  | CONVERTED, CONVERTED => true
  | _, _ => false
  end.

(** The string value of a document type. *)
Definition type_name (t : DocumentType) : string :=
  match t with
  | INVOICE => "INVOICE"
  | QUOTE => "QUOTE"
  | DELIVERY_NOTE => "DELIVERY_NOTE"
  | ORDER_CONFIRMATION => "ORDER_CONFIRMATION"
  | PARTIAL_INVOICE => "PARTIAL_INVOICE"
  | CREDIT_NOTE => "CREDIT_NOTE"
  | CANCELLATION => "CANCELLATION"
  end.

Definition DOCUMENT_NUMBER_PREFIX (t : DocumentType) : string :=
  match t with
  | INVOICE => "INV"
  | QUOTE => "QUO"
  | DELIVERY_NOTE => "LS"
  | ORDER_CONFIRMATION => "AB"
  | PARTIAL_INVOICE => "TINV"
  | CREDIT_NOTE => "GS"
  | CANCELLATION => "ST"
  end.

Record LineItem := {
  product_id : string;
  name : string;
  description : string;
  quantity : float;
  unit : string;
  unit_price : float;
  vat_rate : float;
  discount_percent : float;
  discount_amount : float;
  net_amount : float;
  vat_amount : float;
  gross_amount : float
}.

Record Totals := {
  net : float;
  vat : float;
  gross : float;
  paid_amount : float;
  remaining_amount : float
}.

Record Payment := {
  amount : float;
  date : string;
  method : PaymentMethod;
  reference : option string
}.

Record Reminder := {
  level : nat;
  reminder_date : string;
  fee : float
}.

Record Document := {
  id : string;
  company_id : string;
  customer_id : string;
  document_type : DocumentType;
  document_number : string;
  status : DocumentStatus;
  items : list LineItem;
  totals : Totals;
  payments : list Payment;
  reminders : list Reminder;
  is_kleinunternehmer : bool;
  notes : string;
  payment_terms_days : Z;
  issue_date : string;
  service_date : string;
  due_date : string;
  pdf_path : string;
  related_document_id : string;
  created_at : nat;
  updated_at : nat
}.

(** [doc["company_id"]], the tenant a document belongs to. *)
Definition owner (d : Document) : string := company_id d.

(** [new_line_item]: every derived amount is rounded where it is derived. *)
Definition new_line_item (product_id name description : string)
    (quantity : float) (unit : string) (unit_price vat_rate : float)
    (discount_percent : float) : LineItem :=
  let subtotal := Py.round2 (quantity * unit_price) in
  let discount_amount :=
    Py.round2 (subtotal * (discount_percent / 100.0)) in
  let net_amount := Py.round2 (subtotal - discount_amount) in
  let vat_amount := Py.round2 (net_amount * vat_rate) in
  let gross_amount := Py.round2 (net_amount + vat_amount) in
  {| product_id := product_id;
     name := name;
     description := description;
     quantity := quantity;
     unit := unit;
     unit_price := unit_price;
     vat_rate := vat_rate;
     discount_percent := discount_percent;
     discount_amount := discount_amount;
     net_amount := net_amount;
     vat_amount := vat_amount;
     gross_amount := gross_amount |}.

(** The in-place loop of [new_document] on one item:
    [item["vat_amount"] = 0.0; item["gross_amount"] = item["net_amount"]]. *)
Definition zero_vat (i : LineItem) : LineItem :=
  {| product_id := product_id i;
     name := name i;
     description := description i;
     quantity := quantity i;
     unit := unit i;
     unit_price := unit_price i;
     vat_rate := vat_rate i;
     discount_percent := discount_percent i;
     discount_amount := discount_amount i;
     net_amount := net_amount i;
     vat_amount := 0.0;
     gross_amount := net_amount i |}.

(** [document_type in (CREDIT_NOTE, CANCELLATION)]. *)
Definition stores_negative_totals (t : DocumentType) : bool :=
  match t with
  | CREDIT_NOTE | CANCELLATION => true
  | _ => false
  end.

(** [new_document]; [now] is the value of [now_utc()], and the identifier
    is assigned by the insertion.  The totals are computed from the items
    as they come in; the loop that zeroes the VAT of each item of a
    Kleinunternehmer runs after that. *)
Definition new_document (now : nat) (company_id customer_id : string)
    (document_type : DocumentType) (document_number : string)
    (items : list LineItem) (is_kleinunternehmer : bool) (notes : string)
    (payment_terms_days : Z) (issue_date service_date due_date : string)
    (pdf_path related_document_id : string) : Document :=
  let total_net := Py.round2 (Py.sum (map net_amount items)) in
  let total_vat :=
    if is_kleinunternehmer then 0.0
    else Py.round2 (Py.sum (map vat_amount items)) in
  let total_gross := Py.round2 (total_net + total_vat) in
  let neg := stores_negative_totals document_type in
  let total_net := if neg then - abs total_net else total_net in
  let total_vat := if neg then - abs total_vat else total_vat in
  let total_gross := if neg then - abs total_gross else total_gross in
  {| id := "";
     company_id := company_id;
     customer_id := customer_id;
     document_type := document_type;
     document_number := document_number;
     status := DRAFT;
     items := if is_kleinunternehmer then map zero_vat items else items;
     totals :=
       {| net := total_net;
          vat := total_vat;
          gross := total_gross;
          paid_amount := 0.0;
          remaining_amount := total_gross |};
     payments := [];
     reminders := [];
     is_kleinunternehmer := is_kleinunternehmer;
     notes := notes;
     payment_terms_days := payment_terms_days;
     issue_date := issue_date;
     service_date := service_date;
     due_date := due_date;
     pdf_path := pdf_path;
     related_document_id := related_document_id;
     created_at := now;
     updated_at := now |}.

(** Field updates (["$set"] on one key of a stored document). *)
Definition set_id (v : string) (d : Document) : Document :=
  {| id := v;
     company_id := company_id d;
     customer_id := customer_id d;
     document_type := document_type d;
     document_number := document_number d;
     status := status d;
     items := items d;
     totals := totals d;
     payments := payments d;
     reminders := reminders d;
     is_kleinunternehmer := is_kleinunternehmer d;
     notes := notes d;
     payment_terms_days := payment_terms_days d;
     issue_date := issue_date d;
     service_date := service_date d;
     due_date := due_date d;
     pdf_path := pdf_path d;
     related_document_id := related_document_id d;
     created_at := created_at d;
     updated_at := updated_at d |}.

Definition set_customer_id (v : string) (d : Document) : Document :=
  {| id := id d;
     company_id := company_id d;
     customer_id := v;
     document_type := document_type d;
     document_number := document_number d;
     status := status d;
     items := items d;
     totals := totals d;
     payments := payments d;
     reminders := reminders d;
     is_kleinunternehmer := is_kleinunternehmer d;
     notes := notes d;
     payment_terms_days := payment_terms_days d;
     issue_date := issue_date d;
     service_date := service_date d;
     due_date := due_date d;
     pdf_path := pdf_path d;
     related_document_id := related_document_id d;
     created_at := created_at d;
     updated_at := updated_at d |}.

Definition set_status (v : DocumentStatus) (d : Document) : Document :=
  {| id := id d;
     company_id := company_id d;
     customer_id := customer_id d;
     document_type := document_type d;
     document_number := document_number d;
     status := v;
     items := items d;
     totals := totals d;
     payments := payments d;
     reminders := reminders d;
     is_kleinunternehmer := is_kleinunternehmer d;
     notes := notes d;
     payment_terms_days := payment_terms_days d;
     issue_date := issue_date d;
     service_date := service_date d;
     due_date := due_date d;
     pdf_path := pdf_path d;
     related_document_id := related_document_id d;
     created_at := created_at d;
     updated_at := updated_at d |}.

Definition set_items (v : list LineItem) (d : Document) : Document :=
  {| id := id d;
     company_id := company_id d;
     customer_id := customer_id d;
     document_type := document_type d;
     document_number := document_number d;
     status := status d;
     items := v;
     totals := totals d;
     payments := payments d;
     reminders := reminders d;
     is_kleinunternehmer := is_kleinunternehmer d;
     notes := notes d;
     payment_terms_days := payment_terms_days d;
     issue_date := issue_date d;
     service_date := service_date d;
     due_date := due_date d;
     pdf_path := pdf_path d;
     related_document_id := related_document_id d;
     created_at := created_at d;
     updated_at := updated_at d |}.

Definition set_totals (v : Totals) (d : Document) : Document :=
  {| id := id d;
     company_id := company_id d;
     customer_id := customer_id d;
     document_type := document_type d;
     document_number := document_number d;
     status := status d;
     items := items d;
     totals := v;
     payments := payments d;
     reminders := reminders d;
     is_kleinunternehmer := is_kleinunternehmer d;
     notes := notes d;
     payment_terms_days := payment_terms_days d;
     issue_date := issue_date d;
     service_date := service_date d;
     due_date := due_date d;
     pdf_path := pdf_path d;
     related_document_id := related_document_id d;
     created_at := created_at d;
     updated_at := updated_at d |}.

Definition set_payments (v : list Payment) (d : Document) : Document :=
  {| id := id d;
     company_id := company_id d;
     customer_id := customer_id d;
     document_type := document_type d;
     document_number := document_number d;
     status := status d;
     items := items d;
     totals := totals d;
     payments := v;
     reminders := reminders d;
     is_kleinunternehmer := is_kleinunternehmer d;
     notes := notes d;
     payment_terms_days := payment_terms_days d;
     issue_date := issue_date d;
     service_date := service_date d;
     due_date := due_date d;
     pdf_path := pdf_path d;
     related_document_id := related_document_id d;
     created_at := created_at d;
     updated_at := updated_at d |}.

Definition set_reminders (v : list Reminder) (d : Document) : Document :=
  {| id := id d;
     company_id := company_id d;
     customer_id := customer_id d;
     document_type := document_type d;
     document_number := document_number d;
     status := status d;
     items := items d;
     totals := totals d;
     payments := payments d;
     reminders := v;
     is_kleinunternehmer := is_kleinunternehmer d;
     notes := notes d;
     payment_terms_days := payment_terms_days d;
     issue_date := issue_date d;
     service_date := service_date d;
     due_date := due_date d;
     pdf_path := pdf_path d;
     related_document_id := related_document_id d;
     created_at := created_at d;
     updated_at := updated_at d |}.

Definition set_notes (v : string) (d : Document) : Document :=
  {| id := id d;
     company_id := company_id d;
     customer_id := customer_id d;
     document_type := document_type d;
     document_number := document_number d;
     status := status d;
     items := items d;
     totals := totals d;
     payments := payments d;
     reminders := reminders d;
     is_kleinunternehmer := is_kleinunternehmer d;
     notes := v;
     payment_terms_days := payment_terms_days d;
     issue_date := issue_date d;
     service_date := service_date d;
     due_date := due_date d;
     pdf_path := pdf_path d;
     related_document_id := related_document_id d;
     created_at := created_at d;
     updated_at := updated_at d |}.

Definition set_payment_terms_days (v : Z) (d : Document) : Document :=
  {| id := id d;
     company_id := company_id d;
     customer_id := customer_id d;
     document_type := document_type d;
     document_number := document_number d;
     status := status d;
     items := items d;
     totals := totals d;
     payments := payments d;
     reminders := reminders d;
     is_kleinunternehmer := is_kleinunternehmer d;
     notes := notes d;
     payment_terms_days := v;
     issue_date := issue_date d;
     service_date := service_date d;
     due_date := due_date d;
     pdf_path := pdf_path d;
     related_document_id := related_document_id d;
     created_at := created_at d;
     updated_at := updated_at d |}.

Definition set_issue_date (v : string) (d : Document) : Document :=
  {| id := id d;
     company_id := company_id d;
     customer_id := customer_id d;
     document_type := document_type d;
     document_number := document_number d;
     status := status d;
     items := items d;
     totals := totals d;
     payments := payments d;
     reminders := reminders d;
     is_kleinunternehmer := is_kleinunternehmer d;
     notes := notes d;
     payment_terms_days := payment_terms_days d;
     issue_date := v;
     service_date := service_date d;
     due_date := due_date d;
     pdf_path := pdf_path d;
     related_document_id := related_document_id d;
     created_at := created_at d;
     updated_at := updated_at d |}.

Definition set_service_date (v : string) (d : Document) : Document :=
  {| id := id d;
     company_id := company_id d;
     customer_id := customer_id d;
     document_type := document_type d;
     document_number := document_number d;
     status := status d;
     items := items d;
     totals := totals d;
     payments := payments d;
     reminders := reminders d;
     is_kleinunternehmer := is_kleinunternehmer d;
     notes := notes d;
     payment_terms_days := payment_terms_days d;
     issue_date := issue_date d;
     service_date := v;
     due_date := due_date d;
     pdf_path := pdf_path d;
     related_document_id := related_document_id d;
     created_at := created_at d;
     updated_at := updated_at d |}.

Definition set_due_date (v : string) (d : Document) : Document :=
  {| id := id d;
     company_id := company_id d;
     customer_id := customer_id d;
     document_type := document_type d;
     document_number := document_number d;
     status := status d;
     items := items d;
     totals := totals d;
     payments := payments d;
     reminders := reminders d;
     is_kleinunternehmer := is_kleinunternehmer d;
     notes := notes d;
     payment_terms_days := payment_terms_days d;
     issue_date := issue_date d;
     service_date := service_date d;
     due_date := v;
     pdf_path := pdf_path d;
     related_document_id := related_document_id d;
     created_at := created_at d;
     updated_at := updated_at d |}.

Definition set_updated_at (v : nat) (d : Document) : Document :=
  {| id := id d;
     company_id := company_id d;
     customer_id := customer_id d;
     document_type := document_type d;
     document_number := document_number d;
     status := status d;
     items := items d;
     totals := totals d;
     payments := payments d;
     reminders := reminders d;
     is_kleinunternehmer := is_kleinunternehmer d;
     notes := notes d;
     payment_terms_days := payment_terms_days d;
     issue_date := issue_date d;
     service_date := service_date d;
     due_date := due_date d;
     pdf_path := pdf_path d;
     related_document_id := related_document_id d;
     created_at := created_at d;
     updated_at := v |}.
(** ** Collaborating collections and request payloads *)

Module Company.
Record t := { is_kleinunternehmer : bool }.
End Company.

Module Customer.
Record t := { company_id : string }.
End Customer.

Module Product.
Record t := {
  company_id : string;
  name : string;
  description : string;
  unit : string;
  unit_price : float;
  vat_rate : float
}.
End Product.

(** [schemas.LineItemCreate], [DocumentCreate], [DocumentUpdate],
    [PaymentCreate], [ReminderCreate], [ConvertQuoteRequest] and
    [CreatePartialRequest], as the dictionaries the service receives. *)
Module LineItemCreate.
Record t := {
  product_id : option string;
  quantity : float;
  discount_percent : float;
  name : option string;
  description : option string;
  unit : option string;
  unit_price : option float;
  vat_rate : option float
}.
End LineItemCreate.

Module DocumentCreate.
Record t := {
  customer_id : string;
  document_type : DocumentType;
  items : list LineItemCreate.t;
  notes : option string;
  payment_terms_days : Z;
  issue_date : option string;
  service_date : option string;
  due_date : option string;
  related_document_id : option string
}.
End DocumentCreate.

Module DocumentUpdate.
Record t := {
  customer_id : option string;
  items : option (list LineItemCreate.t);
  notes : option string;
  payment_terms_days : option Z;
  issue_date : option string;
  service_date : option string;
  due_date : option string
}.
End DocumentUpdate.

Module PaymentCreate.
Record t := {
  amount : float;
  date : option string;
  method : PaymentMethod
}.
End PaymentCreate.

Module ReminderCreate.
Record t := { fee : float }.
End ReminderCreate.

Module ConvertQuoteRequest.
Record t := {
  payment_terms_days : Z;
  issue_date : option string;
  due_date : option string
}.
End ConvertQuoteRequest.

Module CreatePartialRequest.
Record t := {
  amount : float;
  items : option (list LineItemCreate.t);
  notes : string;
  payment_terms_days : Z
}.
End CreatePartialRequest.

(** [core.config.Settings], the part the document service reads. *)
Record Settings := { MAX_REMINDER_LEVEL : nat }.

Definition settings : Settings := {| MAX_REMINDER_LEVEL := 3 |}.

(** ** The database *)

Record DB := {
  documents : list Document;
  counters : list (string * string * nat);
  companies : list (string * Company.t);
  customers : list (string * Customer.t);
  products : list (string * Product.t);
  next_oid : nat;
  clock : nat
}.

Definition with_documents (ds : list Document) (db : DB) : DB :=
  {| documents := ds;
     counters := counters db;
     companies := companies db;
     customers := customers db;
     products := products db;
     next_oid := next_oid db;
     clock := clock db |}.

Definition with_companies (cs : list (string * Company.t)) (db : DB) : DB :=
  {| documents := documents db;
     counters := counters db;
     companies := cs;
     customers := customers db;
     products := products db;
     next_oid := next_oid db;
     clock := clock db |}.

Definition with_counters (cs : list (string * string * nat)) (db : DB) : DB :=
  {| documents := documents db;
     counters := cs;
     companies := companies db;
     customers := customers db;
     products := products db;
     next_oid := next_oid db;
     clock := clock db |}.

Definition with_next_oid (n : nat) (db : DB) : DB :=
  {| documents := documents db;
     counters := counters db;
     companies := companies db;
     customers := customers db;
     products := products db;
     next_oid := n;
     clock := clock db |}.

Definition with_clock (n : nat) (db : DB) : DB :=
  {| documents := documents db;
     counters := counters db;
     companies := companies db;
     customers := customers db;
     products := products db;
     next_oid := next_oid db;
     clock := n |}.

(** ** Exceptions and the service monad *)

(** What an [HTTPException] reports: one constructor per [detail] text of
    the service, with the values the text interpolates. *)
Inductive Detail :=
| Customer_not_found
| Company_not_found
| Document_not_found
| Product_not_found (product_id : string)
| Only_DRAFT_documents_can_be_edited
| No_fields_to_update
| Only_quotes_can_be_converted
| Only_accepted_quotes_can_be_converted
| Payments_only_allowed_on_invoices
| Cannot_add_payment_to (status : DocumentStatus)
| Payment_amount_exceeds_remaining (amount remaining : float)
| Reminders_only_for_invoices
| Cannot_add_reminder_to (status : DocumentStatus)
| Maximum_reminder_level_reached (max_level : nat)
| Only_invoices_can_be_cancelled
| Document_already_cancelled
| Credit_notes_can_only_reference_invoices
| Cannot_credit_a_cancelled_document
| Partial_invoices_can_only_be_created_from_invoices
| Cannot_create_partial_invoice_from_a_cancelled_document
| Partial_total_would_exceed_invoice_gross (partial_total gross : float)
| Cannot_transition (current target : DocumentStatus) (doc_type : DocumentType).

Inductive Exception :=
| HTTPException (status_code : nat) (detail : Detail)
| TypeError
| AttributeError.

Definition HTTP_404_NOT_FOUND : nat := 404.
Definition HTTP_400_BAD_REQUEST : nat := 400.

Inductive Outcome (A : Type) :=
| Return (a : A)
| Raised (e : Exception).
Arguments Return {A} a.
Arguments Raised {A} e.

Definition M (A : Type) : Type := DB -> Outcome A * DB.

Definition ret {A} (a : A) : M A := fun db => (Return a, db).

Definition raise {A} (e : Exception) : M A := fun db => (Raised e, db).

Definition bind {A B} (c : M A) (k : A -> M B) : M B :=
  fun db =>
    match c db with
    | (Return a, db') => k a db'
    | (Raised e, db') => (Raised e, db')
    end.

Notation "x <- c ;; k" := (bind c (fun x => k))
  (at level 61, c at next level, right associativity).
Notation "c ;;; k" := (bind c (fun _ => k))
  (at level 61, right associativity).

(** [try: c  except HTTPException: pass]; any other exception propagates,
    and the writes [c] did before raising stay. *)
Definition try_except_HTTPException (c : M Datatypes.unit)
    : M Datatypes.unit :=
  fun db =>
    match c db with
    | (Raised (HTTPException _ _), db') => (Return tt, db')
    | r => r
    end.

Definition when (b : bool) (c : M Datatypes.unit) : M Datatypes.unit :=
  if b then c else ret tt.

Definition raise_if (b : bool) (e : Exception) : M Datatypes.unit :=
  when b (raise e).

(** ** Pagination and filters ([utils/pagination.py]) *)

(** The string value of a status. *)
Definition status_name (s : DocumentStatus) : string :=
  match s with
  | DRAFT => "DRAFT"
  | SENT => "SENT"
  | PAID => "PAID"
  | PARTIALLY_PAID => "PARTIALLY_PAID"
  | CANCELLED => "CANCELLED"
  | OVERDUE => "OVERDUE"
  | ACCEPTED => "ACCEPTED"
  | REJECTED => "REJECTED"
  | CONVERTED => "CONVERTED"
  end.

Module Pagination.

(** [{"skip": ..., "limit": ...}] *)
Record Page := { skip : Z; limit : Z }.

Definition build_pagination_query (page page_size : Z) : Page :=
  let page := Z.max page 1 in
  let page_size := Z.min (Z.max page_size 1) 100 in
  {| skip := ((page - 1) * page_size)%Z; limit := page_size |}.

Record Paginated (A : Type) := {
  items : list A;
  total : Z;
  page : Z;
  page_size : Z;
  total_pages : Z
}.
Arguments items {A} _.
Arguments total {A} _.
Arguments page {A} _.
Arguments page_size {A} _.
Arguments total_pages {A} _.

(** [//] is the floor division, and the divisor is positive here. *)
Definition build_paginated_response {A} (items : list A)
    (total page page_size : Z) : Paginated A :=
  let page := Z.max page 1 in
  let page_size := Z.min (Z.max page_size 1) 100 in
  let total_pages := Z.max ((total + page_size - 1) / page_size) 1 in
  {| items := items;
     total := total;
     page := page;
     page_size := page_size;
     total_pages := total_pages |}.

(** A MongoDB filter: a dictionary from keys to what the key asks for,
    kept in insertion order.  [Equal v] is [{key: v}]; [Any_regex] is the
    value of ["$or"], one [{field: {"$regex": search, "$options": "i"}}]
    for each field. *)
Inductive Value :=
| Equal (v : string)
| Any_regex (fields : list string) (search : string).

Definition Query := list (string * Value).

(** [query[k] = v] *)
Fixpoint dict_set (k : string) (v : Value) (q : Query) : Query :=
  match q with
  | [] => [(k, v)]
  | (k', v') :: r =>
      if String.eqb k' k then (k', v) :: r else (k', v') :: dict_set k v r
  end.

(** [query.update(extra)] *)
Definition dict_update (q : Query) (extra : list (string * string)) : Query :=
  fold_left (fun q' kv => dict_set (fst kv) (Equal (snd kv)) q') extra q.

Definition build_filter_query (company_id : string) (search : option string)
    (search_fields : option (list string))
    (extra_filters : option (list (string * string))) : Query :=
  let query := [("company_id", Equal company_id)] in
  let query :=
    match search, search_fields with
    | Some s, Some (f :: fs) =>
        if String.eqb s "" then query
        else dict_set "$or" (Any_regex (f :: fs) s) query
    | _, _ => query
    end in
  match extra_filters with
  | Some (e :: es) => dict_update query (e :: es)
  | _ => query
  end.

(** The string fields of a stored document, by key. *)
Definition field (key : string) (d : Document) : option string :=
  if String.eqb key "company_id" then Some (company_id d)
  else if String.eqb key "customer_id" then Some (customer_id d)
  else if String.eqb key "document_type"
       then Some (type_name (document_type d))
  else if String.eqb key "document_number" then Some (document_number d)
  else if String.eqb key "status" then Some (status_name (status d))
  else if String.eqb key "notes" then Some (notes d)
  else if String.eqb key "issue_date" then Some (issue_date d)
  else if String.eqb key "service_date" then Some (service_date d)
  else if String.eqb key "due_date" then Some (due_date d)
  else if String.eqb key "pdf_path" then Some (pdf_path d)
  else if String.eqb key "related_document_id"
       then Some (related_document_id d)
  else None.

(** Whether a document satisfies one entry of a filter; [regex s x] is
    MongoDB's case-insensitive search of the pattern [s] in [x]. *)
Definition holds (regex : string -> string -> bool) (d : Document)
    (entry : string * Value) : bool :=
  match snd entry with
  | Equal v =>
      match field (fst entry) d with
      | Some x => String.eqb x v
      | None => false
      end
  | Any_regex fields s =>
      existsb
        (fun f =>
           match field f d with
           | Some x => regex s x
           | None => false
           end)
        fields
  end.

(** A document matches a filter when it satisfies every entry. *)
Definition matches (regex : string -> string -> bool) (q : Query)
    (d : Document) : bool :=
  forallb (holds regex d) q.

End Pagination.

(** ** Repositories ([repositories/base.py], [document_repository.py]) *)

(** A fresh ObjectId, as its 24-character string. *)
Definition oid (n : nat) : string := zero_pad 24 n.

(** [now_utc()]: the clock advances at every reading. *)
Definition now_utc : M nat :=
  fun db => (Return (clock db), with_clock (S (clock db)) db).

Fixpoint assoc {A} (k : string) (l : list (string * A)) : option A :=
  match l with
  | [] => None
  | (k', a) :: r => if String.eqb k' k then Some a else assoc k r
  end.

Module CompanyRepository.
Definition find_by_id (i : string) : M (option Company.t) :=
  fun db => (Return (assoc i (companies db)), db).
End CompanyRepository.

Module CustomerRepository.
Definition find_by_id (i : string) : M (option Customer.t) :=
  fun db => (Return (assoc i (customers db)), db).
End CustomerRepository.

Module ProductRepository.
Definition find_by_id (i : string) : M (option Product.t) :=
  fun db => (Return (assoc i (products db)), db).
End ProductRepository.

(** [find_one({"_id": i})] *)
Fixpoint find_doc (i : string) (ds : list Document) : option Document :=
  match ds with
  | [] => None
  | d :: r => if String.eqb (id d) i then Some d else find_doc i r
  end.

(** The collection after [find_one_and_update({"_id": i}, f)]. *)
Fixpoint update_doc (i : string) (f : Document -> Document)
    (ds : list Document) : list Document :=
  match ds with
  | [] => []
  | d :: r => if String.eqb (id d) i then f d :: r else d :: update_doc i f r
  end.

(** Insertion of [d] into a list sorted by [created_at], newest first. *)
Fixpoint insert_newest_first (d : Document) (l : list Document)
    : list Document :=
  match l with
  | [] => [d]
  | x :: r =>
      if (created_at x <=? created_at d)%nat then d :: l
      else x :: insert_newest_first d r
  end.

(** [.sort("created_at", -1)] *)
Definition sort_created_at_desc (l : list Document) : list Document :=
  fold_right insert_newest_first [] l.

Module DocumentRepository.

Definition find_by_id (i : string) : M (option Document) :=
  fun db => (Return (find_doc i (documents db)), db).

Definition insert_one (d : Document) : M string :=
  fun db =>
    let i := oid (next_oid db) in
    (Return i,
     with_next_oid (S (next_oid db))
       (with_documents (documents db ++ [set_id i d]) db)).

Definition find_one_and_update (i : string) (f : Document -> Document)
    : M (option Document) :=
  fun db =>
    (Return (option_map f (find_doc i (documents db))),
     with_documents (update_doc i f (documents db)) db).

(** [update_one(i, update_data)]: [update_data] is the composition [f]
    of the field updates; [updated_at] is set as well. *)
Definition update_one (i : string) (f : Document -> Document)
    : M (option Document) :=
  now <- now_utc ;;
  find_one_and_update i (fun d => set_updated_at now (f d)).

(** ["$push": payments; "$inc": paid_amount by [amount],
    remaining_amount by [-amount]]. *)
Definition pay (payment : Payment) (d : Document) : Document :=
  set_totals
    {| net := net (totals d);
       vat := vat (totals d);
       gross := gross (totals d);
       paid_amount := paid_amount (totals d) + amount payment;
       remaining_amount := remaining_amount (totals d) + - amount payment |}
    (set_payments (payments d ++ [payment]) d).

Definition add_payment (i : string) (payment : Payment)
    : M (option Document) :=
  now <- now_utc ;;
  find_one_and_update i (fun d => set_updated_at now (pay payment d)).

Definition add_reminder (i : string) (reminder : Reminder)
    : M (option Document) :=
  now <- now_utc ;;
  find_one_and_update i
    (fun d => set_updated_at now (set_reminders (reminders d ++ [reminder]) d)).

(** All documents of the company that reference [related]: newest
    first, and no more than 100 of them ([to_list(length=100)]). *)
Definition related_to (company related : string) (d : Document) : bool :=
  String.eqb (company_id d) company
  && String.eqb (related_document_id d) related.

Definition find_related_documents (company related : string)
    : M (list Document) :=
  fun db =>
    (Return (firstn 100 (sort_created_at_desc
               (filter (related_to company related) (documents db)))),
     db).


(** [find_one({"company_id": ..., "document_number": ...})] *)
Definition find_by_number (company number : string)
    : M (option Document) :=
  fun db =>
    (Return
       (find (fun d =>
                String.eqb (company_id d) company
                && String.eqb (document_number d) number)
          (documents db)),
     db).

(** [BaseRepository.find_many] without a [sort] argument.  The cursor
    sorts by [created_at], newest first, before it skips and limits,
    whatever the order of the calls that build it; [skip >= 0] and
    [limit >= 1] where the service calls it. *)
Definition find_many (regex : string -> string -> bool)
    (query : Pagination.Query) (skip limit : Z) : M (list Document) :=
  fun db =>
    (Return
       (firstn (Z.to_nat limit)
          (skipn (Z.to_nat skip)
             (sort_created_at_desc
                (filter (Pagination.matches regex query) (documents db))))),
     db).

(** [BaseRepository.count] *)
Definition count (regex : string -> string -> bool)
    (query : Pagination.Query) : M Z :=
  fun db =>
    (Return
       (Z.of_nat
          (List.length
             (filter (Pagination.matches regex query) (documents db)))),
     db).

End DocumentRepository.

Module CounterRepository.

Definition counter_eqb (company counter_type : string)
    (c : string * string * nat) : bool :=
  String.eqb (fst (fst c)) company && String.eqb (snd (fst c)) counter_type.

Fixpoint find_counter (company counter_type : string)
    (cs : list (string * string * nat)) : option nat :=
  match cs with
  | [] => None
  | c :: r =>
      if counter_eqb company counter_type c then Some (snd c)
      else find_counter company counter_type r
  end.

Fixpoint inc_counter (company counter_type : string)
    (cs : list (string * string * nat)) : list (string * string * nat) :=
  match cs with
  | [] => []
  | c :: r =>
      if counter_eqb company counter_type c
      then (fst c, S (snd c)) :: r
      else c :: inc_counter company counter_type r
  end.

(** [find_one_and_update(..., {"$inc": {"sequence": 1}}, upsert=True)]
    on the counters: the new sequence number and the new collection;
    a missing counter is created with sequence 1. *)
Definition upsert_inc (company counter_type : string)
    (cs : list (string * string * nat))
    : nat * list (string * string * nat) :=
  match find_counter company counter_type cs with
  | Some n => (S n, inc_counter company counter_type cs)
  | None => (1%nat, (cs ++ [(company, counter_type, 1%nat)])%list)
  end.

Definition get_next_number (company counter_type : string) : M nat :=
  fun db =>
    let r := upsert_inc company counter_type (counters db) in
    (Return (fst r), with_counters (snd r) db).

End CounterRepository.

(** ** The company service ([services/company_service.py]) *)

Module CompanyService.

Fixpoint set_flag (company_id : string) (flag : bool)
    (cs : list (string * Company.t)) : list (string * Company.t) :=
  match cs with
  | [] => []
  | (k, c) :: r =>
      if String.eqb k company_id
      then (k, {| Company.is_kleinunternehmer := flag |}) :: r
      else (k, c) :: set_flag company_id flag r
  end.

(** [update_company(company_id, {"is_kleinunternehmer": flag})]; [None]
    stands for an update without fields. *)
Definition update_company (company_id : string)
    (is_kleinunternehmer : option bool) : M Company.t :=
  match is_kleinunternehmer with
  | None => raise (HTTPException HTTP_400_BAD_REQUEST No_fields_to_update)
  | Some flag =>
      fun db =>
        match assoc company_id (companies db) with
        | Some _ =>
            (Return {| Company.is_kleinunternehmer := flag |},
             with_companies (set_flag company_id flag (companies db)) db)
        | None =>
            (Raised (HTTPException HTTP_404_NOT_FOUND Company_not_found), db)
        end
  end.

End CompanyService.

(** What [get_related_documents] reports of a document, and its result:
    [{"parent": ..., "children": [...]}]. *)
Module RelatedDocuments.

Record Summary := {
  id : string;
  document_number : string;
  document_type : DocumentType;
  status : DocumentStatus;
  gross : float
}.

Record t := {
  parent : option Summary;
  children : list Summary
}.

End RelatedDocuments.

(** ** The document service ([services/document_service.py]) *)

Module DocumentService.
Section Service.

(** [settings], the date string of [datetime.utcnow()], and
    [_calc_due_date] (issue dates are taken to be in the format
    [strptime] expects). *)
Variable cfg : Settings.
Variable today : string.
Variable _calc_due_date : string -> Z -> string.

(** [_validate_status_transition]: the [allowed] table, by type and
    current status. *)
Definition _invoice_transitions (current : DocumentStatus)
    : list DocumentStatus :=
  match current with
  | DRAFT => [SENT; CANCELLED]
  | SENT => [PAID; PARTIALLY_PAID; OVERDUE; CANCELLED]
  | PARTIALLY_PAID => [PAID; OVERDUE; CANCELLED]
  | OVERDUE => [PAID; PARTIALLY_PAID; CANCELLED]
  | _ => []
  end.

Definition allowed (doc_type : DocumentType) (current : DocumentStatus)
    : list DocumentStatus :=
  match doc_type with
  | INVOICE => _invoice_transitions current
  | PARTIAL_INVOICE => _invoice_transitions current
  | QUOTE =>
      match current with
      | DRAFT => [SENT; CANCELLED]
      | SENT => [ACCEPTED; REJECTED; CANCELLED]
      | ACCEPTED => [CONVERTED]
      | _ => []
      end
  | DELIVERY_NOTE =>
      match current with DRAFT => [SENT; CANCELLED] | _ => [] end
  | ORDER_CONFIRMATION =>
      match current with DRAFT => [SENT; CANCELLED] | _ => [] end
  | CREDIT_NOTE =>
      match current with DRAFT => [SENT; CANCELLED] | _ => [] end
  | CANCELLATION =>
      match current with DRAFT => [SENT] | _ => [] end
  end.

Definition _validate_status_transition (doc_type : DocumentType)
    (current target : DocumentStatus) : M Datatypes.unit :=
  let valid_targets := allowed doc_type current in
  raise_if (negb (existsb (DocumentStatus_eqb target) valid_targets))
    (HTTPException HTTP_400_BAD_REQUEST
       (Cannot_transition current target doc_type)).

(** [_serialize_dates(doc)]: timestamps stay as they are here; on [None]
    the method call [doc.get] raises. *)
Definition _serialize_dates (doc : option Document) : M Document :=
  match doc with
  | Some d => ret d
  | None => raise AttributeError
  end.

(** [doc[...]] and [doc.get(...)] on the result of a repository update,
    which is [None] when no document has the identifier. *)
Definition subscript (doc : option Document) : M Document :=
  match doc with
  | Some d => ret d
  | None => raise TypeError
  end.

Definition dot_get (doc : option Document) : M Document :=
  match doc with
  | Some d => ret d
  | None => raise AttributeError
  end.

(** [_calc_totals]: the totals of a draft whose items are replaced. *)
Definition _calc_totals (items : list LineItem) (is_kleinunternehmer : bool)
    (document_type : DocumentType) : Totals :=
  let total_net := Py.round2 (Py.sum (map net_amount items)) in
  let total_vat :=
    if is_kleinunternehmer then 0.0
    else Py.round2 (Py.sum (map vat_amount items)) in
  let total_gross := Py.round2 (total_net + total_vat) in
  let neg := stores_negative_totals document_type in
  let total_net := if neg then - abs total_net else total_net in
  let total_vat := if neg then - abs total_vat else total_vat in
  let total_gross := if neg then - abs total_gross else total_gross in
  {| net := total_net;
     vat := total_vat;
     gross := total_gross;
     paid_amount := 0.0;
     remaining_amount := total_gross |}.

Definition _generate_document_number (company_id : string)
    (document_type : DocumentType) : M string :=
  let prefix := DOCUMENT_NUMBER_PREFIX document_type in
  let counter_type := "document_" ++ lower (type_name document_type) in
  seq <- CounterRepository.get_next_number company_id counter_type ;;
  ret (prefix ++ "-" ++ zero_pad 6 seq).

(** One turn of the loop of [_resolve_line_items]. *)
Definition _resolve_line_item (company_id : string)
    (item : LineItemCreate.t) (is_kleinunternehmer : bool) : M LineItem :=
  let product_id := str_or (LineItemCreate.product_id item) "" in
  product <-
    (if String.eqb product_id "" then ret None
     else
       p <- ProductRepository.find_by_id product_id ;;
       match p with
       | Some pr =>
           if String.eqb (Product.company_id pr) company_id
           then ret (Some pr)
           else raise (HTTPException HTTP_404_NOT_FOUND
                         (Product_not_found product_id))
       | None => raise (HTTPException HTTP_404_NOT_FOUND
                          (Product_not_found product_id))
       end) ;;
  let float_or (a : option float) (b : float) :=
    match a with
    | Some x => if Py.truthy x then x else b
    | None => b
    end in
  let if_not_None (a : option float) (b : float) :=
    match a with Some x => x | None => b end in
  let '(name, description, unit, unit_price, vat_rate) :=
    match product with
    | Some pr =>
        (str_or (LineItemCreate.name item) (Product.name pr),
         str_or (LineItemCreate.description item) (Product.description pr),
         str_or (LineItemCreate.unit item) (Product.unit pr),
         float_or (LineItemCreate.unit_price item) (Product.unit_price pr),
         if_not_None (LineItemCreate.vat_rate item) (Product.vat_rate pr))
    | None =>
        (str_or (LineItemCreate.name item)
           (str_or (LineItemCreate.description item) "Position"),
         str_or (LineItemCreate.description item) "",
         str_or (LineItemCreate.unit item) "Stück",
         float_or (LineItemCreate.unit_price item) 0,
         if_not_None (LineItemCreate.vat_rate item) 0.19)
    end in
  let discount_percent := LineItemCreate.discount_percent item in
  let vat_rate := if is_kleinunternehmer then 0.0 else vat_rate in
  ret (new_line_item product_id name description
         (LineItemCreate.quantity item) unit unit_price vat_rate
         discount_percent).

Fixpoint _resolve_line_items (company_id : string)
    (items_data : list LineItemCreate.t) (is_kleinunternehmer : bool)
    : M (list LineItem) :=
  match items_data with
  | [] => ret []
  | item :: rest =>
      line <- _resolve_line_item company_id item is_kleinunternehmer ;;
      resolved <- _resolve_line_items company_id rest is_kleinunternehmer ;;
      ret (line :: resolved)
  end.

Definition company_is_kleinunternehmer (company_id : string) : M bool :=
  company <- CompanyRepository.find_by_id company_id ;;
  ret match company with
      | Some c => Company.is_kleinunternehmer c
      | None => false
      end.

Definition get_document (company_id document_id : string) : M Document :=
  doc <- DocumentRepository.find_by_id document_id ;;
  match doc with
  | Some d =>
      if String.eqb (owner d) company_id then ret d
      else raise (HTTPException HTTP_404_NOT_FOUND Document_not_found)
  | None => raise (HTTPException HTTP_404_NOT_FOUND Document_not_found)
  end.

Definition create_document (company_id : string) (data : DocumentCreate.t)
    : M Document :=
  let document_type := DocumentCreate.document_type data in
  let customer_id := DocumentCreate.customer_id data in
  customer <- CustomerRepository.find_by_id customer_id ;;
  raise_if
    match customer with
    | Some c => negb (String.eqb (Customer.company_id c) company_id)
    | None => true
    end
    (HTTPException HTTP_404_NOT_FOUND Customer_not_found) ;;;
  is_kleinunternehmer <- company_is_kleinunternehmer company_id ;;
  resolved_items <-
    _resolve_line_items company_id (DocumentCreate.items data)
      is_kleinunternehmer ;;
  document_number <- _generate_document_number company_id document_type ;;
  let issue_date := str_or (DocumentCreate.issue_date data) today in
  let service_date := str_or (DocumentCreate.service_date data) "" in
  let payment_terms_days := DocumentCreate.payment_terms_days data in
  let due_date :=
    str_or (DocumentCreate.due_date data)
      (_calc_due_date issue_date payment_terms_days) in
  now <- now_utc ;;
  let doc :=
    new_document now company_id customer_id document_type document_number
      resolved_items is_kleinunternehmer
      (str_or (DocumentCreate.notes data) "")
      payment_terms_days issue_date service_date due_date ""
      (str_or (DocumentCreate.related_document_id data) "") in
  doc_id <- DocumentRepository.insert_one doc ;;
  created <- DocumentRepository.find_by_id doc_id ;;
  _serialize_dates created.

Definition update_document (company_id document_id : string)
    (data : DocumentUpdate.t) : M Document :=
  doc <- get_document company_id document_id ;;
  raise_if (negb (DocumentStatus_eqb (status doc) DRAFT))
    (HTTPException HTTP_400_BAD_REQUEST
       Only_DRAFT_documents_can_be_edited) ;;;
  items_fields <-
    match DocumentUpdate.items data with
    | Some items_data =>
        is_klein <- company_is_kleinunternehmer company_id ;;
        resolved <- _resolve_line_items company_id items_data is_klein ;;
        let totals := _calc_totals resolved is_klein (document_type doc) in
        ret [set_items resolved; set_totals totals]
    | None => ret []
    end ;;
  let field {A} (v : option A) (set : A -> Document -> Document) :=
    match v with Some a => [set a] | None => [] end in
  let update_fields :=
    (items_fields
     ++ field (DocumentUpdate.customer_id data) set_customer_id
     ++ field (DocumentUpdate.notes data) set_notes
     ++ field (DocumentUpdate.payment_terms_days data) set_payment_terms_days
     ++ field (DocumentUpdate.issue_date data) set_issue_date
     ++ field (DocumentUpdate.service_date data) set_service_date
     ++ field (DocumentUpdate.due_date data) set_due_date)%list in
  raise_if match update_fields with [] => true | _ => false end
    (HTTPException HTTP_400_BAD_REQUEST No_fields_to_update) ;;;
  updated <-
    DocumentRepository.update_one document_id
      (fun d => fold_left (fun d' set => set d') update_fields d) ;;
  _serialize_dates updated.

Definition _create_order_confirmation_from_quote
    (company_id quote_id : string) (quote : Document) : M Datatypes.unit :=
  let items_copy := items quote in
  order_number <-
    _generate_document_number company_id ORDER_CONFIRMATION ;;
  let issue_date := str_or (Some (issue_date quote)) today in
  let service_date := service_date quote in
  let payment_terms_days := payment_terms_days quote in
  let due_date :=
    str_or (Some (due_date quote))
      (_calc_due_date issue_date payment_terms_days) in
  now <- now_utc ;;
  let order_doc :=
    new_document now company_id (customer_id quote) ORDER_CONFIRMATION
      order_number items_copy (is_kleinunternehmer quote)
      ("Auftragsbestätigung zu Angebot " ++ document_number quote)
      payment_terms_days issue_date service_date due_date ""
      quote_id in
  _ <- DocumentRepository.insert_one order_doc ;;
  ret tt.

Definition update_status (company_id document_id : string)
    (new_status : DocumentStatus) : M Document :=
  doc <- get_document company_id document_id ;;
  _validate_status_transition (document_type doc) (status doc) new_status ;;;
  updated <-
    DocumentRepository.update_one document_id (set_status new_status) ;;
  (if DocumentType_eqb (document_type doc) QUOTE
      && DocumentStatus_eqb new_status ACCEPTED
   then
     quote <- dot_get updated ;;
     _create_order_confirmation_from_quote company_id document_id quote
   else ret tt) ;;;
  _serialize_dates updated.

Definition convert_quote_to_invoice (company_id quote_id : string)
    (data : ConvertQuoteRequest.t) : M Document :=
  quote <- get_document company_id quote_id ;;
  raise_if (negb (DocumentType_eqb (document_type quote) QUOTE))
    (HTTPException HTTP_400_BAD_REQUEST Only_quotes_can_be_converted) ;;;
  raise_if (negb (DocumentStatus_eqb (status quote) ACCEPTED))
    (HTTPException HTTP_400_BAD_REQUEST
       Only_accepted_quotes_can_be_converted) ;;;
  invoice_number <- _generate_document_number company_id INVOICE ;;
  let issue_date := str_or (ConvertQuoteRequest.issue_date data) today in
  let payment_terms_days := ConvertQuoteRequest.payment_terms_days data in
  let due_date :=
    str_or (ConvertQuoteRequest.due_date data)
      (_calc_due_date issue_date payment_terms_days) in
  now <- now_utc ;;
  let invoice_doc :=
    new_document now company_id (customer_id quote) INVOICE invoice_number
      (items quote) (is_kleinunternehmer quote) (notes quote)
      payment_terms_days issue_date "" due_date "" quote_id in
  invoice_id <- DocumentRepository.insert_one invoice_doc ;;
  _ <- DocumentRepository.update_one quote_id (set_status CONVERTED) ;;
  created <- DocumentRepository.find_by_id invoice_id ;;
  _serialize_dates created.

(** [doc["document_type"] not in (INVOICE, PARTIAL_INVOICE)] *)
Definition is_invoice_type (t : DocumentType) : bool :=
  match t with
  | INVOICE | PARTIAL_INVOICE => true
  | _ => false
  end.

(** The status a payment leads to, from the paid amount and the gross
    total of the updated document. *)
Definition status_after_payment (paid gross_total : float)
    (current : DocumentStatus) : DocumentStatus :=
  if abs (paid - abs gross_total) <? 0.01 then PAID
  else if 0 <? paid then PARTIALLY_PAID
  else current.

(** The body of the [try] of [add_payment]: the payment of a paid
    partial invoice is repeated on its parent invoice. *)
Definition sync_parent (company_id parent_id : string) (updated : Document)
    (payment_date : string) (method : PaymentMethod) : M Datatypes.unit :=
  parent <- get_document company_id parent_id ;;
  if DocumentType_eqb (document_type parent) INVOICE then
    let partial_gross := abs (gross (totals updated)) in
    let parent_payment :=
      {| amount := partial_gross;
         date := payment_date;
         method := method;
         reference :=
           Some ("Abschlagsrechnung " ++ document_number updated) |} in
    parent_updated <-
      DocumentRepository.add_payment parent_id parent_payment ;;
    pu <- subscript parent_updated ;;
    let parent_paid := paid_amount (totals pu) in
    let parent_gross := abs (gross (totals pu)) in
    if abs (parent_paid - parent_gross) <? 0.01 then
      _ <- DocumentRepository.update_one parent_id (set_status PAID) ;;
      ret tt
    else if 0 <? parent_paid then
      _ <- DocumentRepository.update_one parent_id
             (set_status PARTIALLY_PAID) ;;
      ret tt
    else ret tt
  else ret tt.

Definition add_payment (company_id document_id : string)
    (data : PaymentCreate.t) : M Document :=
  doc <- get_document company_id document_id ;;
  raise_if (negb (is_invoice_type (document_type doc)))
    (HTTPException HTTP_400_BAD_REQUEST
       Payments_only_allowed_on_invoices) ;;;
  raise_if
    match status doc with
    | CANCELLED | PAID | DRAFT => true
    | _ => false
    end
    (HTTPException HTTP_400_BAD_REQUEST
       (Cannot_add_payment_to (status doc))) ;;;
  let remaining := remaining_amount (totals doc) in
  let amount := PaymentCreate.amount data in
  raise_if (remaining + 0.01 <? amount)
    (HTTPException HTTP_400_BAD_REQUEST
       (Payment_amount_exceeds_remaining amount remaining)) ;;;
  let payment_date := str_or (PaymentCreate.date data) today in
  let payment_record :=
    Build_Payment amount payment_date (PaymentCreate.method data) None in
  updated <- DocumentRepository.add_payment document_id payment_record ;;
  u <- subscript updated ;;
  let new_status :=
    status_after_payment (paid_amount (totals u)) (gross (totals u))
      (status u) in
  updated <-
    (if negb (DocumentStatus_eqb new_status (status u))
     then DocumentRepository.update_one document_id (set_status new_status)
     else ret updated) ;;
  u <- subscript updated ;;
  when (DocumentType_eqb (document_type u) PARTIAL_INVOICE
        && DocumentStatus_eqb new_status PAID
        && negb (String.eqb (related_document_id u) ""))
    (try_except_HTTPException
       (sync_parent company_id (related_document_id u) u payment_date
          (PaymentCreate.method data))) ;;;
  _serialize_dates updated.

Definition add_reminder (company_id document_id : string)
    (data : ReminderCreate.t) : M Document :=
  doc <- get_document company_id document_id ;;
  raise_if (negb (is_invoice_type (document_type doc)))
    (HTTPException HTTP_400_BAD_REQUEST Reminders_only_for_invoices) ;;;
  raise_if
    match status doc with
    | SENT | OVERDUE | PARTIALLY_PAID => false
    | _ => true
    end
    (HTTPException HTTP_400_BAD_REQUEST
       (Cannot_add_reminder_to (status doc))) ;;;
  let existing_reminders := reminders doc in
  let next_level := (List.length existing_reminders + 1)%nat in
  raise_if (MAX_REMINDER_LEVEL cfg <? next_level)%nat
    (HTTPException HTTP_400_BAD_REQUEST
       (Maximum_reminder_level_reached (MAX_REMINDER_LEVEL cfg))) ;;;
  let reminder_record :=
    {| level := next_level;
       reminder_date := today;
       fee := ReminderCreate.fee data |} in
  updated <- DocumentRepository.add_reminder document_id reminder_record ;;
  u <- subscript updated ;;
  updated <-
    match status u with
    | OVERDUE | PARTIALLY_PAID => ret updated
    | _ => DocumentRepository.update_one document_id (set_status OVERDUE)
    end ;;
  _serialize_dates updated.

Definition cancel_document (company_id document_id : string)
    : M Document :=
  doc <- get_document company_id document_id ;;
  raise_if (negb (is_invoice_type (document_type doc)))
    (HTTPException HTTP_400_BAD_REQUEST Only_invoices_can_be_cancelled) ;;;
  raise_if (DocumentStatus_eqb (status doc) CANCELLED)
    (HTTPException HTTP_400_BAD_REQUEST Document_already_cancelled) ;;;
  _ <- DocumentRepository.update_one document_id (set_status CANCELLED) ;;
  cancel_number <- _generate_document_number company_id CANCELLATION ;;
  now <- now_utc ;;
  let cancel_doc :=
    new_document now company_id (customer_id doc) CANCELLATION
      cancel_number (items doc) (is_kleinunternehmer doc)
      ("Stornierung zu " ++ document_number doc)
      14%Z today "" today "" document_id in
  cancel_id <- DocumentRepository.insert_one cancel_doc ;;
  created <- DocumentRepository.find_by_id cancel_id ;;
  _serialize_dates created.

Definition create_credit_note (company_id document_id : string)
    : M Document :=
  doc <- get_document company_id document_id ;;
  raise_if (negb (is_invoice_type (document_type doc)))
    (HTTPException HTTP_400_BAD_REQUEST
       Credit_notes_can_only_reference_invoices) ;;;
  raise_if (DocumentStatus_eqb (status doc) CANCELLED)
    (HTTPException HTTP_400_BAD_REQUEST
       Cannot_credit_a_cancelled_document) ;;;
  credit_number <- _generate_document_number company_id CREDIT_NOTE ;;
  now <- now_utc ;;
  let credit_doc :=
    new_document now company_id (customer_id doc) CREDIT_NOTE
      credit_number (items doc) (is_kleinunternehmer doc)
      ("Gutschrift zu " ++ document_number doc)
      14%Z today "" today "" document_id in
  credit_id <- DocumentRepository.insert_one credit_doc ;;
  created <- DocumentRepository.find_by_id credit_id ;;
  _serialize_dates created.

(** The sum [create_partial_invoice] compares with the invoice total:
    the absolute gross of the partial invoices among the related
    documents the repository returned. *)
Definition partial_sum (existing_partials : list Document) : float :=
  Py.sum
    (map (fun p => abs (gross (totals p)))
       (filter (fun p => DocumentType_eqb (document_type p) PARTIAL_INVOICE)
          existing_partials)).

Definition create_partial_invoice (company_id document_id : string)
    (data : CreatePartialRequest.t) : M Document :=
  doc <- get_document company_id document_id ;;
  raise_if (negb (DocumentType_eqb (document_type doc) INVOICE))
    (HTTPException HTTP_400_BAD_REQUEST
       Partial_invoices_can_only_be_created_from_invoices) ;;;
  raise_if (DocumentStatus_eqb (status doc) CANCELLED)
    (HTTPException HTTP_400_BAD_REQUEST
       Cannot_create_partial_invoice_from_a_cancelled_document) ;;;
  existing_partials <-
    DocumentRepository.find_related_documents company_id document_id ;;
  let partial_sum := partial_sum existing_partials in
  let original_gross := abs (gross (totals doc)) in
  let requested_amount := CreatePartialRequest.amount data in
  raise_if (original_gross + 0.01 <? partial_sum + requested_amount)
    (HTTPException HTTP_400_BAD_REQUEST
       (Partial_total_would_exceed_invoice_gross
          (partial_sum + requested_amount) original_gross)) ;;;
  is_kleinunternehmer <- company_is_kleinunternehmer company_id ;;
  resolved_items <-
    match CreatePartialRequest.items data with
    | Some (i :: r) =>
        _resolve_line_items company_id (i :: r) is_kleinunternehmer
    | _ =>
        let vat_rate := if is_kleinunternehmer then 0.0 else 0.19 in
        let net_amount :=
          if Py.truthy vat_rate
          then Py.round2 (requested_amount / (1 + vat_rate))
          else requested_amount in
        ret [new_line_item "" ("Abschlag zu " ++ document_number doc) ""
               1 "Pauschal" net_amount vat_rate 0.0]
    end ;;
  partial_number <-
    _generate_document_number company_id PARTIAL_INVOICE ;;
  let issue_date := today in
  let payment_terms_days := CreatePartialRequest.payment_terms_days data in
  let due_date := _calc_due_date issue_date payment_terms_days in
  now <- now_utc ;;
  let partial_doc :=
    new_document now company_id (customer_id doc) PARTIAL_INVOICE
      partial_number resolved_items is_kleinunternehmer
      (str_or (Some (CreatePartialRequest.notes data))
         ("Abschlagsrechnung zu " ++ document_number doc))
      payment_terms_days issue_date "" due_date "" document_id in
  partial_id <- DocumentRepository.insert_one partial_doc ;;
  created <- DocumentRepository.find_by_id partial_id ;;
  _serialize_dates created.


(** MongoDB's [$regex] with the option [i]: whether the pattern is found
    in the text, whatever the case of the letters.  The pattern is taken
    to be a well-formed regular expression. *)
Variable regex_search : string -> string -> bool.

Definition DOCUMENT_SEARCH_FIELDS : list string :=
  ["document_number"; "notes"].

(** [[self._serialize_dates(item) for item in items]] *)
Fixpoint serialize_all (items : list Document) : M (list Document) :=
  match items with
  | [] => ret []
  | item :: rest =>
      d <- _serialize_dates (Some item) ;;
      r <- serialize_all rest ;;
      ret (d :: r)
  end.

(** [if value:] on an optional string of the request, as a dictionary
    with the key when the string is there and not empty. *)
Definition filter_entry (key : string) (value : option string)
    : list (string * string) :=
  match value with
  | Some v => if String.eqb v "" then [] else [(key, v)]
  | None => []
  end.

Definition list_documents (company_id : string) (page page_size : Z)
    (search document_type document_status : option string)
    : M (Pagination.Paginated Document) :=
  let extra_filters :=
    (filter_entry "document_type" document_type
     ++ filter_entry "status" document_status)%list in
  let query :=
    Pagination.build_filter_query company_id search
      (Some DOCUMENT_SEARCH_FIELDS) (Some extra_filters) in
  let pag := Pagination.build_pagination_query page page_size in
  items <-
    DocumentRepository.find_many regex_search query
      (Pagination.skip pag) (Pagination.limit pag) ;;
  total <- DocumentRepository.count regex_search query ;;
  serialized <- serialize_all items ;;
  ret (Pagination.build_paginated_response serialized total page page_size).

(** [value = otherwise; try: value = c  except HTTPException: pass] *)
Definition try_except_HTTPException_keep {A} (c : M A) (otherwise : A)
    : M A :=
  fun db =>
    match c db with
    | (Raised (HTTPException _ _), db') => (Return otherwise, db')
    | r => r
    end.

(** The dictionary [get_related_documents] builds of a document. *)
Definition summary (d : Document) : RelatedDocuments.Summary :=
  {| RelatedDocuments.id := id d;
     RelatedDocuments.document_number := document_number d;
     RelatedDocuments.document_type := document_type d;
     RelatedDocuments.status := status d;
     RelatedDocuments.gross := gross (totals d) |}.

Definition get_related_documents (company_id document_id : string)
    : M RelatedDocuments.t :=
  doc <- get_document company_id document_id ;;
  children <-
    DocumentRepository.find_related_documents company_id document_id ;;
  let children_serialized := map summary children in
  let related_id := related_document_id doc in
  parent <-
    (if negb (String.eqb related_id "")
     then
       try_except_HTTPException_keep
         (parent_doc <- get_document company_id related_id ;;
          ret (Some (summary parent_doc)))
         None
     else ret None) ;;
  ret {| RelatedDocuments.parent := parent;
         RelatedDocuments.children := children_serialized |}.

End Service.
End DocumentService.

Import DocumentService.

(** ** The items of a document in memory

    In the running service a document is a dictionary whose ["items"] is
    a list of item dictionaries.  [new_document] assigns to the keys of
    these dictionaries in place, so it matters whether two documents hold
    the same dictionaries.  The heap below holds the item dictionaries by
    address; a list object is a list of addresses. *)

Module Memory.

Local Open Scope nat_scope.
Local Open Scope list_scope.

Definition address := nat.

Definition heap := list LineItem.

(** [item = items[k]] *)
Definition read (h : heap) (a : address) : option LineItem := nth_error h a.

(** Assignments to keys of the dictionary at [a]. *)
Fixpoint write (f : LineItem -> LineItem) (a : address) (h : heap)
    {struct h} : heap :=
  match h, a with
  | [], _ => []
  | x :: r, O => f x :: r
  | x :: r, S a' => x :: write f a' r
  end.

Definition values (h : heap) (items : list address) : list (option LineItem) :=
  map (read h) items.

(** [copy.deepcopy(items)]: a new list of new dictionaries. *)
Fixpoint deepcopy (h : heap) (items : list address) : heap * list address :=
  match items with
  | [] => (h, [])
  | a :: r =>
      match read h a with
      | Some v =>
          let (h', r') := deepcopy (h ++ [v]) r in (h', List.length h :: r')
      | None => deepcopy h r
      end
  end.

(** The loop of [new_document] over the list it was given. *)
Definition zero_vat_in_place (h : heap) (items : list address) : heap :=
  fold_left (fun h' a => write zero_vat a h') items h.

(** The items of [_create_order_confirmation_from_quote]: the copy, then
    [new_document] on the copy. *)
Definition order_confirmation_items (h : heap) (quote_items : list address)
    (is_kleinunternehmer : bool) : heap * list address :=
  let (h1, items_copy) := deepcopy h quote_items in
  (if is_kleinunternehmer then zero_vat_in_place h1 items_copy else h1,
   items_copy).

(** Every address of the list is allocated. *)
Definition valid (h : heap) (items : list address) : Prop :=
  Forall (fun a => a < List.length h) items.

End Memory.

(** ** Vocabulary of the properties, sample data and scenarios *)

(** A field update never changes the identifier. *)
Definition keeps_id (f : Document -> Document) : Prop :=
  forall d, id (f d) = id d.

(** The transition table as section 4.3 of the specification words it:
    groups of document types, and for each current status the targets. *)
Definition spec_transition_table
    : list (list DocumentType
            * list (DocumentStatus * list DocumentStatus)) :=
  [ ([INVOICE; PARTIAL_INVOICE],
     [ (DRAFT, [SENT; CANCELLED]);
       (SENT, [PAID; PARTIALLY_PAID; OVERDUE; CANCELLED]);
       (PARTIALLY_PAID, [PAID; OVERDUE; CANCELLED]);
       (OVERDUE, [PAID; PARTIALLY_PAID; CANCELLED]) ]);
    ([QUOTE],
     [ (DRAFT, [SENT; CANCELLED]);
       (SENT, [ACCEPTED; REJECTED; CANCELLED]);
       (ACCEPTED, [CONVERTED]) ]);
    ([DELIVERY_NOTE; ORDER_CONFIRMATION; CREDIT_NOTE],
     [ (DRAFT, [SENT; CANCELLED]) ]);
    ([CANCELLATION],
     [ (DRAFT, [SENT]) ]) ].

(** [(current, target)] is an edge of the table for type [t]. *)
Definition spec_edge (t : DocumentType) (current target : DocumentStatus)
    : bool :=
  existsb
    (fun group =>
       existsb (DocumentType_eqb t) (fst group)
       && existsb
            (fun row =>
               DocumentStatus_eqb current (fst row)
               && existsb (DocumentStatus_eqb target) (snd row))
            (snd group))
    spec_transition_table.

(** The order confirmation [_create_order_confirmation_from_quote]
    inserts, given the clock, the number and the identifier it gets. *)
Definition order_confirmation_of (today : string)
    (calc_due : string -> Z -> string) (company quote_id : string)
    (quote : Document) (now : nat) (order_number : string) : Document :=
  new_document now company (customer_id quote) ORDER_CONFIRMATION
    order_number (items quote) (is_kleinunternehmer quote)
    ("Auftragsbestätigung zu Angebot " ++ document_number quote)
    (payment_terms_days quote)
    (str_or (Some (issue_date quote)) today)
    (service_date quote)
    (str_or (Some (due_date quote))
       (calc_due (str_or (Some (issue_date quote)) today)
          (payment_terms_days quote)))
    "" quote_id.

(** [doc["status"] in (SENT, OVERDUE, PARTIALLY_PAID)] *)
Definition reminder_allowed (s : DocumentStatus) : Prop :=
  s = SENT \/ s = OVERDUE \/ s = PARTIALLY_PAID.

Definition emin64 := SpecFloat.emin prec emax.

(** [doc["status"] in (CANCELLED, PAID, DRAFT)] *)
Definition payment_refused (s : DocumentStatus) : bool :=
  match s with
  | CANCELLED | PAID | DRAFT => true
  | _ => false
  end.

(** The paid document as [add_payment] leaves it: the repository update,
    then the status update when the status changes. *)
Definition paid_document (now : nat) (payment : Payment) (d : Document)
    : Document :=
  let u := set_updated_at now (DocumentRepository.pay payment d) in
  let new_status :=
    status_after_payment (paid_amount (totals u)) (gross (totals u))
      (status u) in
  if negb (DocumentStatus_eqb new_status (status u))
  then set_updated_at (S now) (set_status new_status u)
  else u.

(** The parent invoice as the cascade leaves it. *)
Definition synced_parent (now : nat) (payment : Payment) (p : Document)
    : Document :=
  let pu := set_updated_at now (DocumentRepository.pay payment p) in
  if abs (paid_amount (totals pu) - abs (gross (totals pu))) <? 0.01
  then set_updated_at (S now) (set_status PAID pu)
  else if 0 <? paid_amount (totals pu)
       then set_updated_at (S now) (set_status PARTIALLY_PAID pu)
       else pu.

(** The payment the cascade records on the parent. *)
Definition parent_payment_of (child : Document) (payment_date : string)
    (method : PaymentMethod) : Payment :=
  {| amount := abs (gross (totals child));
     date := payment_date;
     method := method;
     reference := Some ("Abschlagsrechnung " ++ document_number child) |}.

(** The documents after the cascade step of [add_payment]: when the step
    runs and the parent is an invoice of the caller, the parent is
    [synced_parent]; in every other case nothing changes. *)
Definition documents_after_sync (runs : bool) (company : string)
    (u : Document) (now : nat) (payment_date : string)
    (method : PaymentMethod) (ds : list Document) : list Document :=
  match (if runs then find_doc (related_document_id u) ds else None) with
  | Some p =>
      if String.eqb (owner p) company
         && DocumentType_eqb (document_type p) INVOICE
      then update_doc (related_document_id u)
             (synced_parent now (parent_payment_of u payment_date method)) ds
      else ds
  | None => ds
  end.

(** [updated] is a partial invoice that the payment brought to PAID and
    that names a related document. *)
Definition cascades (u : Document) : bool :=
  DocumentType_eqb (document_type u) PARTIAL_INVOICE
  && DocumentStatus_eqb (status u) PAID
  && negb (String.eqb (related_document_id u) "").

(** The payment record [add_payment] builds from the request. *)
Definition payment_record_of (today : string) (data : PaymentCreate.t)
    : Payment :=
  Build_Payment (PaymentCreate.amount data)
    (str_or (PaymentCreate.date data) today) (PaymentCreate.method data) None.

(** A stored invoice with gross total 1073.98, sent and unpaid, in a
    database of one company and one customer. *)
Definition invoice_1073_98 : Document :=
  {| id := oid 0;
     company_id := "c1";
     customer_id := "k1";
     document_type := INVOICE;
     document_number := "INV-000001";
     status := SENT;
     items :=
       [new_line_item "" "Webentwicklung" "" 1 "Pauschal" 902.5 0.19 0;
        new_line_item "" "Rundung" "" 1 "Pauschal" 0.01 0 0];
     totals := {| net := 902.51; vat := 171.47; gross := 1073.98;
                  paid_amount := 0; remaining_amount := 1073.98 |};
     payments := [];
     reminders := [];
     is_kleinunternehmer := false;
     notes := "";
     payment_terms_days := 14%Z;
     issue_date := "2026-01-01";
     service_date := "";
     due_date := "2026-01-15";
     pdf_path := "";
     related_document_id := "";
     created_at := 0;
     updated_at := 1 |}.

Definition db_1073_98 : DB :=
  {| documents := [invoice_1073_98];
     counters := [("c1", "document_invoice", 1%nat)];
     companies := [("c1", {| Company.is_kleinunternehmer := false |})];
     customers := [("k1", {| Customer.company_id := "c1" |})];
     products := [];
     next_oid := 1;
     clock := 2 |}.

Definition pay_by_bank (a : float) : PaymentCreate.t :=
  {| PaymentCreate.amount := a;
     PaymentCreate.date := None;
     PaymentCreate.method := BANK |}.

(** A sent partial invoice of 200.00 that refers to the invoice of
    1073.98. *)
Definition partial_200 : Document :=
  {| id := oid 1;
     company_id := "c1";
     customer_id := "k1";
     document_type := PARTIAL_INVOICE;
     document_number := "TINV-000001";
     status := SENT;
     items := [new_line_item "" "Abschlag zu INV-000001" "" 1 "Pauschal"
                 168.07 0.19 0];
     totals := {| net := 168.07; vat := 31.93; gross := 200;
                  paid_amount := 0; remaining_amount := 200 |};
     payments := [];
     reminders := [];
     is_kleinunternehmer := false;
     notes := "Abschlagsrechnung zu INV-000001";
     payment_terms_days := 14%Z;
     issue_date := "2026-01-10";
     service_date := "";
     due_date := "2026-01-24";
     pdf_path := "";
     related_document_id := oid 0;
     created_at := 2;
     updated_at := 3 |}.

Definition db_with_partial : DB :=
  {| documents := [invoice_1073_98; partial_200];
     counters := [("c1", "document_invoice", 1%nat);
                  ("c1", "document_partial_invoice", 1%nat)];
     companies := [("c1", {| Company.is_kleinunternehmer := false |})];
     customers := [("k1", {| Customer.company_id := "c1" |})];
     products := [];
     next_oid := 2;
     clock := 4 |}.

Definition db_empty : DB :=
  {| documents := [];
     counters := [];
     companies := [("c1", {| Company.is_kleinunternehmer := false |})];
     customers := [("k1", {| Customer.company_id := "c1" |})];
     products := [];
     next_oid := 0;
     clock := 0 |}.

(** A stand-in for the calendar arithmetic of [_calc_due_date]. *)
Definition same_day (issue_date : string) (days : Z) : string := issue_date.

Definition free_text_item (name : string)
    (quantity unit_price vat_rate discount_percent : float)
    : LineItemCreate.t :=
  {| LineItemCreate.product_id := None;
     LineItemCreate.quantity := quantity;
     LineItemCreate.discount_percent := discount_percent;
     LineItemCreate.name := Some name;
     LineItemCreate.description := None;
     LineItemCreate.unit := None;
     LineItemCreate.unit_price := Some unit_price;
     LineItemCreate.vat_rate := Some vat_rate |}.

Definition document_request (t : DocumentType)
    (items : list LineItemCreate.t) : DocumentCreate.t :=
  {| DocumentCreate.customer_id := "k1";
     DocumentCreate.document_type := t;
     DocumentCreate.items := items;
     DocumentCreate.notes := None;
     DocumentCreate.payment_terms_days := 14%Z;
     DocumentCreate.issue_date := None;
     DocumentCreate.service_date := None;
     DocumentCreate.due_date := None;
     DocumentCreate.related_document_id := None |}.

Definition partial_request (a : float) : CreatePartialRequest.t :=
  {| CreatePartialRequest.amount := a;
     CreatePartialRequest.items := None;
     CreatePartialRequest.notes := "";
     CreatePartialRequest.payment_terms_days := 14%Z |}.

(** An invoice of 100.00 is sent; a partial invoice over the whole 100.00
    is created and sent; the invoice receives a direct payment of 50.00;
    then the partial invoice is paid in full.  The computation returns
    the parent before the last payment, the paid partial invoice, and the
    parent after it. *)
Definition overpaid_parent_scenario : M (Document * Document * Document) :=
  let T := "2026-03-01" in
  inv <- create_document T same_day "c1"
           (document_request INVOICE
              [free_text_item "Auftrag" 1 100 0 0]) ;;
  _ <- update_status T same_day "c1" (id inv) SENT ;;
  part <- create_partial_invoice T same_day "c1" (id inv)
            (partial_request 100) ;;
  _ <- update_status T same_day "c1" (id part) SENT ;;
  _ <- add_payment T "c1" (id inv) (pay_by_bank 50) ;;
  before <- get_document "c1" (id inv) ;;
  paid <- add_payment T "c1" (id part) (pay_by_bank 100) ;;
  after <- get_document "c1" (id inv) ;;
  ret (before, paid, after).

(** The totals of a document after the payments [ps] were appended one
    after the other by the repository. *)
Definition after_payments (ps : list Payment) (d : Document) : Document :=
  fold_left (fun d' p => DocumentRepository.pay p d') ps d.

(** ** Invariants of the document collection

    [preserves I c]: the computation [c] keeps the invariant [I] of the
    database, whether it returns or raises. *)
Definition preserves {A} (I : DB -> Prop) (c : M A) : Prop :=
  forall db, I db -> I (snd (c db)).

(** An invariant [on_documents P] speaks about each stored document. *)
Definition on_documents (P : Document -> Prop) (db : DB) : Prop :=
  Forall P (documents db).

(** The totals are negated absolute values. *)
Definition negated (T : Totals) : Prop :=
  (exists x, net T = - abs x)
  /\ (exists y, vat T = - abs y)
  /\ (exists z, gross T = - abs z).

(** A credit note or cancellation has negated totals. *)
Definition negative_kind_ok (d : Document) : Prop :=
  stores_negative_totals (document_type d) = true -> negated (totals d).

Definition negative_totals_invariant : DB -> Prop :=
  on_documents negative_kind_ok.

(** A field update that keeps the type and the totals. *)
Definition keeps_type_and_totals (f : Document -> Document) : Prop :=
  forall d, document_type (f d) = document_type d /\ totals (f d) = totals d.

(** The calls a client can make, and the database after a series of
    them (a call that raises keeps the writes it made). *)
Inductive Call :=
| Create_document (today company_id : string) (data : DocumentCreate.t)
| Update_document (company_id document_id : string) (data : DocumentUpdate.t)
| Update_status (today company_id document_id : string)
    (new_status : DocumentStatus)
| Convert_quote_to_invoice (today company_id quote_id : string)
    (data : ConvertQuoteRequest.t)
| Add_payment (today company_id document_id : string)
    (data : PaymentCreate.t)
| Add_reminder (today company_id document_id : string)
    (data : ReminderCreate.t)
| Cancel_document (today company_id document_id : string)
| Create_credit_note (today company_id document_id : string)
| Create_partial_invoice (today company_id document_id : string)
    (data : CreatePartialRequest.t).

Definition call (cfg : Settings) (calc_due : string -> Z -> string)
    (c : Call) : M Document :=
  match c with
  | Create_document today company data =>
      create_document today calc_due company data
  | Update_document company i data => update_document company i data
  | Update_status today company i target =>
      update_status today calc_due company i target
  | Convert_quote_to_invoice today company i data =>
      convert_quote_to_invoice today calc_due company i data
  | Add_payment today company i data => add_payment today company i data
  | Add_reminder today company i data =>
      add_reminder cfg today company i data
  | Cancel_document today company i => cancel_document today company i
  | Create_credit_note today company i => create_credit_note today company i
  | Create_partial_invoice today company i data =>
      create_partial_invoice today calc_due company i data
  end.

Definition serve (cfg : Settings) (calc_due : string -> Z -> string)
    (calls : list Call) (db : DB) : DB :=
  fold_left (fun db' c => snd (call cfg calc_due c db')) calls db.

(** An invoice with a positive item is created and credited. *)
Definition credit_note_calls : list Call :=
  [Create_document "2026-03-01" "c1"
     (document_request INVOICE [free_text_item "Auftrag" 1 100 0.19 0]);
   Create_credit_note "2026-03-02" "c1" (oid 0)].

Definition credit_note_of_scenario : Document :=
  nth 1 (documents (serve settings same_day credit_note_calls db_empty))
    invoice_1073_98.

(** What [new_line_item] computes, as a relation between the stored
    fields of an item: each amount is the rounding of an expression over
    the amounts derived before it. *)
Definition derived_before_vat (i : LineItem) : Prop :=
  let subtotal := Py.round2 (quantity i * unit_price i) in
  discount_amount i = Py.round2 (subtotal * (discount_percent i / 100))
  /\ net_amount i = Py.round2 (subtotal - discount_amount i).

Definition derived_with_vat (i : LineItem) : Prop :=
  vat_amount i = Py.round2 (net_amount i * vat_rate i)
  /\ gross_amount i = Py.round2 (net_amount i + vat_amount i).

(** The stored form of an item of a Kleinunternehmer. *)
Definition vat_exempt_form (i : LineItem) : Prop :=
  vat_amount i = 0 /\ gross_amount i = net_amount i.

(** Every resolved item is an output of [new_line_item], with VAT rate 0
    for a Kleinunternehmer. *)
Definition resolved_item (klein : bool) (i : LineItem) : Prop :=
  exists pid nm desc q u price rate disc,
    i = new_line_item pid nm desc q u price
          (if klein then 0 else rate) disc.

(** An invoice with the item of the example (10 x 95.00, 5 % discount,
    19 % VAT) is created in the empty database. *)
Definition created_10_times_95 : Outcome Document * DB :=
  create_document "2026-03-01" same_day "c1"
    (document_request INVOICE
       [free_text_item "Webentwicklung" 10 95 0.19 5])
    db_empty.

Definition invoice_10_times_95 : Document :=
  match fst created_10_times_95 with
  | Return d => d
  | Raised _ => invoice_1073_98
  end.

(** The partial invoices that refer to an invoice: all of them, as the
    claim counts them. *)
Definition partial_children (company invoice_id : string) (db : DB)
    : list Document :=
  filter (fun p => DocumentType_eqb (document_type p) PARTIAL_INVOICE)
    (filter (DocumentRepository.related_to company invoice_id)
       (documents db)).

Fixpoint create_partial_invoices (n : nat) (today company invoice_id : string)
    (a : float) : M Datatypes.unit :=
  match n with
  | O => ret tt
  | S k =>
      _ <- create_partial_invoice today same_day company invoice_id
             (partial_request a) ;;
      create_partial_invoices k today company invoice_id a
  end.

(** An invoice of 100.00 gets a partial invoice over the whole 100.00 and
    then one hundred partial invoices of 0.001 each (net
    [round(0.001 / 1.19, 2) = 0], so their gross is 0 and the cap admits
    them); then a partial invoice of 50.00 is requested.  The computation
    returns the invoice, the first partial invoice, all partial invoices
    of the invoice and the related documents the repository returns,
    both before the last request, and the last partial invoice. *)
Definition cap_scenario
    : M (Document * Document * list Document * list Document * Document) :=
  let T := "2026-03-01" in
  inv <- create_document T same_day "c1"
           (document_request INVOICE
              [free_text_item "Auftrag" 1 100 0 0]) ;;
  first <- create_partial_invoice T same_day "c1" (id inv)
             (partial_request 100) ;;
  create_partial_invoices 100 T "c1" (id inv) 0.001 ;;;
  children <- (fun db => (Return (partial_children "c1" (id inv) db), db)) ;;
  window <- DocumentRepository.find_related_documents "c1" (id inv) ;;
  last <- create_partial_invoice T same_day "c1" (id inv)
            (partial_request 50) ;;
  ret (inv, first, children, window, last).

(** What the cap check of [create_partial_invoice] does decide: it
    compares the requested amount with the partial invoices among the
    related documents the repository returned. *)
Definition related_window (company invoice_id : string) (db : DB)
    : list Document :=
  firstn 100
    (sort_created_at_desc
       (filter (DocumentRepository.related_to company invoice_id)
          (documents db))).

Definition db_exempt : DB :=
  {| documents := [];
     counters := [];
     companies := [("c1", {| Company.is_kleinunternehmer := true |})];
     customers := [("k1", {| Customer.company_id := "c1" |})];
     products := [];
     next_oid := 0;
     clock := 0 |}.

Definition replace_items (items : list LineItemCreate.t) : DocumentUpdate.t :=
  {| DocumentUpdate.customer_id := None;
     DocumentUpdate.items := Some items;
     DocumentUpdate.notes := None;
     DocumentUpdate.payment_terms_days := None;
     DocumentUpdate.issue_date := None;
     DocumentUpdate.service_date := None;
     DocumentUpdate.due_date := None |}.

(** A Kleinunternehmer writes a quote; the company then gives up the
    exemption and the draft gets its items replaced, now with VAT, while
    the quote keeps its flag; the quote is sent and accepted.  The
    computation returns the accepted quote and the documents that refer
    to it. *)
Definition exempt_quote_scenario : M (Document * list Document) :=
  let T := "2026-03-01" in
  let item := free_text_item "Beratung" 1 100 0.19 0 in
  q <- create_document T same_day "c1" (document_request QUOTE [item]) ;;
  _ <- CompanyService.update_company "c1" (Some false) ;;
  _ <- update_document "c1" (id q) (replace_items [item]) ;;
  _ <- update_status T same_day "c1" (id q) SENT ;;
  accepted <- update_status T same_day "c1" (id q) ACCEPTED ;;
  related <- DocumentRepository.find_related_documents "c1" (id q) ;;
  ret (accepted, related).

(** A sent quote of a company that charges VAT. *)
Definition sent_quote : Document :=
  {| id := oid 0;
     company_id := "c1";
     customer_id := "k1";
     document_type := QUOTE;
     document_number := "QUO-000001";
     status := SENT;
     items := [new_line_item "" "Beratung" "" 5 "Stunde" 120 0.19 0];
     totals := {| net := 600; vat := 114; gross := 714;
                  paid_amount := 0; remaining_amount := 714 |};
     payments := [];
     reminders := [];
     is_kleinunternehmer := false;
     notes := "Testangebot";
     payment_terms_days := 30%Z;
     issue_date := "2026-01-01";
     service_date := "";
     due_date := "2026-01-31";
     pdf_path := "";
     related_document_id := "";
     created_at := 0;
     updated_at := 1 |}.

Definition db_sent_quote : DB :=
  {| documents := [sent_quote];
     counters := [("c1", "document_quote", 1%nat)];
     companies := [("c1", {| Company.is_kleinunternehmer := false |})];
     customers := [("k1", {| Customer.company_id := "c1" |})];
     products := [];
     next_oid := 1;
     clock := 2 |}.

(** ** Listing

    What the filter of [list_documents] selects, said on the fields of a
    document: the company, the search text in the number or the notes,
    the type and the status, where an absent or empty argument selects
    everything. *)
Definition selected (regex : string -> string -> bool) (company : string)
    (search by_type by_status : option string) (d : Document)
    : bool :=
  String.eqb (company_id d) company
  && match search with
     | Some s =>
         String.eqb s ""
         || regex s (document_number d) || regex s (notes d)
     | None => true
     end
  && match by_type with
     | Some t => String.eqb t "" || String.eqb (type_name (document_type d)) t
     | None => true
     end
  && match by_status with
     | Some s => String.eqb s "" || String.eqb (status_name (status d)) s
     | None => true
     end.

(** All documents a listing ranges over, newest first. *)
Definition listing (regex : string -> string -> bool) (company : string)
    (search by_type by_status : option string) (db : DB)
    : list Document :=
  sort_created_at_desc
    (filter (selected regex company search by_type by_status)
       (documents db)).

(** The items and the page count [list_documents] answers with. *)
Definition page_items (regex : string -> string -> bool) (company : string)
    (page_size : Z) (search by_type by_status : option string)
    (db : DB) (page : Z) : list Document :=
  match fst (list_documents regex company page page_size search
               by_type by_status db) with
  | Return r => Pagination.items r
  | Raised _ => []
  end.

(** The pages [1 .. n]. *)
Definition pages (n : Z) : list Z := map Z.of_nat (seq 1 (Z.to_nat n)).

(** The number of pages [list_documents] reports. *)
Definition page_count (regex : string -> string -> bool) (company : string)
    (page_size : Z) (search by_type by_status : option string) (db : DB)
    : Z :=
  match fst (list_documents regex company 1 page_size search by_type
               by_status db) with
  | Return r => Pagination.total_pages r
  | Raised _ => 0%Z
  end.

(** The company a filter is scoped to: the one it was built for, unless
    the extra filters name ["company_id"] themselves. *)
Definition scope (company : string) (extra : option (list (string * string)))
    : string :=
  match extra with
  | Some es =>
      fold_left
        (fun c kv => if String.eqb (fst kv) "company_id" then snd kv else c)
        es company
  | None => company
  end.

(** ** Document numbers

    [int(s)] on a string of decimal digits. *)
Fixpoint int_of_digits (acc : nat) (s : string) : nat :=
  match s with
  | EmptyString => acc
  | String c r => int_of_digits (10 * acc + (nat_of_ascii c - 48)) r
  end.

Definition int (s : string) : nat := int_of_digits 0 s.

(** The number [_generate_document_number] builds from a sequence
    number, and the counter it reads. *)
Definition number_of (t : DocumentType) (seq : nat) : string :=
  DOCUMENT_NUMBER_PREFIX t ++ "-" ++ zero_pad 6 seq.

Definition counter_type_of (t : DocumentType) : string :=
  "document_" ++ lower (type_name t).

(** The sequence number a counter has reached; 0 when the counter does
    not exist. *)
Definition sequence (company : string) (t : DocumentType) (db : DB) : nat :=
  match CounterRepository.find_counter company (counter_type_of t)
          (counters db) with
  | Some n => n
  | None => 0
  end.

(** ** The writes of the service

    What the service methods do to the database, one repository call at
    a time, each with what the method has checked before it makes the
    call.  [change cfg d d']: a stored document [d] is replaced by [d']. *)

(** [d'] differs from [d] at most in the fields [update_document] sets. *)
Definition edit_of (d d' : Document) : Prop :=
  id d' = id d
  /\ owner d' = owner d
  /\ document_type d' = document_type d
  /\ document_number d' = document_number d
  /\ status d' = status d
  /\ payments d' = payments d
  /\ reminders d' = reminders d
  /\ is_kleinunternehmer d' = is_kleinunternehmer d
  /\ pdf_path d' = pdf_path d
  /\ related_document_id d' = related_document_id d
  /\ created_at d' = created_at d.

(** The documents a payment can reach: an invoice, directly or as the
    parent of a paid partial invoice, and a partial invoice whose status
    [add_payment] admits. *)
Definition payable (d : Document) : Prop :=
  document_type d = INVOICE
  \/ (document_type d = PARTIAL_INVOICE
      /\ payment_refused (status d) = false).

Definition settled (s : DocumentStatus) : Prop :=
  s = PAID \/ s = PARTIALLY_PAID.

Inductive change (cfg : Settings) (d : Document) : Document -> Prop :=
| change_status (now : nat) (s : DocumentStatus) :
    spec_edge (document_type d) (status d) s = true ->
    change cfg d (set_updated_at now (set_status s d))
| change_edit (d' : Document) :
    status d = DRAFT -> edit_of d d' -> change cfg d d'
| change_convert (now : nat) :
    document_type d = QUOTE -> status d = ACCEPTED ->
    change cfg d (set_updated_at now (set_status CONVERTED d))
| change_cancel (now : nat) :
    is_invoice_type (document_type d) = true -> status d <> CANCELLED ->
    change cfg d (set_updated_at now (set_status CANCELLED d))
| change_pay (now : nat) (p : Payment) :
    payable d ->
    change cfg d (set_updated_at now (DocumentRepository.pay p d))
| change_settle (now : nat) (s : DocumentStatus) :
    payable d -> settled s ->
    change cfg d (set_updated_at now (set_status s d))
| change_remind (now : nat) (r : Reminder) :
    is_invoice_type (document_type d) = true ->
    reminder_allowed (status d) ->
    level r = (List.length (reminders d) + 1)%nat ->
    (level r <= MAX_REMINDER_LEVEL cfg)%nat ->
    change cfg d (set_updated_at now (set_reminders (reminders d ++ [r]) d)).

(** A document as [new_document] builds it for the company, with the
    given type and number. *)
Definition issued_new (now : nat) (company : string) (t : DocumentType)
    (number : string) (d : Document) : Prop :=
  exists customer its klein notes days issue service due related,
    d = new_document now company customer t number its klein notes days
          issue service due "" related.

(** The database after [_generate_document_number], [now_utc] and
    [insert_one] of the document [d]. *)
Definition issue (company : string) (t : DocumentType) (d : Document)
    (db : DB) : DB :=
  with_next_oid (S (next_oid db))
    (with_documents (documents db ++ [set_id (oid (next_oid db)) d])
       (with_clock (S (clock db))
          (with_counters
             (snd (CounterRepository.upsert_inc company (counter_type_of t)
                     (counters db)))
             db))).

(** The database after a repository update that puts [d'] in the place
    of the document with the identifier [i]. *)
Definition replace (i : string) (d' : Document) (db : DB) : DB :=
  with_documents (update_doc i (fun _ => d') (documents db))
    (with_clock (S (clock db)) db).

(** One write of a call made for the company: the replacement of one of
    the company's documents along [change], or the insertion of a new
    document under the next number of its type. *)
Inductive write (cfg : Settings) (company : string) (db : DB) : DB -> Prop :=
| write_change (i : string) (d d' : Document) :
    find_doc i (documents db) = Some d ->
    owner d = company ->
    change cfg d d' ->
    write cfg company db (replace i d' db)
| write_issue (t : DocumentType) (d : Document) :
    issued_new (clock db) company t
      (number_of t (S (sequence company t db))) d ->
    write cfg company db (issue company t d db).

Inductive writes (cfg : Settings) (company : string) (db : DB) : DB -> Prop :=
| writes_none : writes cfg company db db
| writes_more (db1 db2 : DB) :
    writes cfg company db db1 -> write cfg company db1 db2 ->
    writes cfg company db db2.

(** The company a call is made for. *)
Definition caller (c : Call) : string :=
  match c with
  | Create_document _ company _ => company
  | Update_document company _ _ => company
  | Update_status _ company _ _ => company
  | Convert_quote_to_invoice _ company _ _ => company
  | Add_payment _ company _ _ => company
  | Add_reminder _ company _ _ => company
  | Cancel_document _ company _ => company
  | Create_credit_note _ company _ => company
  | Create_partial_invoice _ company _ _ => company
  end.

(** The outcome of a call: it returns after some writes, or it raises an
    [HTTPException] with the status 404 or 400 before any write. *)
Definition runs {A} (cfg : Settings) (company : string) (db : DB)
    (r : Outcome A * DB) : Prop :=
  (exists a db', r = (Return a, db') /\ writes cfg company db db')
  \/ (exists code detail,
        r = (Raised (HTTPException code detail), db)
        /\ (code = HTTP_404_NOT_FOUND \/ code = HTTP_400_BAD_REQUEST)).

(** ** The history of a stored document *)

(** A document that no method changes any more: a cancelled partial
    invoice, and a document that is neither an invoice nor a partial
    invoice, is not a draft and has no transition left in the table of
    [_validate_status_transition].  An invoice is never in this state,
    since a paid partial invoice reaches it whatever its status. *)
Definition frozen (d : Document) : bool :=
  match document_type d with
  | INVOICE => false
  | PARTIAL_INVOICE => DocumentStatus_eqb (status d) CANCELLED
  | t =>
      negb (DocumentStatus_eqb (status d) DRAFT)
      && match allowed t (status d) with [] => true | _ => false end
  end.

(** The reminders of a document are numbered 1, 2, ... and are no more
    than the configured maximum. *)
Definition reminders_ok (cfg : Settings) (d : Document) : Prop :=
  map level (reminders d) = seq 1 (List.length (reminders d))
  /\ (List.length (reminders d) <= MAX_REMINDER_LEVEL cfg)%nat.

(** The fields no method sets after the insertion. *)
Definition same_identity (d d' : Document) : Prop :=
  id d' = id d
  /\ owner d' = owner d
  /\ document_type d' = document_type d
  /\ document_number d' = document_number d
  /\ related_document_id d' = related_document_id d
  /\ created_at d' = created_at d
  /\ is_kleinunternehmer d' = is_kleinunternehmer d
  /\ pdf_path d' = pdf_path d.

(** What an issued document keeps: its content and the totals computed
    from it. *)
Definition same_content (d d' : Document) : Prop :=
  items d' = items d
  /\ net (totals d') = net (totals d)
  /\ vat (totals d') = vat (totals d)
  /\ gross (totals d') = gross (totals d)
  /\ customer_id d' = customer_id d
  /\ notes d' = notes d
  /\ payment_terms_days d' = payment_terms_days d
  /\ issue_date d' = issue_date d
  /\ service_date d' = service_date d
  /\ due_date d' = due_date d.

(** [d'] is a later state of the stored document [d]. *)
Record evolves (cfg : Settings) (d d' : Document) : Prop := {
  evolves_identity : same_identity d d';
  evolves_ledger :
    exists ps rs,
      payments d' = (payments d ++ ps)%list
      /\ reminders d' = (reminders d ++ rs)%list
      /\ (status d <> DRAFT ->
          paid_amount (totals d')
          = fold_left PrimFloat.add (map amount ps) (paid_amount (totals d))
          /\ remaining_amount (totals d')
             = fold_left (fun r a => r + - a) (map amount ps)
                 (remaining_amount (totals d)));
  evolves_issued :
    status d <> DRAFT -> status d' <> DRAFT /\ same_content d d';
  evolves_frozen : frozen d = true -> d' = d;
  evolves_reminders : reminders_ok cfg d -> reminders_ok cfg d'
}.

(** A document as it is right after its insertion. *)
Definition newborn (d : Document) : Prop :=
  status d = DRAFT /\ payments d = [] /\ reminders d = []
  /\ paid_amount (totals d) = 0
  /\ remaining_amount (totals d) = gross (totals d).

(** A document that was inserted and has evolved since. *)
Definition born (cfg : Settings) (d' : Document) : Prop :=
  exists d, newborn d /\ evolves cfg d d'.

(** The collection [ds'] holds the documents of [ds], in their places
    and each related to its earlier state by [R], followed by new
    documents, each in [N]. *)
Definition grows (R : Document -> Document -> Prop) (N : Document -> Prop)
    (ds ds' : list Document) : Prop :=
  exists olds news,
    ds' = (olds ++ news)%list /\ Forall2 R ds olds /\ Forall N news.

(** Identifiers: distinct, and issued below [next_oid]. *)
Definition ids_ok (db : DB) : Prop :=
  NoDup (map id (documents db))
  /\ Forall (fun d => exists k, (k < next_oid db)%nat /\ id d = oid k)
       (documents db).

(** The key of the unique index of the documents collection. *)
Definition number_key (d : Document) : string * string :=
  (owner d, document_number d).

(** Document numbers: distinct within a company, and issued by the
    counter of the company and the type. *)
Definition numbers_ok (db : DB) : Prop :=
  NoDup (map number_key (documents db))
  /\ Forall
       (fun d =>
          exists n,
            (n <= sequence (owner d) (document_type d) db)%nat
            /\ document_number d = number_of (document_type d) n)
       (documents db).

(** The document a call names, if it names one. *)
Definition target (c : Call) : option string :=
  match c with
  | Create_document _ _ _ => None
  | Update_document _ i _ => Some i
  | Update_status _ _ i _ => Some i
  | Convert_quote_to_invoice _ _ i _ => Some i
  | Add_payment _ _ i _ => Some i
  | Add_reminder _ _ i _ => Some i
  | Cancel_document _ _ i => Some i
  | Create_credit_note _ _ i => Some i
  | Create_partial_invoice _ _ i _ => Some i
  end.

(** A call for the company leaves [d'] as [d] was, unless [d] is a
    document of the company; the owner never changes. *)
Definition untouched_unless_of (company : string) (d d' : Document) : Prop :=
  owner d' = owner d /\ (owner d <> company -> d' = d).

(** ** Requests and stored documents of the method properties *)

(** The company's tax flag as the service reads it: absent company,
    absent flag and [False] are the same. *)
Definition company_flag (company : string) (db : DB) : bool :=
  match assoc company (companies db) with
  | Some c => Company.is_kleinunternehmer c
  | None => false
  end.

(** The value of a field after an update: the one of the request, or
    else the stored one. *)
Definition or_stored {A} (v : option A) (stored : A) : A :=
  match v with
  | Some a => a
  | None => stored
  end.

(** An update request that sets no field. *)
Definition empty_update : DocumentUpdate.t :=
  {| DocumentUpdate.customer_id := None;
     DocumentUpdate.items := None;
     DocumentUpdate.notes := None;
     DocumentUpdate.payment_terms_days := None;
     DocumentUpdate.issue_date := None;
     DocumentUpdate.service_date := None;
     DocumentUpdate.due_date := None |}.

(** The quote of [db_sent_quote], as a draft and accepted. *)
Definition draft_quote : Document := set_status DRAFT sent_quote.

Definition db_draft_quote : DB := with_documents [draft_quote] db_sent_quote.

Definition accepted_quote : Document := set_status ACCEPTED sent_quote.

Definition db_accepted_quote : DB :=
  with_documents [accepted_quote] db_sent_quote.

(** The item names a product that is not a product of the company. *)
Definition foreign_product (company : string) (db : DB)
    (item : LineItemCreate.t) : bool :=
  let p := str_or (LineItemCreate.product_id item) "" in
  negb (String.eqb p "")
  && match assoc p (products db) with
     | Some pr => negb (String.eqb (Product.company_id pr) company)
     | None => true
     end.

(** The customer is a stored customer of the company. *)
Definition customer_of (company : string) (db : DB) (customer : string)
    : bool :=
  match assoc customer (customers db) with
  | Some c => String.eqb (Customer.company_id c) company
  | None => false
  end.

(** What a resolved line keeps of the requested item. *)
Definition resolves (klein : bool) (item : LineItemCreate.t)
    (line : LineItem) : Prop :=
  product_id line = str_or (LineItemCreate.product_id item) ""
  /\ quantity line = LineItemCreate.quantity item
  /\ discount_percent line = LineItemCreate.discount_percent item
  /\ (klein = true -> vat_rate line = 0)
  /\ line
     = new_line_item (product_id line) (name line) (description line)
         (quantity line) (unit line) (unit_price line) (vat_rate line)
         (discount_percent line).

(** * Properties *)

(** ** Lookups and updates of the document collection *)

Lemma DocumentStatus_eqb_eq (a b : DocumentStatus) :
  DocumentStatus_eqb a b = true <-> a = b.
Proof. destruct a, b; simpl; split; intro H; try reflexivity; discriminate H. Qed.

Lemma DocumentType_eqb_eq (a b : DocumentType) :
  DocumentType_eqb a b = true <-> a = b.
Proof. destruct a, b; simpl; split; intro H; try reflexivity; discriminate H. Qed.

Lemma DocumentStatus_eqb_refl (a : DocumentStatus) : DocumentStatus_eqb a a = true.
Proof. now destruct a. Qed.

Lemma find_doc_id i ds d : find_doc i ds = Some d -> id d = i.
Proof.
  induction ds as [|x r IH]; simpl; [discriminate|].
  destruct (String.eqb (id x) i) eqn:E.
  - intros [= <-]. now apply String.eqb_eq.
  - exact IH.
Qed.

Lemma find_doc_update_same i f ds d :
  keeps_id f -> find_doc i ds = Some d ->
  find_doc i (update_doc i f ds) = Some (f d).
Proof.
  intros Hf. induction ds as [|x r IH]; simpl; [discriminate|].
  destruct (String.eqb (id x) i) eqn:E; simpl.
  - intros [= <-]. now rewrite Hf, E.
  - rewrite E. exact IH.
Qed.

Lemma find_doc_update_other i j f ds :
  keeps_id f -> i <> j ->
  find_doc j (update_doc i f ds) = find_doc j ds.
Proof.
  intros Hf Hij. induction ds as [|x r IH]; simpl; [reflexivity|].
  destruct (String.eqb (id x) i) eqn:E; simpl.
  - rewrite Hf. apply String.eqb_eq in E.
    destruct (String.eqb (id x) j) eqn:E'; [|reflexivity].
    apply String.eqb_eq in E'. congruence.
  - destruct (String.eqb (id x) j); [reflexivity|exact IH].
Qed.

Lemma find_doc_update_none i f ds :
  find_doc i ds = None -> update_doc i f ds = ds.
Proof.
  induction ds as [|x r IH]; simpl; [reflexivity|].
  destruct (String.eqb (id x) i); [discriminate|].
  intros H. now rewrite IH.
Qed.

Lemma find_doc_app i ds d' :
  find_doc i (ds ++ [d']) =
  match find_doc i ds with
  | Some d => Some d
  | None => if String.eqb (id d') i then Some d' else None
  end.
Proof.
  induction ds as [|x r IH]; simpl; [reflexivity|].
  destruct (String.eqb (id x) i); [reflexivity|exact IH].
Qed.

(** What [get_document] does on a collection: the document when it is
    there and belongs to the caller, [404] otherwise. *)
Lemma get_document_found company i d db :
  find_doc i (documents db) = Some d -> owner d = company ->
  get_document company i db = (Return d, db).
Proof.
  intros Hf Ho. unfold get_document, bind, DocumentRepository.find_by_id.
  rewrite Hf, Ho, String.eqb_refl. reflexivity.
Qed.

Lemma get_document_missing company i db :
  find_doc i (documents db) = None ->
  get_document company i db =
  (Raised (HTTPException HTTP_404_NOT_FOUND Document_not_found), db).
Proof.
  intros Hf. unfold get_document, bind, DocumentRepository.find_by_id.
  now rewrite Hf.
Qed.

Lemma get_document_foreign company i d db :
  find_doc i (documents db) = Some d -> owner d <> company ->
  get_document company i db =
  (Raised (HTTPException HTTP_404_NOT_FOUND Document_not_found), db).
Proof.
  intros Hf Ho. unfold get_document, bind, DocumentRepository.find_by_id.
  rewrite Hf. apply String.eqb_neq in Ho. now rewrite Ho.
Qed.

(** ** The status machine *)

Lemma allowed_spec_edge t current target :
  existsb (DocumentStatus_eqb target) (allowed t current)
  = spec_edge t current target.
Proof. destruct t, current, target; reflexivity. Qed.

Lemma _validate_status_transition_edge t current target db :
  spec_edge t current target = true ->
  _validate_status_transition t current target db = (Return tt, db).
Proof.
  intros H. unfold _validate_status_transition, raise_if, when.
  now rewrite allowed_spec_edge, H.
Qed.

Lemma _validate_status_transition_no_edge t current target db :
  spec_edge t current target = false ->
  _validate_status_transition t current target db =
  (Raised (HTTPException HTTP_400_BAD_REQUEST
             (Cannot_transition current target t)), db).
Proof.
  intros H. unfold _validate_status_transition, raise_if, when.
  now rewrite allowed_spec_edge, H.
Qed.

Lemma keeps_id_set_status s : keeps_id (set_status s).
Proof. intros d. reflexivity. Qed.

Lemma keeps_id_set_updated_at n f :
  keeps_id f -> keeps_id (fun d => set_updated_at n (f d)).
Proof. intros Hf d. simpl. apply Hf. Qed.

(** Running a computation step by step. *)
Lemma bind_Return {A B} (c : M A) (k : A -> M B) db a db' :
  c db = (Return a, db') -> bind c k db = k a db'.
Proof. intros H. unfold bind. now rewrite H. Qed.

Lemma bind_Raised {A B} (c : M A) (k : A -> M B) db e db' :
  c db = (Raised e, db') -> bind c k db = (Raised e, db').
Proof. intros H. unfold bind. now rewrite H. Qed.

Lemma bind_ret {A B} (a : A) (k : A -> M B) db : bind (ret a) k db = k a db.
Proof. reflexivity. Qed.

Lemma bind_assoc {A B C} (c : M A) (k : A -> M B) (k' : B -> M C) db :
  bind (bind c k) k' db = bind c (fun a => bind (k a) k') db.
Proof. unfold bind. destruct (c db) as [[a|e] db']; reflexivity. Qed.

Lemma update_one_run i f db :
  DocumentRepository.update_one i f db =
  (Return (option_map (fun d => set_updated_at (clock db) (f d))
             (find_doc i (documents db))),
   with_documents
     (update_doc i (fun d => set_updated_at (clock db) (f d)) (documents db))
     (with_clock (S (clock db)) db)).
Proof. reflexivity. Qed.

Lemma _generate_document_number_run company t db :
  _generate_document_number company t db =
  (Return (DOCUMENT_NUMBER_PREFIX t ++ "-"
           ++ zero_pad 6
                (fst (CounterRepository.upsert_inc company
                        ("document_" ++ lower (type_name t)) (counters db)))),
   with_counters
     (snd (CounterRepository.upsert_inc company
             ("document_" ++ lower (type_name t)) (counters db))) db).
Proof. reflexivity. Qed.

Lemma _create_order_confirmation_from_quote_run today calc_due company
    quote_id quote db :
  _create_order_confirmation_from_quote today calc_due company quote_id
    quote db =
  (Return tt,
   let r := CounterRepository.upsert_inc company
              "document_order_confirmation" (counters db) in
   with_next_oid (S (next_oid db))
     (with_documents
        (documents db ++
         [set_id (oid (next_oid db))
            (order_confirmation_of today calc_due company quote_id quote
               (clock db) ("AB-" ++ zero_pad 6 (fst r)))])
        (with_clock (S (clock db)) (with_counters (snd r) db)))).
Proof. reflexivity. Qed.


Lemma raise_if_false {B} e (k : Datatypes.unit -> M B) db :
  bind (raise_if false e) k db = k tt db.
Proof. reflexivity. Qed.

Lemma raise_if_true {B} e (k : Datatypes.unit -> M B) db :
  bind (raise_if true e) k db = (Raised e, db).
Proof. reflexivity. Qed.

Lemma add_reminder_run i r db :
  DocumentRepository.add_reminder i r db =
  (Return (option_map
             (fun d => set_updated_at (clock db)
                         (set_reminders (reminders d ++ [r]) d))
             (find_doc i (documents db))),
   with_documents
     (update_doc i
        (fun d => set_updated_at (clock db)
                    (set_reminders (reminders d ++ [r]) d))
        (documents db))
     (with_clock (S (clock db)) db)).
Proof. reflexivity. Qed.

Lemma update_doc_update_doc i f g ds :
  keeps_id f ->
  update_doc i g (update_doc i f ds) = update_doc i (fun d => g (f d)) ds.
Proof.
  intros Hf. induction ds as [|x r IH]; simpl; [reflexivity|].
  destruct (String.eqb (id x) i) eqn:E; simpl.
  - now rewrite Hf, E.
  - now rewrite E, IH.
Qed.

Lemma update_doc_ext i f g ds d :
  find_doc i ds = Some d -> f d = g d ->
  update_doc i f ds = update_doc i g ds.
Proof.
  intros Hf Hfg. induction ds as [|x r IH]; simpl; [reflexivity|].
  simpl in Hf. destruct (String.eqb (id x) i).
  - injection Hf as ->. now rewrite Hfg.
  - now rewrite IH.
Qed.

(** ** Reminders *)

(** C7: on an invoice or partial invoice that is SENT, OVERDUE or
    PARTIALLY_PAID, [add_reminder] gives the new reminder the level
    (number of existing reminders) + 1.  It raises the 400 error
    "maximum reminder level reached" exactly when that level exceeds
    [MAX_REMINDER_LEVEL] (3 in [settings]) and then writes nothing;
    otherwise it appends the reminder, so the next level is one higher,
    and the status becomes OVERDUE unless it was OVERDUE or
    PARTIALLY_PAID already. *)
Theorem C7_add_reminder_levels :
  forall (cfg : Settings) (today : string) (db : DB) (company i : string)
         (d : Document) (data : ReminderCreate.t),
    find_doc i (documents db) = Some d ->
    owner d = company ->
    is_invoice_type (document_type d) = true ->
    reminder_allowed (status d) ->
    let next_level := (List.length (reminders d) + 1)%nat in
    MAX_REMINDER_LEVEL settings = 3%nat
    /\ ((MAX_REMINDER_LEVEL cfg < next_level)%nat ->
        add_reminder cfg today company i data db =
        (Raised (HTTPException HTTP_400_BAD_REQUEST
                   (Maximum_reminder_level_reached (MAX_REMINDER_LEVEL cfg))),
         db))
    /\ ((next_level <= MAX_REMINDER_LEVEL cfg)%nat ->
        exists d' db',
          add_reminder cfg today company i data db = (Return d', db')
          /\ find_doc i (documents db') = Some d'
          /\ reminders d' =
             (reminders d ++
              [{| level := next_level;
                  reminder_date := today;
                  fee := ReminderCreate.fee data |}])%list
          /\ List.length (reminders d') = next_level
          /\ status d' =
             match status d with
             | OVERDUE => OVERDUE
             | PARTIALLY_PAID => PARTIALLY_PAID
             | _ => OVERDUE
             end).
Proof.
  intros cfg today db company i d data Hf Ho Ht Hs next_level.
  split; [reflexivity|].
  assert (Hstat : match status d with
                  | SENT | OVERDUE | PARTIALLY_PAID => false
                  | _ => true
                  end = false)
    by (destruct Hs as [-> | [-> | ->]]; reflexivity).
  split; intro Hl.
  - unfold add_reminder.
    rewrite (bind_Return _ _ _ _ _ (get_document_found _ _ _ _ Hf Ho)).
    rewrite Ht. simpl negb. rewrite raise_if_false.
    rewrite Hstat, raise_if_false.
    apply Nat.ltb_lt in Hl. fold next_level. rewrite Hl.
    apply raise_if_true.
  - unfold add_reminder.
    rewrite (bind_Return _ _ _ _ _ (get_document_found _ _ _ _ Hf Ho)).
    rewrite Ht. simpl negb. rewrite raise_if_false.
    rewrite Hstat, raise_if_false.
    assert (Hl' : (MAX_REMINDER_LEVEL cfg <? next_level)%nat = false)
      by (apply Nat.ltb_ge; exact Hl).
    fold next_level. rewrite Hl', raise_if_false.
    rewrite (bind_Return _ _ _ _ _ (add_reminder_run _ _ _)).
    rewrite Hf. simpl option_map. unfold subscript. rewrite bind_ret.
    set (r := {| level := next_level; reminder_date := today;
                 fee := ReminderCreate.fee data |}).
    set (f := fun d0 => set_updated_at (clock db)
                          (set_reminders (reminders d0 ++ [r]) d0)).
    assert (Kf : keeps_id f) by (intros x; reflexivity).
    pose proof (find_doc_update_same i f _ d Kf Hf) as Hu.
    change (status (set_updated_at (clock db)
                      (set_reminders (reminders d ++ [r]) d)))
      with (status d).
    destruct Hs as [Hs | [Hs | Hs]]; rewrite Hs.
    + rewrite (bind_Return _ _ _ _ _ (update_one_run _ _ _)).
      simpl documents. rewrite Hu. simpl option_map.
      eexists; eexists; split; [reflexivity|].
      split.
      { simpl documents.
        apply (find_doc_update_same i
                 (fun x => set_updated_at (S (clock db)) (set_status OVERDUE x))
                 _ (f d)); [|exact Hu].
        intros x; reflexivity. }
      split; [reflexivity|].
      split; [|reflexivity].
      simpl. rewrite length_app. reflexivity.
    + rewrite bind_ret.
      eexists; eexists; split; [reflexivity|].
      split; [exact Hu|]. split; [reflexivity|].
      split; [|exact Hs]. simpl. rewrite length_app. reflexivity.
    + rewrite bind_ret.
      eexists; eexists; split; [reflexivity|].
      split; [exact Hu|]. split; [reflexivity|].
      split; [|exact Hs]. simpl. rewrite length_app. reflexivity.
Qed.

(** ** Comparisons of floats *)

Lemma SFcompare_antisym (x y : spec_float) :
  SFcompare y x = option_map CompOpp (SFcompare x y).
Proof.
  destruct x as [sx|sx| |sx mx ex], y as [sy|sy| |sy my ey]; simpl;
    try reflexivity;
    try (destruct sx; reflexivity);
    try (destruct sy; reflexivity);
    try (destruct sx, sy; reflexivity).
  pose proof (Pos.compare_cont_antisym mx my Eq) as H.
  change (CompOpp Eq) with Eq in H.
  destruct sx, sy; simpl; try reflexivity;
    rewrite (Z.compare_antisym ex ey);
    destruct (ex ?= ey)%Z; simpl; try reflexivity;
    change PosDef.Pos.compare_cont with Pos.compare_cont;
    rewrite <- H; try reflexivity.
Qed.

(** [not (b < a)] whenever [a <= b]. *)
Lemma leb_true_ltb_false (a b : float) :
  (a <=? b) = true -> (b <? a) = false.
Proof.
  rewrite leb_spec, ltb_spec. unfold SFleb, SFltb.
  rewrite (SFcompare_antisym (Prim2SF a) (Prim2SF b)).
  destruct (SFcompare (Prim2SF a) (Prim2SF b)) as [[| |]|]; simpl;
    intros H; try reflexivity; discriminate H.
Qed.

(** Python's [a > b] and [a <= b] exclude each other. *)
Lemma ltb_true_leb_false (a b : float) :
  (b <? a) = true -> (a <=? b) = false.
Proof.
  rewrite leb_spec, ltb_spec. unfold SFleb, SFltb.
  rewrite (SFcompare_antisym (Prim2SF a) (Prim2SF b)).
  destruct (SFcompare (Prim2SF a) (Prim2SF b)) as [[| |]|]; simpl;
    intros H; try reflexivity; discriminate H.
Qed.

(** ** Rounding in the binary64 format keeps the sign

    The primitive operations are specified by the functions of
    [SpecFloat]; the lemmas below follow a positive mantissa through
    [binary_round]. *)

Local Open Scope Z_scope.

Lemma iter_pos_Pos_iter {A} (f : A -> A) (p : positive) (x : A) :
  iter_pos f p x = Pos.iter f x p.
Proof.
  revert x. induction p as [p IH|p IH|]; intros x; simpl.
  - rewrite !IH. rewrite !Pos.iter_swap. reflexivity.
  - rewrite !IH. reflexivity.
  - reflexivity.
Qed.

Lemma shr_m_shr_1 mrs : 0 <= shr_m mrs -> shr_m (shr_1 mrs) = Z.div2 (shr_m mrs).
Proof.
  destruct mrs as [m r s]. simpl. destruct m as [|[p|p|]|p]; simpl; try reflexivity; lia.
Qed.

Lemma shr_m_iter mrs p :
  0 <= shr_m mrs -> shr_m (iter_pos shr_1 p mrs) = Z.shiftr (shr_m mrs) (Zpos p).
Proof.
  intros H. rewrite iter_pos_Pos_iter.
  unfold Z.shiftr, Z.shiftl. simpl Z.opp. cbv iota.
  revert mrs H. induction p using Pos.peano_ind; intros mrs H.
  - simpl. apply shr_m_shr_1. exact H.
  - rewrite !Pos.iter_succ. rewrite shr_m_shr_1.
    + rewrite IHp by exact H. reflexivity.
    + rewrite IHp by exact H.
      change (Pos.iter Z.div2 (shr_m mrs) p) with (Z.shiftr (shr_m mrs) (Zpos p)).
      apply Z.shiftr_nonneg. exact H.
Qed.

Lemma digits2_pos_size m : digits2_pos m = Pos.size m.
Proof. induction m; simpl; congruence. Qed.

Lemma pow2_digits_le m : 2 ^ (Zpos (digits2_pos m) - 1) <= Zpos m.
Proof.
  rewrite digits2_pos_size.
  pose proof (Pos.size_le m) as H.
  assert (Zpos (2 ^ Pos.size m) <= Zpos (m~0))%Z by (apply Pos2Z.pos_le_pos; exact H).
  rewrite Pos2Z.inj_pow in H0.
  replace (Zpos (Pos.size m)) with (Z.succ (Zpos (Pos.size m) - 1)) in H0 by lia.
  rewrite Z.pow_succ_r in H0 by lia. lia.
Qed.

Lemma shr_record_of_loc_m m l : shr_m (shr_record_of_loc m l) = m.
Proof. destruct l as [|[| |]]; reflexivity. Qed.

(** Truncation to the format keeps a positive mantissa positive, and
    does not lower the exponent. *)
Lemma shr_fexp_pos (m : positive) (e : Z) (l : location) :
  emin64 <= e ->
  0 < shr_m (fst (shr_fexp prec emax (Zpos m) e l))
  /\ e <= snd (shr_fexp prec emax (Zpos m) e l).
Proof.
  intros He. unfold shr_fexp, shr.
  set (d := Zdigits2 (Zpos m)).
  destruct (fexp prec emax (d + e) - e) as [|n|n] eqn:En; simpl fst; simpl snd.
  - rewrite shr_record_of_loc_m. lia.
  - rewrite shr_m_iter by (rewrite shr_record_of_loc_m; lia).
    rewrite shr_record_of_loc_m.
    assert (Hn : Zpos n <= Zpos (digits2_pos m) - 1).
    { unfold fexp in En. fold emin64 in En. unfold d, Zdigits2 in En.
      unfold prec in En. lia. }
    split; [|lia].
    rewrite Z.shiftr_div_pow2 by lia.
    apply Z.div_str_pos. split; [apply Z.pow_pos_nonneg; lia|].
    pose proof (pow2_digits_le m).
    assert (2 ^ Zpos n <= 2 ^ (Zpos (digits2_pos m) - 1))
      by (apply Z.pow_le_mono_r; lia).
    lia.
  - rewrite shr_record_of_loc_m. lia.
Qed.

Lemma round_nearest_even_pos m l : 0 < m -> 0 < round_nearest_even m l.
Proof.
  intros H. destruct l as [|[| |]]; simpl; try lia.
  destruct (Z.even m); lia.
Qed.

(** A positive mantissa at an exponent of the format rounds to a number
    of the same sign that is not zero and not a NaN. *)
Lemma binary_round_aux_sign s (m : positive) e l :
  emin64 <= e ->
  (exists m' e', binary_round_aux prec emax s (Zpos m) e l = S754_finite s m' e')
  \/ binary_round_aux prec emax s (Zpos m) e l = S754_infinity s.
Proof.
  intros He. unfold binary_round_aux.
  pose proof (shr_fexp_pos m e l He) as [H1 H2].
  destruct (shr_fexp prec emax (Zpos m) e l) as [mrs' e'].
  simpl fst in H1; simpl snd in H2.
  pose proof (round_nearest_even_pos (shr_m mrs') (loc_of_shr_record mrs') H1) as Hr.
  destruct (round_nearest_even (shr_m mrs') (loc_of_shr_record mrs')) as [|r|r];
    try lia.
  pose proof (shr_fexp_pos r e' loc_Exact ltac:(lia)) as [H3 H4].
  destruct (shr_fexp prec emax (Zpos r) e' loc_Exact) as [mrs'' e''].
  simpl fst in H3; simpl snd in H4.
  destruct (shr_m mrs'') as [|m''|m'']; try lia.
  destruct (e'' <=? emax - prec); [left; eauto|right; reflexivity].
Qed.

Lemma binary_round_sign s (m : positive) e :
  emin64 <= e ->
  (exists m' e', binary_round prec emax s m e = S754_finite s m' e')
  \/ binary_round prec emax s m e = S754_infinity s.
Proof.
  intros He. unfold binary_round.
  destruct (shl_align m e (fexp prec emax (Zpos (digits2_pos m) + e)))
    as [mz ez] eqn:Es.
  apply binary_round_aux_sign.
  unfold shl_align in Es.
  destruct (fexp prec emax (Zpos (digits2_pos m) + e) - e) eqn:En;
    injection Es as <- <-; try lia.
  unfold fexp. fold emin64. lia.
Qed.

Lemma valid_finite_emin s m e :
  valid_binary (S754_finite s m e) = true -> emin64 <= e.
Proof.
  simpl. unfold bounded, canonical_mantissa. intros H.
  apply andb_prop in H as [H _]. apply Z.eqb_eq in H.
  unfold fexp in H. fold emin64 in H. lia.
Qed.

(** A nonnegative and a positive float add up to a positive float. *)
Lemma SFadd_nonneg_pos x y :
  valid_binary x = true -> valid_binary y = true ->
  SFleb (S754_zero false) x = true ->
  SFltb (S754_zero false) y = true ->
  SFltb (S754_zero false) (SFadd prec emax x y) = true.
Proof.
  intros Vx Vy Hx Hy.
  destruct x as [sx|sx| |sx mx ex], y as [sy|sy| |sy my ey];
    try discriminate Hx; try discriminate Hy;
    try (destruct sx; try discriminate Hx);
    try (destruct sy; try discriminate Hy);
    try reflexivity.
  unfold SFadd. unfold cond_Zopp.
  set (ez := Z.min ex ey).
  simpl Z.add. unfold binary_normalize.
  apply valid_finite_emin in Vx, Vy.
  destruct (binary_round_sign false
              (fst (shl_align mx ex ez) + fst (shl_align my ey ez))%positive ez
              ltac:(unfold ez; lia)) as [(m' & e' & ->) | ->]; reflexivity.
Qed.

Local Close Scope Z_scope.

Lemma add_nonneg_pos (a b : float) :
  (0 <=? a) = true -> (0 <? b) = true -> (0 <? a + b) = true.
Proof.
  rewrite leb_spec, !ltb_spec, add_spec.
  change (Prim2SF 0) with (S754_zero false).
  apply SFadd_nonneg_pos; apply Prim2SF_valid.
Qed.

(** ** Payments *)

Lemma add_payment_run i p db :
  DocumentRepository.add_payment i p db =
  (Return (option_map
             (fun d => set_updated_at (clock db) (DocumentRepository.pay p d))
             (find_doc i (documents db))),
   with_documents
     (update_doc i
        (fun d => set_updated_at (clock db) (DocumentRepository.pay p d))
        (documents db))
     (with_clock (S (clock db)) db)).
Proof. reflexivity. Qed.

Lemma keeps_id_pay now p :
  keeps_id (fun d => set_updated_at now (DocumentRepository.pay p d)).
Proof. intros d. reflexivity. Qed.

Lemma keeps_id_synced_parent now p : keeps_id (synced_parent now p).
Proof.
  intros d. unfold synced_parent.
  destruct (_ <? 0.01); [reflexivity|].
  destruct (0 <? _); reflexivity.
Qed.

Lemma keeps_id_paid_document now p : keeps_id (paid_document now p).
Proof.
  intros d. unfold paid_document.
  destruct (negb _); reflexivity.
Qed.

(** The cascade on a parent that is an invoice of the caller: it returns
    normally, the parent is [synced_parent], nothing else changes. *)
Lemma sync_parent_invoice company parent_id u payment_date method db p :
  find_doc parent_id (documents db) = Some p ->
  owner p = company ->
  document_type p = INVOICE ->
  exists db',
    sync_parent company parent_id u payment_date method db = (Return tt, db')
    /\ documents db' =
       update_doc parent_id
         (synced_parent (clock db) (parent_payment_of u payment_date method))
         (documents db)
    /\ counters db' = counters db
    /\ next_oid db' = next_oid db.
Proof.
  intros Hf Ho Ht. unfold sync_parent.
  rewrite (bind_Return _ _ _ _ _ (get_document_found _ _ _ _ Hf Ho)).
  rewrite Ht. change (DocumentType_eqb INVOICE INVOICE) with true. cbv iota.
  fold (parent_payment_of u payment_date method).
  set (pp := parent_payment_of u payment_date method).
  rewrite (bind_Return _ _ _ _ _ (add_payment_run _ _ _)).
  rewrite Hf. simpl option_map. unfold subscript. rewrite bind_ret.
  pose proof (find_doc_update_same parent_id _ _ p
                (keeps_id_pay (clock db) pp) Hf) as Hu.
  set (pu := set_updated_at (clock db) (DocumentRepository.pay pp p)) in *.
  assert (Hext : forall g,
            g p = synced_parent (clock db) pp p ->
            update_doc parent_id g (documents db) =
            update_doc parent_id (synced_parent (clock db) pp) (documents db))
    by (intros g Hg; exact (update_doc_ext _ _ _ _ p Hf Hg)).
  unfold synced_parent in Hext. fold pu in Hext.
  destruct (abs (paid_amount (totals pu) - abs (gross (totals pu))) <? 0.01).
  - rewrite (bind_Return _ _ _ _ _ (update_one_run _ _ _)).
    eexists. split; [reflexivity|]. simpl.
    split; [|split; reflexivity].
    rewrite update_doc_update_doc by apply keeps_id_pay.
    apply Hext. reflexivity.
  - destruct (0 <? paid_amount (totals pu)).
    + rewrite (bind_Return _ _ _ _ _ (update_one_run _ _ _)).
      eexists. split; [reflexivity|]. simpl.
      split; [|split; reflexivity].
      rewrite update_doc_update_doc by apply keeps_id_pay.
      apply Hext. reflexivity.
    + eexists. split; [reflexivity|]. simpl.
      split; [|split; reflexivity].
      apply Hext. reflexivity.
Qed.

Lemma try_except_Return c db db' :
  c db = (Return tt, db') ->
  try_except_HTTPException c db = (Return tt, db').
Proof. intros H. unfold try_except_HTTPException. now rewrite H. Qed.

Lemma try_except_HTTP c db db' code detail :
  c db = (Raised (HTTPException code detail), db') ->
  try_except_HTTPException c db = (Return tt, db').
Proof. intros H. unfold try_except_HTTPException. now rewrite H. Qed.

Lemma cascade_run (runs : bool) company u payment_date method db :
  exists db',
    when runs
      (try_except_HTTPException
         (sync_parent company (related_document_id u) u payment_date method))
      db = (Return tt, db')
    /\ documents db' =
       documents_after_sync runs company u (clock db) payment_date method
         (documents db)
    /\ counters db' = counters db
    /\ next_oid db' = next_oid db.
Proof.
  unfold documents_after_sync.
  destruct runs; simpl when; [|exists db; repeat split; reflexivity].
  destruct (find_doc (related_document_id u) (documents db)) as [p|] eqn:Hp.
  - destruct (String.eqb (owner p) company) eqn:Eo.
    + apply String.eqb_eq in Eo.
      destruct (DocumentType_eqb (document_type p) INVOICE) eqn:Et.
      * apply DocumentType_eqb_eq in Et.
        destruct (sync_parent_invoice company _ u payment_date method db p
                    Hp Eo Et) as (db' & Hrun & Hd & Hc & Hn).
        exists db'. rewrite (try_except_Return _ _ _ Hrun).
        repeat split; assumption.
      * exists db. split; [|repeat split; reflexivity].
        apply try_except_Return. unfold sync_parent.
        rewrite (bind_Return _ _ _ _ _ (get_document_found _ _ _ _ Hp Eo)).
        rewrite Et. reflexivity.
    + apply String.eqb_neq in Eo.
      exists db. split; [|repeat split; reflexivity].
      eapply try_except_HTTP. unfold sync_parent.
      apply bind_Raised. apply (get_document_foreign _ _ _ _ Hp Eo).
  - exists db. split; [|repeat split; reflexivity].
    eapply try_except_HTTP. unfold sync_parent.
    apply bind_Raised. apply (get_document_missing _ _ _ Hp).
Qed.

Lemma status_paid_document now payment d :
  status (paid_document now payment d) =
  status_after_payment
    (paid_amount (totals d) + amount payment) (gross (totals d)) (status d).
Proof.
  unfold paid_document. simpl.
  destruct (negb _) eqn:E; simpl; [reflexivity|].
  apply negb_false_iff, DocumentStatus_eqb_eq in E. now rewrite <- E at 1.
Qed.

Lemma paid_document_fields now payment d :
  let u := paid_document now payment d in
  payments u = (payments d ++ [payment])%list
  /\ paid_amount (totals u) = paid_amount (totals d) + amount payment
  /\ remaining_amount (totals u) =
     remaining_amount (totals d) + - amount payment
  /\ gross (totals u) = gross (totals d)
  /\ document_type u = document_type d
  /\ document_number u = document_number d
  /\ related_document_id u = related_document_id d
  /\ owner u = owner d.
Proof.
  unfold paid_document. destruct (negb _); simpl; repeat split; reflexivity.
Qed.

(** An accepted payment, in full: the call returns the paid document, and
    the collection changes at the paid document and, by the cascade, at
    its parent; counters and identifiers are untouched. *)
Lemma add_payment_accepted today company i data db d :
  find_doc i (documents db) = Some d ->
  owner d = company ->
  is_invoice_type (document_type d) = true ->
  payment_refused (status d) = false ->
  (remaining_amount (totals d) + 0.01 <? PaymentCreate.amount data) = false ->
  let payment := payment_record_of today data in
  let u := paid_document (clock db) payment d in
  exists db' now1,
    add_payment today company i data db = (Return u, db')
    /\ documents db' =
       documents_after_sync (cascades u) company u now1 (date payment)
         (method payment)
         (update_doc i (paid_document (clock db) payment) (documents db))
    /\ counters db' = counters db
    /\ next_oid db' = next_oid db.
Proof.
  intros Hf Ho Ht Hs Ha payment u.
  unfold add_payment.
  rewrite (bind_Return _ _ _ _ _ (get_document_found _ _ _ _ Hf Ho)).
  rewrite Ht. simpl negb. rewrite raise_if_false.
  fold (payment_refused (status d)). rewrite Hs, raise_if_false.
  rewrite Ha, raise_if_false.
  fold (payment_record_of today data). fold payment.
  rewrite (bind_Return _ _ _ _ _ (add_payment_run _ _ _)).
  rewrite Hf. simpl option_map. unfold subscript at 1. rewrite bind_ret.
  pose proof (status_paid_document (clock db) payment d) as Hst.
  fold u in Hst.
  set (u0 := set_updated_at (clock db) (DocumentRepository.pay payment d)).
  set (ns := status_after_payment (paid_amount (totals u0))
               (gross (totals u0)) (status u0)).
  assert (Hns : status u = ns) by exact Hst.
  assert (Hext : forall g,
            g d = u ->
            update_doc i g (documents db) =
            update_doc i (paid_document (clock db) payment) (documents db))
    by (intros g Hg;
        exact (update_doc_ext i g (paid_document (clock db) payment) _ d
                 Hf Hg)).
  assert (Hu : u = if negb (DocumentStatus_eqb ns (status u0))
                   then set_updated_at (S (clock db)) (set_status ns u0)
                   else u0) by reflexivity.
  destruct (negb (DocumentStatus_eqb ns (status u0))) eqn:E.
  - rewrite (bind_Return _ _ _ _ _ (update_one_run _ _ _)).
    simpl documents.
    rewrite (find_doc_update_same i _ _ d (keeps_id_pay (clock db) payment) Hf).
    simpl option_map. unfold subscript. rewrite bind_ret.
    fold u0. rewrite <- Hu.
    cbn [with_documents with_clock documents clock counters companies
         customers products next_oid].
    rewrite update_doc_update_doc by apply keeps_id_pay.
    rewrite Hext by (symmetry; exact Hu).
    rewrite <- Hns. fold (cascades u).
    match goal with
    | |- context [bind (when _ _) _ ?db1] =>
        destruct (cascade_run (cascades u) company u (date payment)
                    (method payment) db1) as (db' & Hrun & Hd & Hc & Hn)
    end.
    rewrite (bind_Return _ _ _ _ _ Hrun).
    exists db', (S (S (clock db))). split; [reflexivity|].
    split; [exact Hd|]. split; [exact Hc|exact Hn].
  - rewrite bind_ret. unfold subscript. rewrite bind_ret.
    fold u0. rewrite <- Hu.
    cbn [with_documents with_clock documents clock counters companies
         customers products next_oid].
    rewrite Hext by (symmetry; exact Hu).
    rewrite <- Hns. fold (cascades u).
    match goal with
    | |- context [bind (when _ _) _ ?db1] =>
        destruct (cascade_run (cascades u) company u (date payment)
                    (method payment) db1) as (db' & Hrun & Hd & Hc & Hn)
    end.
    rewrite (bind_Return _ _ _ _ _ Hrun).
    exists db', (S (clock db)). split; [reflexivity|].
    split; [exact Hd|]. split; [exact Hc|exact Hn].
Qed.

Lemma cascades_partial u :
  cascades u = true ->
  document_type u = PARTIAL_INVOICE /\ status u = PAID
  /\ related_document_id u <> "".
Proof.
  unfold cascades. intros H.
  apply andb_prop in H as [H H3]. apply andb_prop in H as [H1 H2].
  apply DocumentType_eqb_eq in H1. apply DocumentStatus_eqb_eq in H2.
  apply negb_true_iff, String.eqb_neq in H3. auto.
Qed.

(** The cascade never touches the paid document itself. *)
Lemma find_paid_after_sync i ds d now payment company now1 payment_date m :
  find_doc i ds = Some d ->
  let u := paid_document now payment d in
  find_doc i
    (documents_after_sync (cascades u) company u now1 payment_date m
       (update_doc i (paid_document now payment) ds)) = Some u.
Proof.
  intros Hf u.
  pose proof (find_doc_update_same i _ _ d (keeps_id_paid_document now payment)
                Hf) as Hu.
  fold u in Hu. unfold documents_after_sync.
  destruct (cascades u) eqn:Ec; [|exact Hu].
  destruct (find_doc (related_document_id u) _) as [p|] eqn:Hp; [|exact Hu].
  destruct (String.eqb (owner p) company); simpl andb; [|exact Hu].
  destruct (DocumentType_eqb (document_type p) INVOICE) eqn:Et; [|exact Hu].
  rewrite find_doc_update_other; [exact Hu|apply keeps_id_synced_parent|].
  intros Heq. rewrite Heq, Hu in Hp. injection Hp as <-.
  apply cascades_partial in Ec as [Ec _]. rewrite Ec in Et. discriminate Et.
Qed.




(** C7 at work on the sent invoice: the first reminder has level 1 and
    makes the invoice OVERDUE; with a maximum level of 0 it is refused. *)
Lemma C7_witness_first_reminder :
  (exists d' db',
     add_reminder settings "2026-02-01" "c1" (oid 0)
       {| ReminderCreate.fee := 5 |} db_1073_98 = (Return d', db')
     /\ reminders d' =
        [{| level := 1; reminder_date := "2026-02-01"; fee := 5 |}]
     /\ status d' = OVERDUE)
  /\ add_reminder {| MAX_REMINDER_LEVEL := 0 |} "2026-02-01" "c1" (oid 0)
       {| ReminderCreate.fee := 5 |} db_1073_98
     = (Raised (HTTPException HTTP_400_BAD_REQUEST
                  (Maximum_reminder_level_reached 0)), db_1073_98).
Proof.
  split.
  - destruct (proj2 (proj2 (C7_add_reminder_levels settings "2026-02-01"
                       db_1073_98 "c1" (oid 0) invoice_1073_98
                       {| ReminderCreate.fee := 5 |}
                       eq_refl eq_refl eq_refl (or_introl eq_refl)))
                ltac:(simpl; lia))
      as (d' & db' & Hrun & _ & Hrem & _ & Hst).
    exists d', db'. split; [exact Hrun|]. split; [exact Hrem|exact Hst].
  - exact (proj1 (proj2 (C7_add_reminder_levels
                    {| MAX_REMINDER_LEVEL := 0 |} "2026-02-01"
                    db_1073_98 "c1" (oid 0) invoice_1073_98
                    {| ReminderCreate.fee := 5 |}
                    eq_refl eq_refl eq_refl (or_introl eq_refl)))
             ltac:(simpl; lia)).
Defined.

(** ** The cascade to the parent invoice *)

Lemma synced_parent_fields now payment p :
  let p' := synced_parent now payment p in
  payments p' = (payments p ++ [payment])%list
  /\ paid_amount (totals p') = paid_amount (totals p) + amount payment
  /\ remaining_amount (totals p') =
     remaining_amount (totals p) + - amount payment
  /\ gross (totals p') = gross (totals p)
  /\ status p' =
     status_after_payment (paid_amount (totals p) + amount payment)
       (gross (totals p)) (status p).
Proof.
  unfold synced_parent, status_after_payment. simpl.
  destruct (abs _ <? 0.01); [simpl; repeat split; reflexivity|].
  destruct (0 <? _); simpl; repeat split; reflexivity.
Qed.



(** ** The cascade and the remaining amount of the parent *)

(** C10: the cascade payment is not checked against the remaining amount
    of the parent.  In the scenario above the partial invoice's gross
    (100.00) exceeds the parent's remaining amount plus 0.01 (50.01), yet
    paying the partial invoice returns normally, appends 100.00 to the
    parent, and leaves the parent with a paid amount (150.00) above its
    gross (100.00) and a negative remaining amount (-50.00). *)
Theorem C10_cascade_overpays_parent :
  exists before paid after db',
    overpaid_parent_scenario db_empty = (Return (before, paid, after), db')
    /\ document_type before = INVOICE
    /\ document_type paid = PARTIAL_INVOICE
    /\ related_document_id paid = id before
    /\ status paid = PAID
    /\ (remaining_amount (totals before) + 0.01 <? abs (gross (totals paid)))
       = true
    /\ payments after =
       (payments before ++
        [{| amount := abs (gross (totals paid));
            date := "2026-03-01";
            method := BANK;
            reference := Some "Abschlagsrechnung TINV-000001" |}])%list
    /\ paid_amount (totals after) = 150
    /\ gross (totals after) = 100
    /\ (gross (totals after) <? paid_amount (totals after)) = true
    /\ remaining_amount (totals after) = -50
    /\ (remaining_amount (totals after) <? 0) = true.
Proof.
  do 4 eexists. split; [vm_compute; reflexivity|].
  repeat split; vm_compute; reflexivity.
Qed.

(** ** Paid and remaining amounts *)

(** The claim C3 fails on the code: a payment of 0.11 on the invoice with
    gross 1073.98 is accepted and leaves a remaining amount of
    1073.8700000000001, which is not [round(gross - paid_amount, 2)]
    = 1073.87. *)
Lemma C3_counterexample_payment_0_11 :
  exists d' db',
    add_payment "2026-02-01" "c1" (oid 0) (pay_by_bank 0.11) db_1073_98
    = (Return d', db')
    /\ find_doc (oid 0) (documents db') = Some d'
    /\ remaining_amount (totals d') = 1073.8700000000001
    /\ Py.round2 (gross (totals d') - paid_amount (totals d')) = 1073.87
    /\ (remaining_amount (totals d')
        =? Py.round2 (gross (totals d') - paid_amount (totals d'))) = false.
Proof.
  do 2 eexists. split; [vm_compute; reflexivity|].
  repeat split; vm_compute; reflexivity.
Qed.

(** C3, amended: a new document has [paid_amount = 0] and
    [remaining_amount = gross], and so have recomputed totals; a payment
    append adds the amount to [paid_amount] and subtracts it from
    [remaining_amount] as floats, without rounding, and leaves [gross]
    as it is.  After the payments [a1 .. an] the paid amount is
    [(..(paid + a1) + ..) + an] and the remaining amount is
    [(..(remaining - a1) - ..) - an]. *)
Theorem C3_remaining_is_decremented :
  (forall now company customer t number its klein notes days issue service
          due pdf related,
      let d := new_document now company customer t number its klein notes
                 days issue service due pdf related in
      paid_amount (totals d) = 0
      /\ remaining_amount (totals d) = gross (totals d))
  /\ (forall its klein t,
        paid_amount (_calc_totals its klein t) = 0
        /\ remaining_amount (_calc_totals its klein t)
           = gross (_calc_totals its klein t))
  /\ (forall p d,
        paid_amount (totals (DocumentRepository.pay p d))
        = paid_amount (totals d) + amount p
        /\ remaining_amount (totals (DocumentRepository.pay p d))
           = remaining_amount (totals d) + - amount p
        /\ gross (totals (DocumentRepository.pay p d)) = gross (totals d)
        /\ payments (DocumentRepository.pay p d)
           = (payments d ++ [p])%list)
  /\ (forall ps d,
        paid_amount (totals (after_payments ps d))
        = fold_left PrimFloat.add (map amount ps) (paid_amount (totals d))
        /\ remaining_amount (totals (after_payments ps d))
           = fold_left (fun r a => r + - a) (map amount ps)
               (remaining_amount (totals d))
        /\ gross (totals (after_payments ps d)) = gross (totals d)
        /\ payments (after_payments ps d) = (payments d ++ ps)%list)
  /\ (forall i p db,
        find_doc i (documents (snd (DocumentRepository.add_payment i p db)))
        = option_map
            (fun d => set_updated_at (clock db) (DocumentRepository.pay p d))
            (find_doc i (documents db))).
Proof.
  split; [intros; split; reflexivity|].
  split; [intros; split; reflexivity|].
  split; [intros; repeat split; reflexivity|].
  split.
  - intros ps. unfold after_payments.
    induction ps as [|p ps IH]; intros d; simpl.
    + rewrite app_nil_r. repeat split; reflexivity.
    + destruct (IH (DocumentRepository.pay p d)) as (H1 & H2 & H3 & H4).
      rewrite H1, H2, H3, H4. simpl. rewrite <- app_assoc.
      repeat split; reflexivity.
  - intros i p db. rewrite add_payment_run. simpl snd. simpl documents.
    destruct (find_doc i (documents db)) as [d|] eqn:Hf.
    + apply (find_doc_update_same i _ _ d (keeps_id_pay (clock db) p) Hf).
    + rewrite (find_doc_update_none _ _ _ Hf). exact Hf.
Qed.

Lemma preserves_ret {A} I (a : A) : preserves I (ret a).
Proof. intros db H. exact H. Qed.

Lemma preserves_raise {A} I e : preserves I (@raise A e).
Proof. intros db H. exact H. Qed.

Lemma preserves_bind {A B} I (c : M A) (k : A -> M B) :
  preserves I c -> (forall a, preserves I (k a)) -> preserves I (bind c k).
Proof.
  intros Hc Hk db H. unfold bind. specialize (Hc db H).
  destruct (c db) as [[a|e] db']; simpl in Hc.
  - apply Hk. exact Hc.
  - exact Hc.
Qed.

Lemma preserves_raise_if I b e : preserves I (raise_if b e).
Proof. destruct b; [apply preserves_raise|apply preserves_ret]. Qed.

Lemma preserves_when I b c : preserves I c -> preserves I (when b c).
Proof. intros Hc. destruct b; [exact Hc|apply preserves_ret]. Qed.

Lemma preserves_try I c :
  preserves I c -> preserves I (try_except_HTTPException c).
Proof.
  intros Hc db H. unfold try_except_HTTPException. specialize (Hc db H).
  destruct (c db) as [[a|[code detail| |]] db']; exact Hc.
Qed.

Lemma preserves_now_utc P : preserves (on_documents P) now_utc.
Proof. intros db H. exact H. Qed.

Lemma preserves_find_by_id P i :
  preserves (on_documents P) (DocumentRepository.find_by_id i).
Proof. intros db H. exact H. Qed.

Lemma preserves_find_related P company related :
  preserves (on_documents P)
    (DocumentRepository.find_related_documents company related).
Proof. intros db H. exact H. Qed.

Lemma preserves_get_next_number P company counter_type :
  preserves (on_documents P)
    (CounterRepository.get_next_number company counter_type).
Proof. intros db H. exact H. Qed.

Lemma preserves_company_find P i :
  preserves (on_documents P) (CompanyRepository.find_by_id i).
Proof. intros db H. exact H. Qed.

Lemma preserves_customer_find P i :
  preserves (on_documents P) (CustomerRepository.find_by_id i).
Proof. intros db H. exact H. Qed.

Lemma preserves_product_find P i :
  preserves (on_documents P) (ProductRepository.find_by_id i).
Proof. intros db H. exact H. Qed.

Lemma preserves_insert_one (P : Document -> Prop) d :
  (forall i, P (set_id i d)) ->
  preserves (on_documents P) (DocumentRepository.insert_one d).
Proof.
  intros Hd db H. unfold on_documents, DocumentRepository.insert_one. simpl.
  apply Forall_app. split; [exact H|]. constructor; [apply Hd|constructor].
Qed.

Lemma Forall_update_doc (P : Document -> Prop) i f ds :
  (forall d, P d -> P (f d)) -> Forall P ds -> Forall P (update_doc i f ds).
Proof.
  intros Hf H. induction H as [|x r Hx Hr IH]; simpl; [constructor|].
  destruct (String.eqb (id x) i); constructor; auto.
Qed.

Lemma preserves_find_one_and_update (P : Document -> Prop) i f :
  (forall d, P d -> P (f d)) ->
  preserves (on_documents P) (DocumentRepository.find_one_and_update i f).
Proof.
  intros Hf db H. unfold on_documents, DocumentRepository.find_one_and_update.
  simpl. apply Forall_update_doc; assumption.
Qed.

Lemma preserves_update_one (P : Document -> Prop) i f :
  (forall d now, P d -> P (set_updated_at now (f d))) ->
  preserves (on_documents P) (DocumentRepository.update_one i f).
Proof.
  intros Hf. unfold DocumentRepository.update_one.
  apply preserves_bind; [apply preserves_now_utc|].
  intros now. apply preserves_find_one_and_update. intros d. apply Hf.
Qed.

Lemma preserves_add_payment (P : Document -> Prop) i p :
  (forall d now, P d -> P (set_updated_at now (DocumentRepository.pay p d))) ->
  preserves (on_documents P) (DocumentRepository.add_payment i p).
Proof.
  intros Hf. unfold DocumentRepository.add_payment.
  apply preserves_bind; [apply preserves_now_utc|].
  intros now. apply preserves_find_one_and_update. intros d. apply Hf.
Qed.

Lemma preserves_add_reminder (P : Document -> Prop) i r :
  (forall d now,
     P d -> P (set_updated_at now (set_reminders (reminders d ++ [r]) d))) ->
  preserves (on_documents P) (DocumentRepository.add_reminder i r).
Proof.
  intros Hf. unfold DocumentRepository.add_reminder.
  apply preserves_bind; [apply preserves_now_utc|].
  intros now. apply preserves_find_one_and_update. intros d. apply Hf.
Qed.

(** ** Negative totals of credit notes and cancellations *)

(** [is_nan], as Python's [t != t]. *)
Lemma Prim2SF_not_nan (x : float) :
  is_nan x = false -> Prim2SF x <> S754_nan.
Proof.
  intros H. unfold Prim2SF. rewrite H.
  destruct (is_zero x); [discriminate|].
  destruct (is_infinity x); [discriminate|].
  destruct (Z.frexp x) as [r e].
  destruct (shr_fexp prec emax _ _ _) as [mrs e'].
  destruct (shr_m mrs); discriminate.
Qed.

Lemma is_nan_Prim2SF (x : float) :
  is_nan x = false <-> Prim2SF x <> S754_nan.
Proof.
  split; [apply Prim2SF_not_nan|].
  intros H. unfold is_nan. rewrite eqb_spec.
  destruct (Prim2SF x) as [s|s| |s m e]; try congruence; unfold SFeqb; simpl.
  - reflexivity.
  - now destruct s.
  - destruct s; rewrite Z.compare_refl, Pos.compare_cont_refl; reflexivity.
Qed.

(** [-abs(x)] is never positive, and is [<= 0] unless it is a NaN. *)
Lemma neg_abs_not_positive (x : float) : (0 <? - abs x) = false.
Proof.
  rewrite ltb_spec, opp_spec, abs_spec.
  change (Prim2SF 0) with (S754_zero false).
  destruct (Prim2SF x) as [s|s| |s m e]; reflexivity.
Qed.

Lemma neg_abs_nonpositive (x : float) :
  is_nan (- abs x) = false -> (- abs x <=? 0) = true.
Proof.
  intros H. apply is_nan_Prim2SF in H. revert H.
  rewrite leb_spec, opp_spec, abs_spec.
  change (Prim2SF 0) with (S754_zero false).
  destruct (Prim2SF x) as [s|s| |s m e]; simpl; intros H;
    try reflexivity; congruence.
Qed.

Lemma negated__calc_totals its klein t :
  stores_negative_totals t = true -> negated (_calc_totals its klein t).
Proof.
  intros H. unfold _calc_totals. rewrite H. simpl.
  repeat split; eexists; reflexivity.
Qed.

Lemma new_document_totals now company customer t number its klein notes days
    issue service due pdf related :
  totals (new_document now company customer t number its klein notes days
            issue service due pdf related)
  = _calc_totals its klein t.
Proof. reflexivity. Qed.

Lemma negative_kind_ok_new_document now company customer t number its klein
    notes days issue service due pdf related i :
  negative_kind_ok
    (set_id i (new_document now company customer t number its klein notes
                 days issue service due pdf related)).
Proof. intros H. apply negated__calc_totals. exact H. Qed.

(** Updates that keep the type and the three totals keep the property. *)
Lemma negative_kind_ok_same d d' :
  document_type d' = document_type d ->
  net (totals d') = net (totals d) ->
  vat (totals d') = vat (totals d) ->
  gross (totals d') = gross (totals d) ->
  negative_kind_ok d -> negative_kind_ok d'.
Proof.
  intros Ht Hn Hv Hg H. unfold negative_kind_ok, negated.
  rewrite Ht, Hn, Hv, Hg. exact H.
Qed.

Ltac preserve_step :=
  first
    [ apply preserves_ret
    | apply preserves_raise
    | apply preserves_raise_if
    | apply preserves_now_utc
    | apply preserves_find_by_id
    | apply preserves_find_related
    | apply preserves_get_next_number
    | apply preserves_company_find
    | apply preserves_customer_find
    | apply preserves_product_find
    | apply preserves_when
    | apply preserves_try
    | apply preserves_insert_one;
      intros; apply negative_kind_ok_new_document
    | apply preserves_update_one; intros ? ?;
      apply negative_kind_ok_same; reflexivity
    | apply preserves_add_payment; intros ? ?;
      apply negative_kind_ok_same; reflexivity
    | apply preserves_add_reminder; intros ? ?;
      apply negative_kind_ok_same; reflexivity
    | apply preserves_bind; [|intros ?]
    | match goal with
      | |- preserves _ (if ?b then _ else _) => destruct b
      | |- preserves _ (match ?x with _ => _ end) => destruct x
      | |- preserves _ (let '(_, _) := ?x in _) => destruct x
      end ].

Ltac preserve := repeat preserve_step.

Lemma preserves__resolve_line_items company items klein :
  preserves negative_totals_invariant
    (_resolve_line_items company items klein).
Proof.
  unfold negative_totals_invariant.
  induction items as [|item rest IH]; simpl; [apply preserves_ret|].
  apply preserves_bind.
  - unfold _resolve_line_item. preserve.
  - intros line. apply preserves_bind; [exact IH|]. intros ?. preserve.
Qed.

Lemma preserves_get_document company i :
  preserves negative_totals_invariant (get_document company i).
Proof. unfold negative_totals_invariant, get_document. preserve. Qed.

Lemma preserves__generate_document_number company t :
  preserves negative_totals_invariant (_generate_document_number company t).
Proof.
  unfold negative_totals_invariant, _generate_document_number. preserve.
Qed.

Lemma preserves_company_is_kleinunternehmer company :
  preserves negative_totals_invariant (company_is_kleinunternehmer company).
Proof.
  unfold negative_totals_invariant, company_is_kleinunternehmer. preserve.
Qed.

Ltac preserve_service :=
  repeat first
    [ apply preserves_get_document
    | apply preserves__generate_document_number
    | apply preserves_company_is_kleinunternehmer
    | apply preserves__resolve_line_items
    | preserve_step ].

Lemma preserves_create_document today calc_due company data :
  preserves negative_totals_invariant
    (create_document today calc_due company data).
Proof.
  unfold create_document, _serialize_dates. preserve_service.
Qed.

Lemma preserves_update_status today calc_due company i target :
  preserves negative_totals_invariant
    (update_status today calc_due company i target).
Proof.
  unfold update_status, _validate_status_transition, dot_get,
    _create_order_confirmation_from_quote, _serialize_dates.
  preserve_service.
Qed.

Lemma preserves_convert_quote_to_invoice today calc_due company i data :
  preserves negative_totals_invariant
    (convert_quote_to_invoice today calc_due company i data).
Proof.
  unfold convert_quote_to_invoice, _serialize_dates. preserve_service.
Qed.

Lemma preserves_add_payment_service today company i data :
  preserves negative_totals_invariant (add_payment today company i data).
Proof.
  unfold add_payment, sync_parent, subscript, _serialize_dates.
  preserve_service.
Qed.

Lemma preserves_add_reminder_service cfg today company i data :
  preserves negative_totals_invariant (add_reminder cfg today company i data).
Proof.
  unfold add_reminder, subscript, _serialize_dates. preserve_service.
Qed.

Lemma preserves_cancel_document today company i :
  preserves negative_totals_invariant (cancel_document today company i).
Proof.
  unfold cancel_document, _serialize_dates. preserve_service.
Qed.

Lemma preserves_create_credit_note today company i :
  preserves negative_totals_invariant (create_credit_note today company i).
Proof.
  unfold create_credit_note, _serialize_dates. preserve_service.
Qed.

Lemma preserves_create_partial_invoice today calc_due company i data :
  preserves negative_totals_invariant
    (create_partial_invoice today calc_due company i data).
Proof.
  unfold create_partial_invoice, _serialize_dates. preserve_service.
Qed.

(** Reads leave the database as it is. *)
Lemma get_document_inv company i db d db1 :
  get_document company i db = (Return d, db1) ->
  db1 = db /\ find_doc i (documents db) = Some d /\ owner d = company.
Proof.
  unfold get_document, bind, DocumentRepository.find_by_id.
  destruct (find_doc i (documents db)) as [x|]; [|discriminate].
  destruct (String.eqb (owner x) company) eqn:E; [|discriminate].
  intros [= <- <-]. apply String.eqb_eq in E. auto.
Qed.

Lemma get_document_snd company i db : snd (get_document company i db) = db.
Proof.
  unfold get_document, bind, DocumentRepository.find_by_id. simpl.
  destruct (find_doc i (documents db)) as [x|]; [|reflexivity].
  destruct (String.eqb (owner x) company); reflexivity.
Qed.

Lemma _resolve_line_item_snd company item klein db :
  snd (_resolve_line_item company item klein db) = db.
Proof.
  unfold _resolve_line_item, bind, ProductRepository.find_by_id, ret, raise.
  destruct (String.eqb (str_or (LineItemCreate.product_id item) "") "");
    [reflexivity|].
  destruct (assoc _ (products db)) as [pr|]; [|reflexivity].
  destruct (String.eqb (Product.company_id pr) company); reflexivity.
Qed.

Lemma _resolve_line_items_snd company items klein db :
  snd (_resolve_line_items company items klein db) = db.
Proof.
  induction items as [|item rest IH]; simpl; [reflexivity|].
  unfold bind at 1.
  pose proof (_resolve_line_item_snd company item klein db) as H1.
  destruct (_resolve_line_item company item klein db) as [[l|e] db1];
    simpl in H1; subst db1; [|reflexivity].
  unfold bind at 1.
  destruct (_resolve_line_items company rest klein db) as [[r|e] db2];
    simpl in IH; subst db2; reflexivity.
Qed.

Lemma company_is_kleinunternehmer_run company db :
  company_is_kleinunternehmer company db =
  (Return match assoc company (companies db) with
          | Some c => Company.is_kleinunternehmer c
          | None => false
          end, db).
Proof. reflexivity. Qed.

Lemma Forall_update_doc_found (P : Document -> Prop) i f ds d :
  find_doc i ds = Some d -> P (f d) -> Forall P ds ->
  Forall P (update_doc i f ds).
Proof.
  intros Hf Hd H. induction H as [|x r Hx Hr IH]; simpl; [constructor|].
  simpl in Hf. destruct (String.eqb (id x) i).
  - injection Hf as ->. constructor; assumption.
  - constructor; auto.
Qed.

Lemma fold_keeps_type_and_totals (fs : list (Document -> Document)) :
  Forall keeps_type_and_totals fs ->
  keeps_type_and_totals (fun d => fold_left (fun d' set => set d') fs d).
Proof.
  intros H. induction H as [|f r Hf Hr IH]; intros d; simpl; [auto|].
  destruct (IH (f d)) as [H1 H2]. destruct (Hf d) as [H3 H4].
  rewrite H1, H2. auto.
Qed.

Lemma preserves_update_document company i data :
  preserves negative_totals_invariant (update_document company i data).
Proof.
  intros db H. unfold update_document.
  destruct (get_document company i db) as [[d|e] db1] eqn:Eg.
  2:{ rewrite (bind_Raised _ _ _ _ _ Eg).
      pose proof (get_document_snd company i db) as Hs.
      rewrite Eg in Hs. simpl in *. now subst db1. }
  pose proof Eg as Eg'. apply get_document_inv in Eg' as (-> & Hf & _).
  rewrite (bind_Return _ _ _ _ _ Eg).
  destruct (negb (DocumentStatus_eqb (status d) DRAFT));
    [rewrite raise_if_true; exact H|].
  rewrite raise_if_false.
  assert (Hrest : Forall keeps_type_and_totals
            ((match DocumentUpdate.customer_id data with
              | Some a => [set_customer_id a] | None => [] end)
             ++ (match DocumentUpdate.notes data with
                 | Some a => [set_notes a] | None => [] end)
             ++ (match DocumentUpdate.payment_terms_days data with
                 | Some a => [set_payment_terms_days a] | None => [] end)
             ++ (match DocumentUpdate.issue_date data with
                 | Some a => [set_issue_date a] | None => [] end)
             ++ (match DocumentUpdate.service_date data with
                 | Some a => [set_service_date a] | None => [] end)
             ++ (match DocumentUpdate.due_date data with
                 | Some a => [set_due_date a] | None => [] end))%list).
  { destruct (DocumentUpdate.customer_id data), (DocumentUpdate.notes data),
      (DocumentUpdate.payment_terms_days data),
      (DocumentUpdate.issue_date data), (DocumentUpdate.service_date data),
      (DocumentUpdate.due_date data); simpl;
      repeat constructor. }
  set (rest := (_ ++ _)%list) in Hrest.
  destruct (DocumentUpdate.items data) as [items_data|].
  - rewrite !bind_assoc.
    rewrite (bind_Return _ _ _ _ _
               (company_is_kleinunternehmer_run company db)).
    set (klein := match assoc company (companies db) with
                  | Some c => Company.is_kleinunternehmer c
                  | None => false
                  end).
    rewrite !bind_assoc.
    pose proof (_resolve_line_items_snd company items_data klein db) as Hr.
    destruct (_resolve_line_items company items_data klein db)
      as [[resolved|e] db2] eqn:Er; simpl in Hr; subst db2.
    2:{ rewrite (bind_Raised _ _ _ _ _ Er). exact H. }
    rewrite (bind_Return _ _ _ _ _ Er). rewrite bind_ret.
    fold rest. simpl app. rewrite raise_if_false.
    rewrite (bind_Return _ _ _ _ _ (update_one_run _ _ _)).
    assert (Hgoal : negative_totals_invariant
              (with_documents
                 (update_doc i
                    (fun d0 =>
                       set_updated_at (clock db)
                         (fold_left (fun d' set => set d')
                            (set_items resolved
                             :: set_totals (_calc_totals resolved klein
                                              (document_type d))
                             :: rest)
                            d0))
                    (documents db))
                 (with_clock (S (clock db)) db))).
    { unfold negative_totals_invariant, on_documents. simpl documents.
      apply (Forall_update_doc_found _ _ _ _ d Hf); [|exact H].
      simpl fold_left.
      destruct (fold_keeps_type_and_totals rest Hrest
                  (set_totals (_calc_totals resolved klein (document_type d))
                     (set_items resolved d))) as [H1 H2].
      intros Hneg. simpl document_type in Hneg. simpl totals.
      rewrite H2. rewrite H1 in Hneg. simpl in Hneg |- *.
      apply negated__calc_totals. exact Hneg. }
    unfold _serialize_dates.
    destruct (option_map _ (find_doc i (documents db))); exact Hgoal.
  - rewrite bind_ret. fold rest. simpl app.
    destruct rest as [|f0 rest'] eqn:Erest; [exact H|].
    rewrite raise_if_false.
    rewrite (bind_Return _ _ _ _ _ (update_one_run _ _ _)).
    assert (Hgoal : negative_totals_invariant
              (with_documents
                 (update_doc i
                    (fun d0 =>
                       set_updated_at (clock db)
                         (fold_left (fun d' set => set d') (f0 :: rest') d0))
                    (documents db))
                 (with_clock (S (clock db)) db))).
    { unfold negative_totals_invariant, on_documents. simpl documents.
      apply Forall_update_doc; [|exact H].
      intros x Hx.
      destruct (fold_keeps_type_and_totals (f0 :: rest') Hrest x) as [H1 H2].
      apply (negative_kind_ok_same x);
        [exact H1| | | |exact Hx];
        exact (f_equal _ H2). }
    unfold _serialize_dates.
    destruct (option_map _ (find_doc i (documents db))); exact Hgoal.
Qed.

Lemma preserves_call cfg calc_due c :
  preserves negative_totals_invariant (call cfg calc_due c).
Proof.
  destruct c; simpl.
  - apply preserves_create_document.
  - apply preserves_update_document.
  - apply preserves_update_status.
  - apply preserves_convert_quote_to_invoice.
  - apply preserves_add_payment_service.
  - apply preserves_add_reminder_service.
  - apply preserves_cancel_document.
  - apply preserves_create_credit_note.
  - apply preserves_create_partial_invoice.
Qed.

Lemma serve_negative_totals_invariant cfg calc_due calls db :
  negative_totals_invariant db ->
  negative_totals_invariant (serve cfg calc_due calls db).
Proof.
  revert db. unfold serve.
  induction calls as [|c calls IH]; intros db H; simpl; [exact H|].
  apply IH. apply preserves_call. exact H.
Qed.



(** ** Line items *)

Lemma bind_Return_inv {A B} (c : M A) (k : A -> M B) db b db' :
  bind c k db = (Return b, db') ->
  exists a db1, c db = (Return a, db1) /\ k a db1 = (Return b, db').
Proof.
  unfold bind. destruct (c db) as [[a|e] db1]; [|discriminate].
  intros H. exists a, db1. auto.
Qed.

Lemma new_line_item_derived pid nm desc q u price rate disc :
  derived_before_vat (new_line_item pid nm desc q u price rate disc)
  /\ derived_with_vat (new_line_item pid nm desc q u price rate disc).
Proof. repeat split; reflexivity. Qed.

Lemma _resolve_line_item_resolved company item klein db line db' :
  _resolve_line_item company item klein db = (Return line, db') ->
  resolved_item klein line.
Proof.
  unfold _resolve_line_item. intros H.
  apply bind_Return_inv in H as (product & db1 & _ & H).
  destruct product as [pr|]; simpl in H;
    injection H as <- _; unfold resolved_item;
    do 8 eexists; reflexivity.
Qed.

Lemma _resolve_line_items_resolved company items klein db resolved db' :
  _resolve_line_items company items klein db = (Return resolved, db') ->
  Forall (resolved_item klein) resolved.
Proof.
  revert db resolved db'.
  induction items as [|item rest IH]; intros db resolved db' H; simpl in H.
  - injection H as <- _. constructor.
  - apply bind_Return_inv in H as (line & db1 & Hl & H).
    apply bind_Return_inv in H as (r & db2 & Hr & H).
    injection H as <- _. constructor.
    + exact (_resolve_line_item_resolved _ _ _ _ _ _ Hl).
    + exact (IH _ _ _ Hr).
Qed.

(** The document [create_document] returns is the one it has built and
    inserted, provided the new identifier is not in use. *)
Lemma create_document_inv today calc_due company data db d db' :
  create_document today calc_due company data db = (Return d, db') ->
  find_doc (oid (next_oid db)) (documents db) = None ->
  exists resolved klein now number notes days issue service due related,
    Forall (resolved_item klein) resolved
    /\ d = set_id (oid (next_oid db))
             (new_document now company (DocumentCreate.customer_id data)
                (DocumentCreate.document_type data) number resolved klein
                notes days issue service due "" related).
Proof.
  unfold create_document. intros H Hfresh.
  apply bind_Return_inv in H as (customer & db1 & Hc & H).
  injection Hc as _ <-.
  apply bind_Return_inv in H as ([] & db1 & Hr & H).
  assert (db1 = db) as ->.
  { unfold raise_if, when in Hr.
    destruct (match customer with Some _ => _ | None => _ end);
      [discriminate|]. now injection Hr as <-. }
  apply bind_Return_inv in H as (klein & db1 & Hk & H).
  rewrite company_is_kleinunternehmer_run in Hk. injection Hk as <- <-.
  apply bind_Return_inv in H as (resolved & db1 & Hres & H).
  match type of Hres with
  | _resolve_line_items _ _ ?k _ = _ =>
      pose proof (_resolve_line_items_snd company (DocumentCreate.items data)
                    k db) as Hsnd
  end.
  rewrite Hres in Hsnd. simpl in Hsnd. subst db1.
  apply bind_Return_inv in H as (number & db1 & Hn & H).
  rewrite _generate_document_number_run in Hn. injection Hn as <- <-.
  apply bind_Return_inv in H as (now & db1 & Hnow & H).
  injection Hnow as <- <-.
  apply bind_Return_inv in H as (doc_id & db1 & Hi & H).
  unfold DocumentRepository.insert_one in Hi. simpl in Hi.
  injection Hi as <- <-.
  apply bind_Return_inv in H as (created & db1 & Hcr & H).
  unfold DocumentRepository.find_by_id in Hcr. simpl in Hcr.
  injection Hcr as <- <-.
  rewrite find_doc_app, Hfresh in H. simpl id in H.
  rewrite String.eqb_refl in H. simpl in H. injection H as <- _.
  do 10 eexists. split; [|reflexivity].
  exact (_resolve_line_items_resolved _ _ _ _ _ _ Hres).
Qed.

(** The claim C1 fails on its own example: with quantity 10, unit price
    95, VAT rate 0.19 and discount 5 the code stores vat 171.47 and gross
    1073.97, not 171.48 and 1073.98.  The product [902.5 * 0.19] is the
    double [6033240203932467 * 2^-45]
    = 171.474999999999994315658113919198513031005859375, below the tie
    171.475, and is rounded down. *)
Lemma C1_counterexample_10_times_95 :
  let i := new_line_item "" "Webentwicklung" "" 10 "Stunde" 95 0.19 5 in
  net_amount i = 902.5
  /\ Prim2SF (net_amount i * vat_rate i)
     = S754_finite false 6033240203932467 (-45)
  /\ (6033240203932467 * 1000 < 171475 * 2 ^ 45)%Z
  /\ vat_amount i = 171.47
  /\ gross_amount i = 1073.97
  /\ (vat_amount i =? 171.48) = false
  /\ (gross_amount i =? 1073.98) = false.
Proof. vm_compute. repeat split; reflexivity. Qed.

(** C1, amended: the item [new_line_item] returns has
    [discount_amount = round(subtotal * (discount_percent / 100), 2)] with
    [subtotal = round(quantity * unit_price, 2)],
    [net_amount = round(subtotal - discount_amount, 2)],
    [vat_amount = round(net_amount * vat_rate, 2)] and
    [gross_amount = round(net_amount + vat_amount, 2)], each rounded where
    it is derived, in binary floating point.  The items of a created
    document are stored with these fields; for a Kleinunternehmer the
    stored VAT rate and VAT amount are 0 and the gross amount is the net
    amount.  Quantity 10, unit price 95, VAT rate 0.19, discount 5 give
    subtotal 950.00, discount 47.50, net 902.50, vat 171.47 and gross
    1073.97. *)
Theorem C1_line_item_amounts_rounded_per_step :
  (forall pid nm desc q u price rate disc,
      let i := new_line_item pid nm desc q u price rate disc in
      let subtotal := Py.round2 (q * price) in
      quantity i = q /\ unit_price i = price /\ vat_rate i = rate
      /\ discount_percent i = disc
      /\ discount_amount i = Py.round2 (subtotal * (disc / 100))
      /\ net_amount i = Py.round2 (subtotal - discount_amount i)
      /\ vat_amount i = Py.round2 (net_amount i * rate)
      /\ gross_amount i = Py.round2 (net_amount i + vat_amount i))
  /\ (forall today calc_due company data db d db',
        create_document today calc_due company data db = (Return d, db') ->
        find_doc (oid (next_oid db)) (documents db) = None ->
        Forall
          (fun i =>
             let subtotal := Py.round2 (quantity i * unit_price i) in
             discount_amount i
             = Py.round2 (subtotal * (discount_percent i / 100))
             /\ net_amount i = Py.round2 (subtotal - discount_amount i)
             /\ if is_kleinunternehmer d
                then vat_rate i = 0 /\ vat_amount i = 0
                     /\ gross_amount i = net_amount i
                else vat_amount i = Py.round2 (net_amount i * vat_rate i)
                     /\ gross_amount i
                        = Py.round2 (net_amount i + vat_amount i))
          (items d))
  /\ (let i := new_line_item "" "Webentwicklung" "" 10 "Stunde" 95 0.19 5 in
      Py.round2 (quantity i * unit_price i) = 950
      /\ discount_amount i = 47.5
      /\ net_amount i = 902.5
      /\ vat_amount i = 171.47
      /\ gross_amount i = 1073.97).
Proof.
  split; [intros; repeat split; reflexivity|].
  split; [|vm_compute; repeat split; reflexivity].
  intros today calc_due company data db d db' Hrun Hfresh.
  destruct (create_document_inv _ _ _ _ _ _ _ Hrun Hfresh)
    as (resolved & klein & now & number & notes & days & issue & service
        & due & related & Hres & ->).
  simpl items. simpl is_kleinunternehmer.
  destruct klein.
  - apply Forall_map. revert Hres. apply Forall_impl.
    intros i (pid & nm & desc & q & u & price & rate & disc & ->).
    repeat split; reflexivity.
  - revert Hres. apply Forall_impl.
    intros i (pid & nm & desc & q & u & price & rate & disc & ->).
    repeat split; reflexivity.
Qed.

(** C1 at work: an invoice with the item of the example is created in
    the empty database; its item has discount 47.50, net 902.50, vat
    171.47 and gross 1073.97. *)
Lemma C1_witness_created_invoice :
  map (fun i => (discount_amount i, net_amount i, vat_amount i,
                 gross_amount i))
    (items invoice_10_times_95)
  = [(47.5, 902.5, 171.47, 1073.97)]
  /\ Forall
       (fun i =>
          vat_amount i = Py.round2 (net_amount i * vat_rate i)
          /\ gross_amount i = Py.round2 (net_amount i + vat_amount i))
       (items invoice_10_times_95).
Proof.
  split; [vm_compute; reflexivity|].
  assert (Hrun : create_document "2026-03-01" same_day "c1"
                   (document_request INVOICE
                      [free_text_item "Webentwicklung" 10 95 0.19 5])
                   db_empty
                 = (Return invoice_10_times_95, snd created_10_times_95))
    by (vm_compute; reflexivity).
  pose proof (proj1 (proj2 C1_line_item_amounts_rounded_per_step)
                _ _ _ _ _ _ _ Hrun eq_refl) as H.
  change (is_kleinunternehmer invoice_10_times_95) with false in H.
  revert H. apply Forall_impl. intros i (_ & _ & H). exact H.
Defined.

(** ** The cap on partial invoices *)

(** C6 fails on the code when an invoice has more than 100 related
    documents: [find_related_documents] returns the 100 newest only, so
    older partial invoices drop out of the sum.  In the scenario the
    partial invoices of the invoice add up to 100.00 and the request of
    50.00 exceeds the cap ([100 + 50 > 100 + 0.01]), but the sum the
    service computes over the returned window is 0 and the request is
    accepted. *)
Theorem C6_cap_check_sees_only_100_newest :
  exists inv first children window last db',
    cap_scenario db_empty
    = (Return (inv, first, children, window, last), db')
    /\ document_type inv = INVOICE
    /\ gross (totals inv) = 100
    /\ In first children
    /\ gross (totals first) = 100
    /\ List.length children = 101%nat
    /\ partial_sum children = 100
    /\ (abs (gross (totals inv)) + 0.01 <? partial_sum children + 50) = true
    /\ List.length window = 100%nat
    /\ existsb (fun p => String.eqb (id p) (id first)) window = false
    /\ partial_sum window = 0
    /\ document_type last = PARTIAL_INVOICE
    /\ related_document_id last = id inv
    /\ gross (totals last) = 50.
Proof.
  do 6 eexists. split; [vm_compute; reflexivity|].
  split; [reflexivity|]. split; [reflexivity|].
  split; [simpl; auto|].
  repeat split; vm_compute; reflexivity.
Qed.

Lemma find_related_documents_run company i db :
  DocumentRepository.find_related_documents company i db
  = (Return (related_window company i db), db).
Proof. reflexivity. Qed.

Lemma now_utc_run db :
  now_utc db = (Return (clock db), with_clock (S (clock db)) db).
Proof. reflexivity. Qed.

Lemma insert_one_run d db :
  DocumentRepository.insert_one d db
  = (Return (oid (next_oid db)),
     with_next_oid (S (next_oid db))
       (with_documents (documents db ++ [set_id (oid (next_oid db)) d]) db)).
Proof. reflexivity. Qed.

Lemma find_by_id_run i db :
  DocumentRepository.find_by_id i db
  = (Return (find_doc i (documents db)), db).
Proof. reflexivity. Qed.

Lemma create_partial_invoice_cap today calc_due company i data db doc :
  find_doc i (documents db) = Some doc ->
  owner doc = company ->
  document_type doc = INVOICE ->
  status doc <> CANCELLED ->
  let sum := partial_sum (related_window company i db) in
  let requested := CreatePartialRequest.amount data in
  ((abs (gross (totals doc)) + 0.01 <? sum + requested) = true ->
   create_partial_invoice today calc_due company i data db
   = (Raised (HTTPException HTTP_400_BAD_REQUEST
                (Partial_total_would_exceed_invoice_gross (sum + requested)
                   (abs (gross (totals doc))))), db))
  /\ ((abs (gross (totals doc)) + 0.01 <? sum + requested) = false ->
      CreatePartialRequest.items data = None ->
      exists d db',
        create_partial_invoice today calc_due company i data db
        = (Return d, db')).
Proof.
  intros Hf Ho Ht Hs sum requested.
  assert (Hc : DocumentStatus_eqb (status doc) CANCELLED = false).
  { destruct (DocumentStatus_eqb (status doc) CANCELLED) eqn:E;
      [|reflexivity].
    apply DocumentStatus_eqb_eq in E. contradiction. }
  split; intros Hcap.
  - unfold create_partial_invoice.
    rewrite (bind_Return _ _ _ _ _ (get_document_found _ _ _ _ Hf Ho)).
    rewrite Ht. change (DocumentType_eqb INVOICE INVOICE) with true.
    simpl negb. rewrite raise_if_false. rewrite Hc, raise_if_false.
    rewrite (bind_Return _ _ _ _ _ (find_related_documents_run _ _ _)).
    fold sum. fold requested.
    rewrite Hcap. apply raise_if_true.
  - intros Hitems. unfold create_partial_invoice.
    rewrite (bind_Return _ _ _ _ _ (get_document_found _ _ _ _ Hf Ho)).
    rewrite Ht. change (DocumentType_eqb INVOICE INVOICE) with true.
    simpl negb. rewrite raise_if_false. rewrite Hc, raise_if_false.
    rewrite (bind_Return _ _ _ _ _ (find_related_documents_run _ _ _)).
    fold sum. fold requested.
    rewrite Hcap, raise_if_false.
    rewrite (bind_Return _ _ _ _ _ (company_is_kleinunternehmer_run _ _)).
    rewrite Hitems. rewrite bind_ret.
    rewrite (bind_Return _ _ _ _ _ (_generate_document_number_run _ _ _)).
    rewrite (bind_Return _ _ _ _ _ (now_utc_run _)).
    rewrite (bind_Return _ _ _ _ _ (insert_one_run _ _)).
    rewrite (bind_Return _ _ _ _ _ (find_by_id_run _ _)).
    cbn [next_oid clock counters documents with_clock with_counters
         with_documents with_next_oid].
    rewrite find_doc_app. simpl id. rewrite String.eqb_refl.
    destruct (find_doc (oid (next_oid db)) (documents db));
      eexists; eexists; reflexivity.
Qed.

(** With at most 100 related documents the window holds them all, and
    the sum is the sum over every partial invoice of the invoice. *)
Lemma related_window_all company i db :
  (List.length (filter (DocumentRepository.related_to company i)
                  (documents db)) <= 100)%nat ->
  related_window company i db
  = sort_created_at_desc
      (filter (DocumentRepository.related_to company i) (documents db)).
Proof.
  intros H. unfold related_window. apply firstn_all2.
  assert (Hlen : forall l, List.length (sort_created_at_desc l)
                           = List.length l).
  { induction l as [|x r IH]; simpl; [reflexivity|].
    rewrite <- IH. generalize (sort_created_at_desc r). intros s.
    induction s as [|y s IHs]; simpl; [reflexivity|].
    destruct (created_at y <=? created_at x)%nat; simpl;
      [reflexivity|]. now rewrite IHs. }
  now rewrite Hlen.
Qed.

(** ** Item dictionaries: reads, writes and copies *)

Module MemoryFacts.

Import Memory.
Local Open Scope nat_scope.
Local Open Scope list_scope.

Lemma length_write f a h : List.length (write f a h) = List.length h.
Proof.
  revert a. induction h as [|x r IH]; intros a; simpl; [reflexivity|].
  destruct a; simpl; [reflexivity|]. now rewrite IH.
Qed.

Lemma read_write_same f a h : read (write f a h) a = option_map f (read h a).
Proof.
  revert a. induction h as [|x r IH]; intros a; simpl.
  - now destruct a.
  - destruct a; simpl; [reflexivity|]. apply IH.
Qed.

Lemma read_write_other f a b h : a <> b -> read (write f a h) b = read h b.
Proof.
  revert a b. induction h as [|x r IH]; intros a b Hab; simpl.
  - reflexivity.
  - destruct a, b; simpl; try reflexivity; try congruence.
    apply IH. congruence.
Qed.

Lemma values_write_other f a h items :
  ~ In a items -> values (write f a h) items = values h items.
Proof.
  intros H. unfold values. apply map_ext_in. intros b Hb.
  apply read_write_other. intros ->. contradiction.
Qed.

Lemma deepcopy_spec items : forall h,
  valid h items ->
  snd (deepcopy h items) = seq (List.length h) (List.length items)
  /\ List.length (fst (deepcopy h items))
     = List.length h + List.length items
  /\ (forall a, a < List.length h ->
        read (fst (deepcopy h items)) a = read h a)
  /\ values (fst (deepcopy h items)) (snd (deepcopy h items))
     = values h items.
Proof.
  induction items as [|a r IH]; intros h Hv; simpl.
  - repeat split; auto; lia.
  - inversion Hv as [|? ? Ha Hr]; subst.
    destruct (read h a) as [v|] eqn:Ea.
    2:{ unfold read in Ea. apply nth_error_None in Ea. lia. }
    assert (Hv' : valid (h ++ [v]) r).
    { revert Hr. apply Forall_impl. intros x Hx. rewrite length_app. simpl. lia. }
    destruct (IH (h ++ [v]) Hv') as (H1 & H2 & H3 & H4).
    destruct (deepcopy (h ++ [v]) r) as [h' r'] eqn:Ed. simpl in *.
    rewrite length_app in H1, H2. simpl in H1, H2.
    assert (Hold : forall b, b < List.length h -> read h' b = read h b).
    { intros b Hb. rewrite H3 by (rewrite length_app; simpl; lia).
      unfold read. apply nth_error_app1. exact Hb. }
    split; [rewrite H1; f_equal; f_equal; lia|].
    split; [lia|]. split; [exact Hold|].
    f_equal.
    + rewrite H3 by (rewrite length_app; simpl; lia).
      unfold read in *. rewrite nth_error_app2 by lia.
      rewrite Nat.sub_diag. reflexivity.
    + rewrite H4. unfold values. apply map_ext_in. intros b Hb.
      rewrite Forall_forall in Hr. specialize (Hr b Hb).
      unfold read. apply nth_error_app1. exact Hr.
Qed.

Lemma zero_vat_in_place_other items : forall h a,
  ~ In a items -> read (zero_vat_in_place h items) a = read h a.
Proof.
  unfold zero_vat_in_place.
  induction items as [|b r IH]; intros h a Ha; simpl; [reflexivity|].
  rewrite IH by (intros H; apply Ha; now right).
  apply read_write_other. intros ->. apply Ha. now left.
Qed.

Lemma zero_vat_in_place_values items : forall h,
  NoDup items ->
  values (zero_vat_in_place h items) items
  = map (option_map zero_vat) (values h items).
Proof.
  unfold zero_vat_in_place, values.
  induction items as [|b r IH]; intros h Hn; simpl; [reflexivity|].
  inversion Hn as [|? ? Hb Hr]; subst.
  f_equal.
  - fold (zero_vat_in_place (write zero_vat b h) r).
    rewrite zero_vat_in_place_other by exact Hb.
    apply read_write_same.
  - rewrite (IH _ Hr). rewrite map_map. rewrite map_map.
    apply map_ext_in. intros a Ha. f_equal.
    apply read_write_other. intros ->. contradiction.
Qed.

Lemma order_confirmation_items_isolated h quote_items klein :
  valid h quote_items ->
  let h' := fst (order_confirmation_items h quote_items klein) in
  let items_copy := snd (order_confirmation_items h quote_items klein) in
  values h' items_copy
  = map (option_map (if klein then zero_vat else fun i => i))
      (values h quote_items)
  /\ values h' quote_items = values h quote_items
  /\ (forall a, In a quote_items -> ~ In a items_copy)
  /\ (forall f b, In b items_copy ->
        values (write f b h') quote_items = values h' quote_items)
  /\ (forall f a, In a quote_items ->
        values (write f a h') items_copy = values h' items_copy).
Proof.
  intros Hv. unfold order_confirmation_items.
  destruct (deepcopy_spec quote_items h Hv) as (H1 & H2 & H3 & H4).
  destruct (deepcopy h quote_items) as [h1 c] eqn:Ed. simpl in *.
  assert (Hdisj : forall a, In a quote_items -> ~ In a c).
  { intros a Ha Hc. rewrite H1 in Hc. apply in_seq in Hc.
    unfold valid in Hv. rewrite Forall_forall in Hv. specialize (Hv a Ha). lia. }
  assert (Hq1 : values h1 quote_items = values h quote_items).
  { unfold values. apply map_ext_in. intros a Ha. apply H3.
    unfold valid in Hv. rewrite Forall_forall in Hv. exact (Hv a Ha). }
  assert (Hnd : NoDup c) by (rewrite H1; apply seq_NoDup).
  assert (Hmain :
    values (if klein then zero_vat_in_place h1 c else h1) c
    = map (option_map (if klein then zero_vat else fun i => i))
        (values h quote_items)
    /\ values (if klein then zero_vat_in_place h1 c else h1) quote_items
       = values h quote_items).
  { destruct klein.
    - split.
      + rewrite zero_vat_in_place_values by exact Hnd. now rewrite H4.
      + rewrite <- Hq1. unfold values. apply map_ext_in. intros a Ha.
        apply zero_vat_in_place_other. apply Hdisj. exact Ha.
    - split; [|exact Hq1].
      rewrite H4. unfold values. rewrite map_map. apply map_ext.
      intros a. now destruct (read h a). }
  destruct Hmain as [Hm1 Hm2].
  split; [exact Hm1|]. split; [exact Hm2|]. split; [exact Hdisj|].
  split.
  - intros f b Hb. apply values_write_other. intros Hq.
    exact (Hdisj b Hq Hb).
  - intros f a Ha. apply values_write_other. apply Hdisj. exact Ha.
Qed.

End MemoryFacts.

(** ** The order confirmation of an accepted quote *)

Lemma find_counter_inc company ct cs n :
  CounterRepository.find_counter company ct cs = Some n ->
  CounterRepository.find_counter company ct
    (CounterRepository.inc_counter company ct cs) = Some (S n).
Proof.
  induction cs as [|c r IH]; simpl; [discriminate|].
  destruct (CounterRepository.counter_eqb company ct c) eqn:E; simpl.
  - intros [= <-].
    unfold CounterRepository.counter_eqb in *. simpl. now rewrite E.
  - rewrite E. exact IH.
Qed.

Lemma find_counter_app_none company ct cs n :
  CounterRepository.find_counter company ct cs = None ->
  CounterRepository.find_counter company ct (cs ++ [(company, ct, n)])
  = Some n.
Proof.
  induction cs as [|c r IH]; simpl.
  - intros _. unfold CounterRepository.counter_eqb. simpl.
    now rewrite !String.eqb_refl.
  - destruct (CounterRepository.counter_eqb company ct c); [discriminate|].
    exact IH.
Qed.

(** The number a counter issues is one above the last it issued (1 when
    it had issued none), and the counter records it. *)
Lemma upsert_inc_next company ct cs :
  let r := CounterRepository.upsert_inc company ct cs in
  fst r = S match CounterRepository.find_counter company ct cs with
            | Some n => n
            | None => 0
            end
  /\ CounterRepository.find_counter company ct (snd r) = Some (fst r).
Proof.
  unfold CounterRepository.upsert_inc.
  destruct (CounterRepository.find_counter company ct cs) as [n|] eqn:E;
    simpl; split; try reflexivity.
  - now apply find_counter_inc.
  - now apply find_counter_app_none.
Qed.

(** Accepting a sent quote, in full. *)
Lemma update_status_accept_quote today calc_due company i q db :
  find_doc i (documents db) = Some q ->
  owner q = company ->
  document_type q = QUOTE ->
  status q = SENT ->
  let q' := set_updated_at (clock db) (set_status ACCEPTED q) in
  let r := CounterRepository.upsert_inc company
             "document_order_confirmation" (counters db) in
  update_status today calc_due company i ACCEPTED db
  = (Return q',
     with_next_oid (S (next_oid db))
       (with_documents
          (update_doc i
             (fun d => set_updated_at (clock db) (set_status ACCEPTED d))
             (documents db)
           ++ [set_id (oid (next_oid db))
                 (order_confirmation_of today calc_due company i q'
                    (S (clock db)) ("AB-" ++ zero_pad 6 (fst r)))])
          (with_clock (S (S (clock db))) (with_counters (snd r) db)))).
Proof.
  intros Hf Ho Ht Hs q' r. unfold update_status.
  assert (He : spec_edge (document_type q) (status q) ACCEPTED = true)
    by (rewrite Ht, Hs; reflexivity).
  rewrite (bind_Return _ _ _ _ _ (get_document_found _ _ _ _ Hf Ho)).
  rewrite (bind_Return _ _ _ _ _
             (_validate_status_transition_edge _ _ _ _ He)).
  rewrite (bind_Return _ _ _ _ _ (update_one_run _ _ _)).
  rewrite Hf, Ht. simpl option_map. cbv iota beta.
  change (DocumentType_eqb QUOTE QUOTE && DocumentStatus_eqb ACCEPTED ACCEPTED)
    with true. cbv iota.
  unfold dot_get. rewrite bind_assoc, bind_ret.
  rewrite (bind_Return _ _ _ _ _
             (_create_order_confirmation_from_quote_run _ _ _ _ _ _)).
  reflexivity.
Qed.


Lemma zero_vat_exempt_form i : vat_exempt_form i -> zero_vat i = i.
Proof.
  destruct i. unfold vat_exempt_form, zero_vat. simpl.
  intros [-> ->]. reflexivity.
Qed.

Lemma map_zero_vat_exempt_form its :
  Forall vat_exempt_form its -> map zero_vat its = its.
Proof.
  induction 1 as [|i r Hi Hr IH]; simpl; [reflexivity|].
  now rewrite zero_vat_exempt_form, IH.
Qed.

Lemma map_option_map_Some {A B} (f : A -> B) (l : list A) :
  map (option_map f) (map Some l) = map Some (map f l).
Proof. rewrite !map_map. reflexivity. Qed.



(** * Further properties of the service *)

(** ** Pagination *)

(** X1: [build_pagination_query] answers in range whatever it is given: the
    number of documents to skip is not negative and is a whole number of
    pages, and the limit is between 1 and 100; a page below 1 counts as
    page 1, and a page size within 1 to 100 is taken as it is. *)
Theorem build_pagination_query_stays_in_range (page page_size : Z) :
  let q := Pagination.build_pagination_query page page_size in
  (0 <= Pagination.skip q)%Z
  /\ (1 <= Pagination.limit q <= 100)%Z
  /\ Pagination.skip q = ((Z.max page 1 - 1) * Pagination.limit q)%Z
  /\ ((1 <= page_size <= 100)%Z -> Pagination.limit q = page_size).
Proof.
  unfold Pagination.build_pagination_query. simpl.
  repeat split; try lia. nia.
Qed.

Lemma total_pages_least {A} (items : list A) (total page page_size : Z) :
  let r := Pagination.build_paginated_response items total page page_size in
  (1 <= Pagination.page_size r <= 100)%Z
  /\ (1 <= Pagination.total_pages r)%Z
  /\ forall n : Z,
       (1 <= n)%Z ->
       ((total <= n * Pagination.page_size r)%Z
        <-> (Pagination.total_pages r <= n)%Z).
Proof.
  unfold Pagination.build_paginated_response. simpl.
  set (ps := Z.min (Z.max page_size 1) 100).
  assert (Hps : (1 <= ps <= 100)%Z) by (unfold ps; lia).
  split; [exact Hps|]. split; [lia|].
  intros n Hn.
  assert (Hd : ((total + ps - 1) / ps <= n <-> total <= n * ps)%Z).
  { split; intros H.
    - assert ((total + ps - 1) < ps * (n + 1))%Z; [|lia].
      pose proof (Z.mul_succ_div_gt (total + ps - 1) ps ltac:(lia)). nia.
    - assert ((total + ps - 1) / ps < n + 1)%Z; [|lia].
      apply Z.div_lt_upper_bound; lia. }
  lia.
Qed.

(** X2: [total_pages] of [build_paginated_response] is the least number of
    pages, at least one, that hold [total] items at the page size the
    response reports, and that page size is between 1 and 100: for every
    [n >= 1], [total <= n * page_size] exactly when [total_pages <= n]. *)
Theorem total_pages_is_the_least_number_of_pages :
  forall (A : Type) (items : list A) (total page page_size : Z),
    let r :=
      Pagination.build_paginated_response items total page page_size in
    (1 <= Pagination.page_size r <= 100)%Z
    /\ (1 <= Pagination.total_pages r)%Z
    /\ forall n : Z,
         (1 <= n)%Z ->
         ((total <= n * Pagination.page_size r)%Z
          <-> (Pagination.total_pages r <= n)%Z).
Proof. intros A items total page page_size. apply total_pages_least. Qed.

(** ** Listing documents *)

Lemma serialize_all_run items db : serialize_all items db = (Return items, db).
Proof.
  induction items as [|d r IH]; [reflexivity|].
  simpl. unfold bind. simpl. now rewrite IH.
Qed.

Lemma length_insert_newest_first d l :
  List.length (insert_newest_first d l) = S (List.length l).
Proof.
  induction l as [|x r IH]; simpl; [reflexivity|].
  destruct (created_at x <=? created_at d)%nat; simpl; [reflexivity|].
  now rewrite IH.
Qed.

Lemma length_sort_created_at_desc l :
  List.length (sort_created_at_desc l) = List.length l.
Proof.
  induction l as [|x r IH]; simpl; [reflexivity|].
  now rewrite length_insert_newest_first, IH.
Qed.

Lemma In_insert_newest_first x d l :
  In x (insert_newest_first d l) <-> x = d \/ In x l.
Proof.
  induction l as [|y r IH]; simpl.
  - split; intros [H|H]; auto; contradiction.
  - destruct (created_at y <=? created_at d)%nat; simpl.
    + split; intros [H|H]; auto.
    + rewrite IH. split; intros H; intuition.
Qed.

Lemma In_sort_created_at_desc x l :
  In x (sort_created_at_desc l) <-> In x l.
Proof.
  induction l as [|y r IH]; simpl; [reflexivity|].
  rewrite In_insert_newest_first, IH. split; intros [H|H]; auto.
Qed.

(** The filter [list_documents] builds selects by the fields. *)
Lemma matches_selected regex company search by_type by_status d :
  Pagination.matches regex
    (Pagination.build_filter_query company search
       (Some DOCUMENT_SEARCH_FIELDS)
       (Some (filter_entry "document_type" by_type
              ++ filter_entry "status" by_status)%list))
    d
  = selected regex company search by_type by_status d.
Proof.
  unfold selected, filter_entry, Pagination.build_filter_query,
    DOCUMENT_SEARCH_FIELDS.
  destruct search as [s|]; [destruct (String.eqb s "")|];
    (destruct by_type as [t|]; [destruct (String.eqb t "")|]);
    (destruct by_status as [u|]; [destruct (String.eqb u "")|]);
    cbn; rewrite ?andb_true_r, ?orb_false_r, <- ?andb_assoc;
    reflexivity.
Qed.

Lemma list_documents_run regex company page page_size search by_type
    by_status db :
  let all := listing regex company search by_type by_status db in
  let pag := Pagination.build_pagination_query page page_size in
  list_documents regex company page page_size search by_type by_status db
  = (Return
       (Pagination.build_paginated_response
          (firstn (Z.to_nat (Pagination.limit pag))
             (skipn (Z.to_nat (Pagination.skip pag)) all))
          (Z.of_nat (List.length all)) page page_size),
     db).
Proof.
  intros all pag. unfold list_documents, bind.
  unfold DocumentRepository.find_many, DocumentRepository.count.
  rewrite serialize_all_run.
  unfold all, listing. rewrite length_sort_created_at_desc.
  rewrite (filter_ext _ _ (matches_selected regex company search by_type
                             by_status)).
  reflexivity.
Qed.

Lemma firstn_firstn_skipn {A} (a b : nat) (l : list A) :
  (firstn a l ++ firstn b (skipn a l))%list = firstn (a + b) l.
Proof.
  revert l. induction a as [|a IH]; intros l; [reflexivity|].
  destruct l as [|x r]; simpl.
  - now rewrite firstn_nil.
  - now rewrite IH.
Qed.

Lemma In_firstn {A} (x : A) n l : In x (firstn n l) -> In x l.
Proof.
  revert l. induction n as [|n IH]; intros [|y r]; simpl; try contradiction.
  intros [H|H]; auto.
Qed.

Lemma In_skipn {A} (x : A) n l : In x (skipn n l) -> In x l.
Proof.
  revert l. induction n as [|n IH]; intros [|y r]; simpl; auto.
Qed.

Lemma concat_chunks {A} (m N : nat) (l : list A) :
  List.concat (map (fun k => firstn m (skipn (k * m) l)) (seq 0 N))
  = firstn (N * m) l.
Proof.
  induction N as [|N IH]; [reflexivity|].
  rewrite seq_S, map_app, concat_app, IH. simpl.
  rewrite app_nil_r, firstn_firstn_skipn. f_equal. lia.
Qed.

Lemma page_items_eq regex company page_size search by_type by_status db page :
  let ps := Z.to_nat (Z.min (Z.max page_size 1) 100) in
  page_items regex company page_size search by_type by_status db page
  = firstn ps
      (skipn (Z.to_nat (Z.max page 1 - 1) * ps)
         (listing regex company search by_type by_status db)).
Proof.
  intros ps. unfold page_items. rewrite list_documents_run. simpl.
  unfold ps. f_equal. f_equal.
  rewrite Z2Nat.inj_mul by lia. reflexivity.
Qed.


(** X4: The pages of a listing cover it.  With any page size, the items
    of the pages 1 to [total_pages], one after the other, are all the
    documents the filters select, each once and newest first; a page
    beyond [total_pages] is empty. *)
Theorem list_documents_pages_cover_the_listing :
  forall regex company page_size search by_type by_status db,
    let n := page_count regex company page_size search by_type by_status db in
    List.concat
      (map (page_items regex company page_size search by_type by_status db)
         (pages n))
    = listing regex company search by_type by_status db
    /\ forall page,
         (n < page)%Z ->
         page_items regex company page_size search by_type by_status db page
         = [].
Proof.
  intros regex company page_size search by_type by_status db n.
  set (all := listing regex company search by_type by_status db).
  set (ps := Z.min (Z.max page_size 1) 100).
  assert (Hps : (1 <= ps <= 100)%Z) by (unfold ps; lia).
  assert (Hn : n = Z.max ((Z.of_nat (List.length all) + ps - 1) / ps) 1).
  { unfold n, page_count. rewrite list_documents_run. reflexivity. }
  assert (Hcover : (Z.of_nat (List.length all) <= n * ps)%Z).
  { pose proof (total_pages_least (@nil Document)
                  (Z.of_nat (List.length all)) 1 page_size) as (_ & _ & H).
    cbn [Pagination.total_pages Pagination.page_size
         Pagination.build_paginated_response] in H.
    fold ps in H. rewrite <- Hn in H. apply H; lia. }
  split.
  - unfold pages. rewrite <- seq_shift, !map_map.
    rewrite (map_ext _ (fun k => firstn (Z.to_nat ps)
                                   (skipn (k * Z.to_nat ps) all))).
    + rewrite concat_chunks. apply firstn_all2. nia.
    + intros k. rewrite page_items_eq. fold ps. fold all.
      do 3 f_equal. lia.
  - intros page Hp. rewrite page_items_eq. fold ps. fold all.
    rewrite skipn_all2; [apply firstn_nil|]. nia.
Qed.

(** ** The scope of a filter *)

Lemma dict_update_head k0 v0 r extra :
  exists r',
    Pagination.dict_update ((k0, Pagination.Equal v0) :: r) extra
    = (k0,
       Pagination.Equal
         (fold_left (fun c kv => if String.eqb (fst kv) k0 then snd kv else c)
            extra v0))
      :: r'.
Proof.
  unfold Pagination.dict_update. revert v0 r.
  induction extra as [|[k v] es IH]; intros v0 r; cbn [fold_left fst snd].
  - exists r. reflexivity.
  - cbn [Pagination.dict_set]. rewrite (String.eqb_sym k k0).
    destruct (String.eqb k0 k); apply IH.
Qed.

Lemma scope_unnamed company es :
  Forall (fun kv => fst kv <> "company_id") es ->
  scope company (Some es) = company.
Proof.
  unfold scope. induction 1 as [|[k v] r Hk _ IH]; [reflexivity|].
  cbn [fold_left fst snd] in *.
  apply String.eqb_neq in Hk. now rewrite Hk.
Qed.

(** X5: The documents a filter of [build_filter_query] selects belong to one
    company: the one the filter was built for, unless the extra filters
    name ["company_id"], in which case it is the company they name.  So
    the filter is scoped to the caller's company exactly as long as no
    caller passes a company among the extra filters. *)
Theorem build_filter_query_scopes_to_the_company_unless_overridden :
  forall regex company search fields extra d,
    (Pagination.matches regex
       (Pagination.build_filter_query company search fields extra) d = true ->
     company_id d = scope company extra)
    /\ (forall es,
          extra = Some es ->
          Forall (fun kv => fst kv <> "company_id") es ->
          scope company extra = company).
Proof.
  intros regex company search fields extra d. split.
  - unfold Pagination.build_filter_query.
    set (q0 := [("company_id", Pagination.Equal company)]).
    assert (Hq : exists r,
              match search, fields with
              | Some s, Some (f :: fs) =>
                  if String.eqb s "" then q0
                  else Pagination.dict_set "$or"
                         (Pagination.Any_regex (f :: fs) s) q0
              | _, _ => q0
              end = ("company_id", Pagination.Equal company) :: r).
    { destruct search as [s|]; [|eexists; reflexivity].
      destruct fields as [[|f fs]|]; try (eexists; reflexivity).
      destruct (String.eqb s ""); eexists; reflexivity. }
    destruct Hq as (r & ->).
    assert (Hhead : forall q,
              q = (("company_id", Pagination.Equal (scope company extra))
                   :: tl q) ->
              Pagination.matches regex q d = true ->
              company_id d = scope company extra).
    { intros q -> H. cbn [Pagination.matches forallb] in H.
      apply andb_prop in H as [H _].
      unfold Pagination.holds in H. cbn in H.
      now apply String.eqb_eq in H. }
    destruct extra as [[|e es]|]; cbv zeta.
    + apply Hhead. reflexivity.
    + destruct (dict_update_head "company_id" company r (e :: es))
        as (r' & ->).
      apply Hhead. reflexivity.
    + apply Hhead. reflexivity.
  - intros es -> H. exact (scope_unnamed company es H).
Qed.

(** ** Sequence numbers and document numbers *)

Lemma int_of_digits_app a s1 s2 :
  int_of_digits a (s1 ++ s2) = int_of_digits (int_of_digits a s1) s2.
Proof. revert a. induction s1 as [|c r IH]; intros a; simpl; auto. Qed.

Lemma string_app_assoc (a b c : string) : (a ++ b) ++ c = a ++ (b ++ c).
Proof. induction a as [|x r IH]; simpl; [reflexivity|]. now rewrite IH. Qed.

Lemma decimal_fuel_S f n acc :
  decimal_fuel (S f) n acc
  = if (n / 10 =? 0)%nat then String (digit_char (n mod 10)) acc
    else decimal_fuel f (n / 10) (String (digit_char (n mod 10)) acc).
Proof. reflexivity. Qed.

Lemma decimal_fuel_acc fuel n acc :
  decimal_fuel fuel n acc = decimal_fuel fuel n "" ++ acc.
Proof.
  revert n acc. induction fuel as [|f IH]; intros n acc; [reflexivity|].
  rewrite !decimal_fuel_S.
  destruct (n / 10 =? 0)%nat; [reflexivity|].
  rewrite IH, (IH _ (String _ "")).
  now rewrite string_app_assoc.
Qed.

Lemma digit_value d : (d < 10)%nat -> (nat_of_ascii (digit_char d) - 48 = d)%nat.
Proof.
  intros H. unfold digit_char. rewrite nat_ascii_embedding; lia.
Qed.

Lemma int_decimal_fuel fuel n :
  (n < fuel)%nat -> int (decimal_fuel fuel n "") = n.
Proof.
  revert n. induction fuel as [|f IH]; intros n H; [lia|].
  rewrite decimal_fuel_S. pose proof (Nat.mod_upper_bound n 10 ltac:(lia)) as Hm.
  pose proof (Nat.div_mod_eq n 10) as Hd.
  destruct (n / 10 =? 0)%nat eqn:E.
  - apply Nat.eqb_eq in E. unfold int. cbn [int_of_digits].
    rewrite digit_value by lia. lia.
  - apply Nat.eqb_neq in E. rewrite decimal_fuel_acc.
    unfold int. rewrite int_of_digits_app.
    assert (Hlt : (n / 10 < f)%nat) by (apply Nat.Div0.div_lt_upper_bound; lia).
    fold (int (decimal_fuel f (n / 10) "")). rewrite (IH _ Hlt).
    cbn [int_of_digits]. rewrite digit_value by lia. lia.
Qed.

Lemma int_decimal n : int (decimal n) = n.
Proof. apply int_decimal_fuel. lia. Qed.

Lemma int_of_digits_zeros k s : int_of_digits 0 (zeros k ++ s) = int_of_digits 0 s.
Proof. induction k as [|k IH]; simpl; auto. Qed.

Lemma int_zero_pad w n : int (zero_pad w n) = n.
Proof.
  unfold zero_pad, int. rewrite int_of_digits_zeros. apply int_decimal.
Qed.

Lemma zero_pad_inj w n m : zero_pad w n = zero_pad w m -> n = m.
Proof.
  intros H. apply (f_equal int) in H. now rewrite !int_zero_pad in H.
Qed.

Lemma oid_inj n m : oid n = oid m -> n = m.
Proof. apply zero_pad_inj. Qed.

Lemma append_inj_l s a b : s ++ a = s ++ b -> a = b.
Proof. induction s as [|c r IH]; simpl; [auto|]. intros [= H]. auto. Qed.

Lemma number_of_inj t n t' n' :
  number_of t n = number_of t' n' -> t = t' /\ n = n'.
Proof.
  unfold number_of. intros H.
  assert (Ht : t = t') by (destruct t, t'; simpl in H; congruence).
  subst t'. split; [reflexivity|].
  apply append_inj_l, append_inj_l in H. exact (zero_pad_inj _ _ _ H).
Qed.

Lemma counter_type_of_inj t t' :
  counter_type_of t = counter_type_of t' -> t = t'.
Proof. destruct t, t'; cbv; congruence. Qed.

Lemma length_zeros k : String.length (zeros k) = k.
Proof. induction k; simpl; auto. Qed.

Lemma length_append s1 s2 :
  String.length (s1 ++ s2) = (String.length s1 + String.length s2)%nat.
Proof. induction s1; simpl; auto. Qed.

Lemma length_zero_pad w n :
  String.length (zero_pad w n) = Nat.max w (String.length (decimal n)).
Proof. unfold zero_pad. rewrite length_append, length_zeros. lia. Qed.

Lemma counter_eqb_false_other company ct company' ct' c :
  (company', ct') <> (company, ct) ->
  CounterRepository.counter_eqb company ct c = true ->
  CounterRepository.counter_eqb company' ct' c = false.
Proof.
  unfold CounterRepository.counter_eqb. intros Hne H.
  apply andb_prop in H as [H1 H2].
  apply String.eqb_eq in H1, H2.
  destruct (String.eqb (fst (fst c)) company') eqn:E1; [|reflexivity].
  destruct (String.eqb (snd (fst c)) ct') eqn:E2; [|reflexivity].
  apply String.eqb_eq in E1, E2. exfalso. apply Hne. congruence.
Qed.

Lemma find_counter_inc_other company ct company' ct' cs :
  (company', ct') <> (company, ct) ->
  CounterRepository.find_counter company' ct'
    (CounterRepository.inc_counter company ct cs)
  = CounterRepository.find_counter company' ct' cs.
Proof.
  intros Hne. induction cs as [|c r IH]; [reflexivity|].
  cbn [CounterRepository.inc_counter].
  destruct (CounterRepository.counter_eqb company ct c) eqn:E.
  - cbn [CounterRepository.find_counter].
    pose proof (counter_eqb_false_other _ _ _ _ c Hne E) as E'.
    assert (E'' : CounterRepository.counter_eqb company' ct'
                    (fst c, S (snd c)) = false) by exact E'.
    now rewrite E', E''.
  - cbn [CounterRepository.find_counter].
    destruct (CounterRepository.counter_eqb company' ct' c); [reflexivity|].
    exact IH.
Qed.

Lemma find_counter_app_other company ct company' ct' cs n :
  (company', ct') <> (company, ct) ->
  CounterRepository.find_counter company' ct' (cs ++ [(company, ct, n)])
  = CounterRepository.find_counter company' ct' cs.
Proof.
  intros Hne. induction cs as [|c r IH]; simpl.
  - rewrite (counter_eqb_false_other company ct company' ct'
               (company, ct, n) Hne); [reflexivity|].
    unfold CounterRepository.counter_eqb. simpl. now rewrite !String.eqb_refl.
  - destruct (CounterRepository.counter_eqb company' ct' c); [reflexivity|].
    exact IH.
Qed.

Lemma upsert_inc_other company ct company' ct' cs :
  (company', ct') <> (company, ct) ->
  CounterRepository.find_counter company' ct'
    (snd (CounterRepository.upsert_inc company ct cs))
  = CounterRepository.find_counter company' ct' cs.
Proof.
  intros Hne. unfold CounterRepository.upsert_inc.
  destruct (CounterRepository.find_counter company ct cs); simpl.
  - now apply find_counter_inc_other.
  - now apply find_counter_app_other.
Qed.

(** X6: [get_next_number] never raises.  It answers with the number after the
    one the counter of the company and counter type had reached (1 when
    there was no such counter), records it as the new state of that
    counter, and leaves every other counter and all documents as they
    were. *)
Theorem get_next_number_counts_one_counter :
  forall company counter_type db,
  exists n db',
    CounterRepository.get_next_number company counter_type db
    = (Return n, db')
    /\ n = S match CounterRepository.find_counter company counter_type
                     (counters db) with
             | Some k => k
             | None => 0
             end
    /\ CounterRepository.find_counter company counter_type (counters db')
       = Some n
    /\ (forall company' counter_type',
          (company', counter_type') <> (company, counter_type) ->
          CounterRepository.find_counter company' counter_type' (counters db')
          = CounterRepository.find_counter company' counter_type'
              (counters db))
    /\ documents db' = documents db.
Proof.
  intros company ct db. do 2 eexists. split; [reflexivity|].
  cbn [counters documents with_counters fst snd].
  pose proof (upsert_inc_next company ct (counters db)) as [H1 H2].
  split; [exact H1|]. split; [exact H2|]. split; [|reflexivity].
  intros company' ct' Hne. now apply upsert_inc_other.
Qed.

Lemma sequence_after_generate company t db :
  sequence company t
    (with_counters
       (snd (CounterRepository.upsert_inc company (counter_type_of t)
               (counters db))) db)
  = S (sequence company t db)
  /\ fst (CounterRepository.upsert_inc company (counter_type_of t)
            (counters db)) = S (sequence company t db).
Proof.
  unfold sequence. cbn [counters with_counters].
  pose proof (upsert_inc_next company (counter_type_of t) (counters db))
    as [H1 H2].
  rewrite H2. split; exact H1.
Qed.

Lemma sequence_other company t company' t' db :
  (company' <> company \/ t' <> t) ->
  sequence company' t'
    (with_counters
       (snd (CounterRepository.upsert_inc company (counter_type_of t)
               (counters db))) db)
  = sequence company' t' db.
Proof.
  intros Hne. unfold sequence. cbn [counters with_counters].
  rewrite upsert_inc_other; [reflexivity|].
  intros H. pose proof (f_equal fst H) as H1.
  pose proof (f_equal snd H) as H2. cbn [fst snd] in H1, H2.
  apply counter_type_of_inj in H2. destruct Hne; auto.
Qed.

(** X7: The number [_generate_document_number] issues: the prefix of the
    type, a hyphen, and the next sequence number of the company and type,
    written with at least six digits.  Issuing it advances that sequence
    by one and no other; numbers differ whenever the type or the sequence
    number differs, and the sequence number can be read back from the
    digits. *)
Theorem generate_document_number_issues_the_next_number :
  forall company t db,
  exists db',
    _generate_document_number company t db
    = (Return (number_of t (S (sequence company t db))), db')
    /\ sequence company t db' = S (sequence company t db)
    /\ (forall company' t',
          company' <> company \/ t' <> t ->
          sequence company' t' db' = sequence company' t' db)
    /\ documents db' = documents db
    /\ (forall t' n n',
          number_of t n = number_of t' n' <-> t = t' /\ n = n')
    /\ (forall n,
          int (zero_pad 6 n) = n
          /\ (6 <= String.length (zero_pad 6 n))%nat).
Proof.
  intros company t db. eexists.
  rewrite _generate_document_number_run.
  pose proof (sequence_after_generate company t db) as [H1 H2].
  fold (counter_type_of t). unfold number_of. rewrite H2.
  split; [reflexivity|]. split; [exact H1|].
  split; [intros; now apply sequence_other|].
  split; [reflexivity|]. split.
  - intros t' n n'. split.
    + apply number_of_inj.
    + now intros [-> ->].
  - intros n. split; [apply int_zero_pad|].
    rewrite length_zero_pad. lia.
Qed.

(** ** Related documents *)

Lemma length_related_window company i db :
  (List.length (related_window company i db) <= 100)%nat.
Proof. unfold related_window. rewrite length_firstn. lia. Qed.

Lemma In_related_window company i db d :
  In d (related_window company i db) ->
  In d (documents db) /\ owner d = company /\ related_document_id d = i.
Proof.
  unfold related_window. intros H.
  apply In_firstn, In_sort_created_at_desc, filter_In in H as [Hin H].
  unfold DocumentRepository.related_to in H.
  apply andb_prop in H as [H1 H2].
  apply String.eqb_eq in H1, H2. auto.
Qed.

Lemma get_related_documents_run company i db :
  get_related_documents company i db
  = match find_doc i (documents db) with
    | Some d =>
        if String.eqb (owner d) company then
          (Return
             {| RelatedDocuments.parent :=
                  if String.eqb (related_document_id d) "" then None
                  else
                    match find_doc (related_document_id d) (documents db) with
                    | Some p =>
                        if String.eqb (owner p) company
                        then Some (summary p) else None
                    | None => None
                    end;
                RelatedDocuments.children :=
                  map summary (related_window company i db) |},
           db)
        else (Raised (HTTPException HTTP_404_NOT_FOUND Document_not_found),
              db)
    | None =>
        (Raised (HTTPException HTTP_404_NOT_FOUND Document_not_found), db)
    end.
Proof.
  unfold get_related_documents.
  destruct (find_doc i (documents db)) as [d|] eqn:Hf.
  - destruct (String.eqb (owner d) company) eqn:Ho.
    + apply String.eqb_eq in Ho.
      rewrite (bind_Return _ _ _ _ _ (get_document_found _ _ _ _ Hf Ho)).
      rewrite (bind_Return _ _ _ _ _ (find_related_documents_run _ _ _)).
      destruct (String.eqb (related_document_id d) "") eqn:Hr; simpl negb;
        cbv iota.
      * reflexivity.
      * unfold bind at 1. unfold try_except_HTTPException_keep.
        destruct (find_doc (related_document_id d) (documents db))
          as [p|] eqn:Hp.
        -- destruct (String.eqb (owner p) company) eqn:Hop.
           ++ apply String.eqb_eq in Hop.
              rewrite (bind_Return _ _ _ _ _
                         (get_document_found _ _ _ _ Hp Hop)).
              reflexivity.
           ++ apply String.eqb_neq in Hop.
              rewrite (bind_Raised _ _ _ _ _
                         (get_document_foreign _ _ _ _ Hp Hop)).
              reflexivity.
        -- rewrite (bind_Raised _ _ _ _ _ (get_document_missing _ _ _ Hp)).
           reflexivity.
    + apply String.eqb_neq in Ho.
      now rewrite (bind_Raised _ _ _ _ _ (get_document_foreign _ _ _ _ Hf Ho)).
  - now rewrite (bind_Raised _ _ _ _ _ (get_document_missing _ _ _ Hf)).
Qed.

Lemma find_doc_In i ds d : find_doc i ds = Some d -> In d ds.
Proof.
  induction ds as [|x r IH]; simpl; [discriminate|].
  destruct (String.eqb (id x) i); [intros [= <-]; auto|auto].
Qed.




(** ** Running the service methods

    [bind] after each repository call and helper, as an equation. *)

Lemma bind_get_document {B} company i (k : Document -> M B) db :
  bind (get_document company i) k db
  = match find_doc i (documents db) with
    | Some d =>
        if String.eqb (owner d) company then k d db
        else (Raised (HTTPException HTTP_404_NOT_FOUND Document_not_found),
              db)
    | None =>
        (Raised (HTTPException HTTP_404_NOT_FOUND Document_not_found), db)
    end.
Proof.
  unfold get_document, bind, DocumentRepository.find_by_id.
  destruct (find_doc i (documents db)) as [d|]; [|reflexivity].
  destruct (String.eqb (owner d) company); reflexivity.
Qed.

Lemma bind_raise_if {B} b e (k : Datatypes.unit -> M B) db :
  bind (raise_if b e) k db = if b then (Raised e, db) else k tt db.
Proof. destruct b; reflexivity. Qed.

Lemma bind_update_one {B} i f (k : option Document -> M B) db :
  bind (DocumentRepository.update_one i f) k db
  = k (option_map (fun d => set_updated_at (clock db) (f d))
         (find_doc i (documents db)))
      (with_documents
         (update_doc i (fun d => set_updated_at (clock db) (f d))
            (documents db))
         (with_clock (S (clock db)) db)).
Proof. reflexivity. Qed.

Lemma bind_repo_add_payment {B} i p (k : option Document -> M B) db :
  bind (DocumentRepository.add_payment i p) k db
  = k (option_map
         (fun d => set_updated_at (clock db) (DocumentRepository.pay p d))
         (find_doc i (documents db)))
      (with_documents
         (update_doc i
            (fun d => set_updated_at (clock db) (DocumentRepository.pay p d))
            (documents db))
         (with_clock (S (clock db)) db)).
Proof. reflexivity. Qed.

Lemma bind_repo_add_reminder {B} i r (k : option Document -> M B) db :
  bind (DocumentRepository.add_reminder i r) k db
  = k (option_map
         (fun d => set_updated_at (clock db)
                     (set_reminders (reminders d ++ [r]) d))
         (find_doc i (documents db)))
      (with_documents
         (update_doc i
            (fun d => set_updated_at (clock db)
                        (set_reminders (reminders d ++ [r]) d))
            (documents db))
         (with_clock (S (clock db)) db)).
Proof. reflexivity. Qed.

Lemma bind_find_related {B} company i (k : list Document -> M B) db :
  bind (DocumentRepository.find_related_documents company i) k db
  = k (related_window company i db) db.
Proof. reflexivity. Qed.

Lemma bind_company_is_kleinunternehmer {B} company (k : bool -> M B) db :
  bind (company_is_kleinunternehmer company) k db
  = k match assoc company (companies db) with
      | Some c => Company.is_kleinunternehmer c
      | None => false
      end db.
Proof. reflexivity. Qed.

Lemma bind_customer_find {B} i (k : option Customer.t -> M B) db :
  bind (CustomerRepository.find_by_id i) k db = k (assoc i (customers db)) db.
Proof. reflexivity. Qed.

(** Number, clock and insertion, as every method that creates a document
    runs them. *)
Lemma bind_issue {B} company t (g : string -> nat -> Document)
    (k : string -> M B) db :
  bind (_generate_document_number company t)
    (fun number =>
       bind now_utc
         (fun now => bind (DocumentRepository.insert_one (g number now)) k))
    db
  = k (oid (next_oid db))
      (issue company t
         (g (number_of t (S (sequence company t db))) (clock db)) db).
Proof.
  unfold bind at 1. rewrite _generate_document_number_run.
  fold (counter_type_of t).
  destruct (sequence_after_generate company t db) as [_ H].
  rewrite H. reflexivity.
Qed.

Lemma bind_find_created {B} d (k : option Document -> M B) company t db :
  bind (DocumentRepository.find_by_id (oid (next_oid db))) k
    (issue company t d db)
  = k (Some match find_doc (oid (next_oid db)) (documents db) with
            | Some x => x
            | None => set_id (oid (next_oid db)) d
            end)
      (issue company t d db).
Proof.
  unfold bind, DocumentRepository.find_by_id, issue.
  cbn [documents with_next_oid with_documents].
  rewrite find_doc_app. cbn [id set_id]. rewrite String.eqb_refl.
  destruct (find_doc (oid (next_oid db)) (documents db)); reflexivity.
Qed.

Lemma writes_trans cfg company db1 db2 db3 :
  writes cfg company db1 db2 -> writes cfg company db2 db3 ->
  writes cfg company db1 db3.
Proof.
  intros H12 H23. induction H23 as [|db3 db4 _ IH Hw]; [exact H12|].
  exact (writes_more _ _ _ _ _ IH Hw).
Qed.

Lemma writes_one cfg company db db' :
  write cfg company db db' -> writes cfg company db db'.
Proof. intros H. exact (writes_more _ _ _ _ _ (writes_none _ _ _) H). Qed.

(** A repository update by identifier is a replacement. *)
Lemma update_is_replace i f d db :
  find_doc i (documents db) = Some d ->
  with_documents (update_doc i f (documents db)) (with_clock (S (clock db)) db)
  = replace i (f d) db.
Proof.
  intros Hf. unfold replace. f_equal.
  exact (update_doc_ext i f (fun _ => f d) _ d Hf eq_refl).
Qed.

Lemma runs_raise_404 {A} cfg company db detail :
  @runs A cfg company db
    (Raised (HTTPException HTTP_404_NOT_FOUND detail), db).
Proof. right. eauto. Qed.

Lemma runs_raise_400 {A} cfg company db detail :
  @runs A cfg company db
    (Raised (HTTPException HTTP_400_BAD_REQUEST detail), db).
Proof. right. eauto. Qed.

Ltac raised := first [apply runs_raise_404 | apply runs_raise_400].

Lemma runs_return {A} cfg company db (a : A) db' :
  writes cfg company db db' -> runs cfg company db (Return a, db').
Proof. left. eauto. Qed.

(** Resolving the items of a request reads the products only; when it
    fails, it fails for a product that is not one of the company. *)
Lemma _resolve_line_item_outcome company item klein db :
  (exists line, _resolve_line_item company item klein db = (Return line, db))
  \/ (exists p,
        _resolve_line_item company item klein db
        = (Raised (HTTPException HTTP_404_NOT_FOUND (Product_not_found p)),
           db)).
Proof.
  unfold _resolve_line_item, bind, ProductRepository.find_by_id, ret, raise.
  destruct (String.eqb (str_or (LineItemCreate.product_id item) "") "").
  - left. eexists. reflexivity.
  - destruct (assoc _ (products db)) as [pr|]; [|right; eauto].
    destruct (String.eqb (Product.company_id pr) company); [|right; eauto].
    left. eexists. reflexivity.
Qed.

Lemma _resolve_line_items_outcome company items klein db :
  (exists r, _resolve_line_items company items klein db = (Return r, db))
  \/ (exists p,
        _resolve_line_items company items klein db
        = (Raised (HTTPException HTTP_404_NOT_FOUND (Product_not_found p)),
           db)).
Proof.
  induction items as [|item rest IH]; cbn [_resolve_line_items].
  - left. eexists. reflexivity.
  - destruct (_resolve_line_item_outcome company item klein db)
      as [[line Hl]|[p Hl]].
    2:{ right. exists p. exact (bind_Raised _ _ _ _ _ Hl). }
    rewrite !(bind_Return _ _ _ _ _ Hl).
    destruct IH as [[r Hr]|[p Hr]].
    2:{ right. exists p. exact (bind_Raised _ _ _ _ _ Hr). }
    rewrite !(bind_Return _ _ _ _ _ Hr).
    left. eexists. reflexivity.
Qed.

Lemma bind__resolve_line_items {B} company items klein
    (k : list LineItem -> M B) db :
  (exists r,
     _resolve_line_items company items klein db = (Return r, db)
     /\ bind (_resolve_line_items company items klein) k db = k r db)
  \/ (exists p,
        bind (_resolve_line_items company items klein) k db
        = (Raised (HTTPException HTTP_404_NOT_FOUND (Product_not_found p)),
           db)).
Proof.
  destruct (_resolve_line_items_outcome company items klein db)
    as [[r Hr]|[p Hr]]; [left|right].
  - exists r. split; [exact Hr|]. exact (bind_Return _ _ _ _ _ Hr).
  - exists p. exact (bind_Raised _ _ _ _ _ Hr).
Qed.

Lemma create_document_runs cfg today calc_due company data db :
  runs cfg company db (create_document today calc_due company data db).
Proof.
  unfold create_document. rewrite bind_customer_find, bind_raise_if.
  match goal with |- context [if ?b then _ else _] => destruct b end;
    [raised|].
  rewrite bind_company_is_kleinunternehmer.
  match goal with
  | |- context [bind (_resolve_line_items ?c ?i ?kl) ?k ?d] =>
      destruct (bind__resolve_line_items c i kl k d)
        as [(r & _ & ->)|(p & ->)]; [|raised]
  end.
  cbv zeta. rewrite bind_issue, bind_find_created.
  apply runs_return, writes_one, write_issue.
  unfold issued_new. do 9 eexists. reflexivity.
Qed.

Lemma create_credit_note_runs cfg today company i db :
  runs cfg company db (create_credit_note today company i db).
Proof.
  unfold create_credit_note. rewrite bind_get_document.
  destruct (find_doc i (documents db)) as [d|] eqn:Hf; [|raised].
  destruct (String.eqb (owner d) company) eqn:Ho; [|raised].
  rewrite bind_raise_if.
  destruct (negb (is_invoice_type (document_type d))); [raised|].
  rewrite bind_raise_if.
  destruct (DocumentStatus_eqb (status d) CANCELLED); [raised|].
  rewrite bind_issue, bind_find_created.
  apply runs_return, writes_one, write_issue.
  unfold issued_new. do 9 eexists. reflexivity.
Qed.

Lemma create_partial_invoice_runs cfg today calc_due company i data db :
  runs cfg company db
    (create_partial_invoice today calc_due company i data db).
Proof.
  unfold create_partial_invoice. rewrite bind_get_document.
  destruct (find_doc i (documents db)) as [d|] eqn:Hf; [|raised].
  destruct (String.eqb (owner d) company) eqn:Ho; [|raised].
  rewrite bind_raise_if.
  destruct (negb (DocumentType_eqb (document_type d) INVOICE));
    [raised|].
  rewrite bind_raise_if.
  destruct (DocumentStatus_eqb (status d) CANCELLED); [raised|].
  rewrite bind_find_related. cbv zeta. rewrite bind_raise_if.
  match goal with |- context [if ?b then _ else _] => destruct b end;
    [raised|].
  rewrite bind_company_is_kleinunternehmer.
  assert (Hissue :
    forall (items : list LineItem) k,
      runs cfg company db
        (bind
           (_generate_document_number company PARTIAL_INVOICE)
           (fun partial_number =>
              bind now_utc
                (fun now =>
                   bind
                     (DocumentRepository.insert_one
                        (new_document now company (customer_id d)
                           PARTIAL_INVOICE partial_number items k
                           (str_or (Some (CreatePartialRequest.notes data))
                              ("Abschlagsrechnung zu " ++ document_number d))
                           (CreatePartialRequest.payment_terms_days data)
                           today ""
                           (calc_due today
                              (CreatePartialRequest.payment_terms_days data))
                           "" i))
                     (fun partial_id =>
                        bind (DocumentRepository.find_by_id partial_id)
                          _serialize_dates))) db)).
  { intros items k. rewrite bind_issue, bind_find_created.
    apply runs_return, writes_one, write_issue.
    unfold issued_new. do 9 eexists. reflexivity. }
  destruct (CreatePartialRequest.items data) as [[|it rest]|].
  - rewrite bind_ret. apply Hissue.
  - match goal with
    | |- context [bind (_resolve_line_items ?c ?its ?kl) ?k ?d] =>
        destruct (bind__resolve_line_items c its kl k d)
          as [(r & _ & ->)|(p & ->)]; [|raised]
    end.
    apply Hissue.
  - rewrite bind_ret. apply Hissue.
Qed.

Lemma writes_change cfg company db db1 i d d' :
  writes cfg company db db1 ->
  find_doc i (documents db1) = Some d ->
  owner d = company ->
  change cfg d d' ->
  writes cfg company db (replace i d' db1).
Proof.
  intros H Hf Ho Hc.
  exact (writes_more _ _ _ _ _ H (write_change _ _ _ _ _ _ Hf Ho Hc)).
Qed.

Lemma DocumentStatus_eqb_neq a b : DocumentStatus_eqb a b = false -> a <> b.
Proof.
  intros H E. subst b. now rewrite DocumentStatus_eqb_refl in H.
Qed.

Lemma cancel_document_runs cfg today company i db :
  runs cfg company db (cancel_document today company i db).
Proof.
  unfold cancel_document. rewrite bind_get_document.
  destruct (find_doc i (documents db)) as [d|] eqn:Hf; [|raised].
  destruct (String.eqb (owner d) company) eqn:Ho; [|raised].
  apply String.eqb_eq in Ho.
  rewrite bind_raise_if.
  destruct (is_invoice_type (document_type d)) eqn:Ht;
    [simpl negb; cbv iota|raised].
  rewrite bind_raise_if.
  destruct (DocumentStatus_eqb (status d) CANCELLED) eqn:Hs;
    [raised|].
  apply DocumentStatus_eqb_neq in Hs.
  rewrite bind_update_one, (update_is_replace _ _ _ _ Hf).
  rewrite bind_issue, bind_find_created.
  apply runs_return.
  eapply writes_more; [|apply write_issue].
  - apply writes_one.
    exact (write_change _ _ _ _ _ _ Hf Ho (change_cancel _ _ _ Ht Hs)).
  - unfold issued_new. do 9 eexists. reflexivity.
Qed.

Lemma find_doc_issue i company t d' db d :
  find_doc i (documents db) = Some d ->
  find_doc i (documents (issue company t d' db)) = Some d.
Proof.
  intros H. unfold issue. cbn [documents with_next_oid with_documents].
  now rewrite find_doc_app, H.
Qed.

Lemma find_doc_update_const i j d' ds :
  id d' = i ->
  find_doc j (update_doc i (fun _ => d') ds)
  = match find_doc j ds with
    | Some x => if String.eqb (id x) i then Some d' else Some x
    | None => None
    end.
Proof.
  intros Hid. induction ds as [|x r IH]; [reflexivity|].
  cbn [update_doc find_doc].
  destruct (String.eqb (id x) i) eqn:Ei.
  - cbn [find_doc]. rewrite Hid.
    apply String.eqb_eq in Ei. rewrite Ei.
    destruct (String.eqb i j) eqn:Ej.
    + now rewrite Ei, String.eqb_refl.
    + destruct (find_doc j r) as [y|] eqn:F; [|reflexivity].
      rewrite (find_doc_id _ _ _ F), String.eqb_sym, Ej. reflexivity.
  - cbn [find_doc]. destruct (String.eqb (id x) j) eqn:Ej; [|exact IH].
    now rewrite Ei.
Qed.

Lemma find_doc_replace i j d d' db :
  find_doc i (documents db) = Some d -> id d' = id d ->
  find_doc j (documents (replace i d' db))
  = match find_doc j (documents db) with
    | Some x => if String.eqb (id x) i then Some d' else Some x
    | None => None
    end.
Proof.
  intros Hf Hid. unfold replace. cbn [documents with_documents].
  apply find_doc_update_const. rewrite Hid. exact (find_doc_id _ _ _ Hf).
Qed.

Lemma find_doc_replace_same i d d' db :
  find_doc i (documents db) = Some d -> id d' = id d ->
  find_doc i (documents (replace i d' db)) = Some d'.
Proof.
  intros Hf Hid. rewrite (find_doc_replace _ _ _ _ _ Hf Hid), Hf.
  now rewrite (find_doc_id _ _ _ Hf), String.eqb_refl.
Qed.

Lemma find_created_issue company t d db :
  exists x,
    find_doc (oid (next_oid db)) (documents (issue company t d db)) = Some x.
Proof.
  unfold issue. cbn [documents with_next_oid with_documents].
  rewrite find_doc_app. cbn [id set_id]. rewrite String.eqb_refl.
  destruct (find_doc (oid (next_oid db)) (documents db)); eauto.
Qed.

Lemma convert_quote_to_invoice_runs cfg today calc_due company i data db :
  runs cfg company db
    (convert_quote_to_invoice today calc_due company i data db).
Proof.
  unfold convert_quote_to_invoice. rewrite bind_get_document.
  destruct (find_doc i (documents db)) as [d|] eqn:Hf; [|raised].
  destruct (String.eqb (owner d) company) eqn:Ho; [|raised].
  apply String.eqb_eq in Ho.
  rewrite bind_raise_if.
  destruct (DocumentType_eqb (document_type d) QUOTE) eqn:Ht;
    [simpl negb; cbv iota|raised].
  apply DocumentType_eqb_eq in Ht.
  rewrite bind_raise_if.
  destruct (DocumentStatus_eqb (status d) ACCEPTED) eqn:Hs;
    [simpl negb; cbv iota|raised].
  apply DocumentStatus_eqb_eq in Hs.
  cbv zeta. rewrite bind_issue.
  match goal with
  | |- context [issue company INVOICE ?new db] => set (inv := new)
  end.
  pose proof (find_doc_issue i company INVOICE inv db d Hf) as Hf1.
  rewrite bind_update_one, (update_is_replace _ _ _ _ Hf1).
  match goal with
  | |- context [replace i ?q (issue company INVOICE inv db)] => set (q' := q)
  end.
  unfold bind, DocumentRepository.find_by_id.
  rewrite (find_doc_replace i (oid (next_oid db)) d q' _ Hf1 eq_refl).
  assert (Hw : writes cfg company db
                 (replace i q' (issue company INVOICE inv db))).
  { eapply writes_change; [apply writes_one, write_issue| exact Hf1
                          | exact Ho | exact (change_convert _ _ _ Ht Hs)].
    unfold issued_new, inv. do 9 eexists. reflexivity. }
  destruct (find_created_issue company INVOICE inv db) as [x Hx].
  rewrite Hx.
  destruct (String.eqb (id x) i); apply runs_return; exact Hw.
Qed.

Lemma _create_order_confirmation_from_quote_issue today calc_due company
    quote_id quote db :
  _create_order_confirmation_from_quote today calc_due company quote_id
    quote db
  = (Return tt,
     issue company ORDER_CONFIRMATION
       (order_confirmation_of today calc_due company quote_id quote (clock db)
          (number_of ORDER_CONFIRMATION
             (S (sequence company ORDER_CONFIRMATION db))))
       db).
Proof.
  rewrite _create_order_confirmation_from_quote_run. cbv zeta.
  destruct (sequence_after_generate company ORDER_CONFIRMATION db) as [_ H].
  change (counter_type_of ORDER_CONFIRMATION)
    with "document_order_confirmation" in H.
  unfold issue, number_of.
  change (counter_type_of ORDER_CONFIRMATION)
    with "document_order_confirmation".
  rewrite H. reflexivity.
Qed.

Lemma issued_new_order_confirmation today calc_due company quote_id quote
    now number :
  issued_new now company ORDER_CONFIRMATION number
    (order_confirmation_of today calc_due company quote_id quote now number).
Proof. unfold issued_new, order_confirmation_of. do 9 eexists. reflexivity. Qed.

Lemma update_status_runs cfg today calc_due company i target db :
  runs cfg company db (update_status today calc_due company i target db).
Proof.
  unfold update_status. rewrite bind_get_document.
  destruct (find_doc i (documents db)) as [d|] eqn:Hf; [|raised].
  destruct (String.eqb (owner d) company) eqn:Ho; [|raised].
  apply String.eqb_eq in Ho.
  unfold _validate_status_transition. cbv zeta. rewrite bind_raise_if.
  rewrite allowed_spec_edge.
  destruct (spec_edge (document_type d) (status d) target) eqn:He;
    [simpl negb; cbv iota|raised].
  rewrite bind_update_one, (update_is_replace _ _ _ _ Hf), Hf.
  cbn [option_map].
  set (d' := set_updated_at (clock db) (set_status target d)).
  assert (Hw : writes cfg company db (replace i d' db)).
  { apply writes_one.
    exact (write_change _ _ _ _ _ _ Hf Ho (change_status _ _ _ _ He)). }
  destruct (DocumentType_eqb (document_type d) QUOTE
            && DocumentStatus_eqb target ACCEPTED).
  - unfold dot_get. rewrite bind_assoc, bind_ret.
    rewrite (bind_Return _ _ _ _ _
               (_create_order_confirmation_from_quote_issue _ _ _ _ _ _)).
    apply runs_return.
    eapply writes_more; [exact Hw|apply write_issue].
    apply issued_new_order_confirmation.
  - rewrite bind_ret. apply runs_return. exact Hw.
Qed.

Lemma edit_of_refl d : edit_of d d.
Proof. unfold edit_of. repeat split; reflexivity. Qed.

Lemma edit_of_trans d1 d2 d3 : edit_of d1 d2 -> edit_of d2 d3 -> edit_of d1 d3.
Proof.
  unfold edit_of. intros H1 H2.
  destruct H1 as (A1 & A2 & A3 & A4 & A5 & A6 & A7 & A8 & A9 & A10 & A11).
  destruct H2 as (B1 & B2 & B3 & B4 & B5 & B6 & B7 & B8 & B9 & B10 & B11).
  repeat split; congruence.
Qed.

Lemma edit_of_fold (fs : list (Document -> Document)) :
  Forall (fun f => forall d, edit_of d (f d)) fs ->
  forall d, edit_of d (fold_left (fun d' set => set d') fs d).
Proof.
  induction 1 as [|f fs Hf _ IH]; intros d; simpl.
  - apply edit_of_refl.
  - exact (edit_of_trans _ _ _ (Hf d) (IH (f d))).
Qed.

Lemma edit_of_stamp now d : edit_of d (set_updated_at now d).
Proof. unfold edit_of. repeat split; reflexivity. Qed.

Lemma edit_of_field {A} (v : option A) (set : A -> Document -> Document) :
  (forall a d, edit_of d (set a d)) ->
  Forall (fun f => forall d, edit_of d (f d))
    match v with Some a => [set a] | None => [] end.
Proof. intros H. destruct v; constructor; auto. Qed.

Lemma update_document_runs cfg company i data db :
  runs cfg company db (update_document company i data db).
Proof.
  unfold update_document. rewrite bind_get_document.
  destruct (find_doc i (documents db)) as [d|] eqn:Hf; [|raised].
  destruct (String.eqb (owner d) company) eqn:Ho; [|raised].
  apply String.eqb_eq in Ho.
  rewrite bind_raise_if.
  destruct (DocumentStatus_eqb (status d) DRAFT) eqn:Hs;
    [simpl negb; cbv iota|raised].
  apply DocumentStatus_eqb_eq in Hs.
  assert (Hrest :
    forall items_fields,
      Forall (fun f => forall x, edit_of x (f x)) items_fields ->
      runs cfg company db
        ((let field {A} (v : option A) (set : A -> Document -> Document) :=
            match v with Some a => [set a] | None => [] end in
          let update_fields :=
            (items_fields
             ++ field (DocumentUpdate.customer_id data) set_customer_id
             ++ field (DocumentUpdate.notes data) set_notes
             ++ field (DocumentUpdate.payment_terms_days data)
                  set_payment_terms_days
             ++ field (DocumentUpdate.issue_date data) set_issue_date
             ++ field (DocumentUpdate.service_date data) set_service_date
             ++ field (DocumentUpdate.due_date data) set_due_date)%list in
          raise_if match update_fields with [] => true | _ => false end
            (HTTPException HTTP_400_BAD_REQUEST No_fields_to_update) ;;;
          updated <-
            DocumentRepository.update_one i
              (fun d => fold_left (fun d' set => set d') update_fields d) ;;
          _serialize_dates updated) db)).
  { intros items_fields Hitems. cbv zeta. rewrite bind_raise_if.
    match goal with |- context [if ?b then _ else _] => destruct b end;
      [raised|].
    rewrite bind_update_one, (update_is_replace _ _ _ _ Hf), Hf.
    cbn [option_map]. apply runs_return, writes_one.
    apply (write_change _ _ _ _ _ _ Hf Ho).
    apply change_edit; [exact Hs|].
    eapply edit_of_trans; [|apply edit_of_stamp].
    apply edit_of_fold.
    repeat (apply Forall_app; split);
      try (apply edit_of_field; intros a x; unfold edit_of;
           repeat split; reflexivity).
    exact Hitems. }
  destruct (DocumentUpdate.items data) as [items_data|].
  - rewrite bind_assoc, bind_company_is_kleinunternehmer.
    rewrite bind_assoc.
    match goal with
    | |- context [bind (_resolve_line_items ?c ?its ?kl) ?k ?db0] =>
        destruct (bind__resolve_line_items c its kl k db0)
          as [(r & _ & ->)|(p & ->)]; [|raised]
    end.
    cbv zeta. rewrite bind_ret. apply Hrest.
    repeat constructor; intros x; unfold edit_of; repeat split; reflexivity.
  - rewrite bind_ret. apply Hrest. constructor.
Qed.

Lemma add_reminder_runs cfg today company i data db :
  runs cfg company db (add_reminder cfg today company i data db).
Proof.
  unfold add_reminder. rewrite bind_get_document.
  destruct (find_doc i (documents db)) as [d|] eqn:Hf; [|raised].
  destruct (String.eqb (owner d) company) eqn:Ho; [|raised].
  apply String.eqb_eq in Ho.
  rewrite bind_raise_if.
  destruct (is_invoice_type (document_type d)) eqn:Ht;
    [simpl negb; cbv iota|raised].
  rewrite bind_raise_if.
  assert (Hallowed :
    match status d with
    | SENT | OVERDUE | PARTIALLY_PAID => false
    | _ => true
    end = false -> reminder_allowed (status d)).
  { unfold reminder_allowed. destruct (status d); intros H;
      try discriminate H; auto. }
  destruct (match status d with
            | SENT | OVERDUE | PARTIALLY_PAID => false
            | _ => true
            end) eqn:Hs; [raised|].
  specialize (Hallowed eq_refl).
  cbv zeta. rewrite bind_raise_if.
  destruct (MAX_REMINDER_LEVEL cfg <? List.length (reminders d) + 1)%nat
    eqn:Hl; [raised|].
  apply Nat.ltb_ge in Hl.
  rewrite bind_repo_add_reminder, (update_is_replace _ _ _ _ Hf), Hf.
  cbn [option_map]. unfold subscript at 1. rewrite bind_ret.
  match goal with
  | |- context [replace i ?x db] => set (u := x)
  end.
  assert (Hw : writes cfg company db (replace i u db)).
  { apply writes_one, (write_change _ _ _ _ _ _ Hf Ho).
    apply change_remind; [exact Ht|exact Hallowed|reflexivity|exact Hl]. }
  pose proof (find_doc_replace_same i d u db Hf eq_refl) as Hf1.
  change (status u) with (status d).
  destruct Hallowed as [Hst|[Hst|Hst]]; rewrite Hst.
  - rewrite bind_update_one, (update_is_replace _ _ _ _ Hf1), Hf1.
    cbn [option_map]. apply runs_return.
    eapply writes_change; [exact Hw|exact Hf1|exact Ho|].
    apply change_status. change (document_type u) with (document_type d).
    change (status u) with (status d). rewrite Hst.
    destruct (document_type d); try discriminate Ht; reflexivity.
  - rewrite bind_ret. apply runs_return. exact Hw.
  - rewrite bind_ret. apply runs_return. exact Hw.
Qed.

Lemma status_after_payment_cases paid g current :
  status_after_payment paid g current = current
  \/ settled (status_after_payment paid g current).
Proof.
  unfold status_after_payment, settled.
  destruct (abs (paid - abs g) <? 0.01); [auto|].
  destruct (0 <? paid); auto.
Qed.

(** The cascade of [add_payment] never raises: it returns after its
    writes on the parent invoice, or after none. *)
Lemma try_sync_parent_runs cfg company parent_id u payment_date m db :
  exists db',
    try_except_HTTPException
      (sync_parent company parent_id u payment_date m) db
    = (Return tt, db')
    /\ writes cfg company db db'.
Proof.
  unfold try_except_HTTPException, sync_parent.
  rewrite bind_get_document.
  destruct (find_doc parent_id (documents db)) as [p|] eqn:Hf.
  2:{ exists db. split; [reflexivity|constructor]. }
  destruct (String.eqb (owner p) company) eqn:Ho.
  2:{ exists db. split; [reflexivity|constructor]. }
  apply String.eqb_eq in Ho.
  destruct (DocumentType_eqb (document_type p) INVOICE) eqn:Ht.
  2:{ exists db. split; [reflexivity|constructor]. }
  apply DocumentType_eqb_eq in Ht.
  cbv zeta.
  rewrite bind_repo_add_payment, (update_is_replace _ _ _ _ Hf), Hf.
  cbn [option_map]. unfold subscript. rewrite bind_ret.
  match goal with
  | |- context [replace parent_id ?x db] => set (pu := x)
  end.
  assert (Hp : payable p) by (left; exact Ht).
  assert (Hw : writes cfg company db (replace parent_id pu db)).
  { apply writes_one, (write_change _ _ _ _ _ _ Hf Ho).
    apply change_pay. exact Hp. }
  pose proof (find_doc_replace_same parent_id p pu db Hf eq_refl) as Hf1.
  assert (Hpu : payable pu) by (left; exact Ht).
  destruct (abs (paid_amount (totals pu) - abs (gross (totals pu))) <? 0.01).
  - rewrite bind_update_one, (update_is_replace _ _ _ _ Hf1).
    eexists. split; [reflexivity|].
    eapply writes_change; [exact Hw|exact Hf1|exact Ho|].
    apply change_settle; [exact Hpu|left; reflexivity].
  - destruct (0 <? paid_amount (totals pu)).
    + rewrite bind_update_one, (update_is_replace _ _ _ _ Hf1).
      eexists. split; [reflexivity|].
      eapply writes_change; [exact Hw|exact Hf1|exact Ho|].
      apply change_settle; [exact Hpu|right; reflexivity].
    + eexists. split; [reflexivity|]. exact Hw.
Qed.

Lemma add_payment_runs cfg today company i data db :
  runs cfg company db (add_payment today company i data db).
Proof.
  unfold add_payment. rewrite bind_get_document.
  destruct (find_doc i (documents db)) as [d|] eqn:Hf; [|raised].
  destruct (String.eqb (owner d) company) eqn:Ho; [|raised].
  apply String.eqb_eq in Ho.
  rewrite bind_raise_if.
  destruct (is_invoice_type (document_type d)) eqn:Ht;
    [simpl negb; cbv iota|raised].
  rewrite bind_raise_if.
  fold (payment_refused (status d)).
  destruct (payment_refused (status d)) eqn:Hs; [raised|].
  cbv zeta. rewrite bind_raise_if.
  match goal with |- context [if ?b then _ else _] => destruct b end;
    [raised|].
  assert (Hp : payable d).
  { unfold payable. destruct (document_type d); try discriminate Ht; auto. }
  rewrite bind_repo_add_payment, (update_is_replace _ _ _ _ Hf), Hf.
  cbn [option_map]. unfold subscript at 1. rewrite bind_ret.
  match goal with
  | |- context [replace i ?x db] => set (u := x)
  end.
  assert (Hw : writes cfg company db (replace i u db)).
  { apply writes_one, (write_change _ _ _ _ _ _ Hf Ho).
    apply change_pay. exact Hp. }
  pose proof (find_doc_replace_same i d u db Hf eq_refl) as Hf1.
  assert (Hpu : payable u) by exact Hp.
  set (new_status :=
         status_after_payment (paid_amount (totals u)) (gross (totals u))
           (status u)).
  assert (Hcascade :
    forall (v : Document) db1,
      writes cfg company db db1 ->
      runs cfg company db
        (bind
           (when (DocumentType_eqb (document_type v) PARTIAL_INVOICE
                  && DocumentStatus_eqb new_status PAID
                  && negb (String.eqb (related_document_id v) ""))
              (try_except_HTTPException
                 (sync_parent company (related_document_id v) v
                    (str_or (PaymentCreate.date data) today)
                    (PaymentCreate.method data))))
           (fun _ => _serialize_dates (Some v)) db1)).
  { intros v db1 Hw1. unfold when.
    destruct (DocumentType_eqb (document_type v) PARTIAL_INVOICE
              && DocumentStatus_eqb new_status PAID
              && negb (String.eqb (related_document_id v) "")).
    - destruct (try_sync_parent_runs cfg company (related_document_id v) v
                  (str_or (PaymentCreate.date data) today)
                  (PaymentCreate.method data) db1) as (db2 & Hrun & Hw2).
      rewrite (bind_Return _ _ _ _ _ Hrun).
      apply runs_return. exact (writes_trans _ _ _ _ _ Hw1 Hw2).
    - rewrite bind_ret. apply runs_return. exact Hw1. }
  destruct (negb (DocumentStatus_eqb new_status (status u))) eqn:Hne.
  - rewrite bind_update_one, (update_is_replace _ _ _ _ Hf1), Hf1.
    cbn [option_map]. unfold subscript. rewrite bind_ret.
    apply Hcascade.
    eapply writes_change; [exact Hw|exact Hf1|exact Ho|].
    apply change_settle; [exact Hpu|].
    destruct (status_after_payment_cases (paid_amount (totals u))
                (gross (totals u)) (status u)) as [He|He]; [|exact He].
    fold new_status in He. rewrite He, DocumentStatus_eqb_refl in Hne.
    discriminate Hne.
  - rewrite bind_ret. unfold subscript. rewrite bind_ret.
    apply Hcascade. exact Hw.
Qed.

(** Every call of the service either returns, after writes made for the
    company of the caller, or raises an [HTTPException] and has written
    nothing. *)
Lemma call_runs cfg calc_due c db :
  runs cfg (caller c) db (call cfg calc_due c db).
Proof.
  destruct c; cbn [call caller].
  - apply create_document_runs.
  - apply update_document_runs.
  - apply update_status_runs.
  - apply convert_quote_to_invoice_runs.
  - apply add_payment_runs.
  - apply add_reminder_runs.
  - apply cancel_document_runs.
  - apply create_credit_note_runs.
  - apply create_partial_invoice_runs.
Qed.

(** ** The history of a stored document *)

Lemma same_identity_refl d : same_identity d d.
Proof. unfold same_identity. repeat split; reflexivity. Qed.

Lemma same_identity_trans a b c :
  same_identity a b -> same_identity b c -> same_identity a c.
Proof.
  unfold same_identity.
  intros (A1 & A2 & A3 & A4 & A5 & A6 & A7 & A8)
         (B1 & B2 & B3 & B4 & B5 & B6 & B7 & B8).
  repeat split; congruence.
Qed.

Lemma same_content_refl d : same_content d d.
Proof. unfold same_content. repeat split; reflexivity. Qed.

Lemma same_content_trans a b c :
  same_content a b -> same_content b c -> same_content a c.
Proof.
  unfold same_content.
  intros (A1 & A2 & A3 & A4 & A5 & A6 & A7 & A8 & A9 & A10)
         (B1 & B2 & B3 & B4 & B5 & B6 & B7 & B8 & B9 & B10).
  repeat split; congruence.
Qed.

Lemma evolves_refl cfg d : evolves cfg d d.
Proof.
  constructor.
  - apply same_identity_refl.
  - exists [], []. rewrite !app_nil_r. repeat split; reflexivity.
  - intros H. split; [exact H|apply same_content_refl].
  - reflexivity.
  - auto.
Qed.

Lemma evolves_trans cfg a b c :
  evolves cfg a b -> evolves cfg b c -> evolves cfg a c.
Proof.
  intros [I1 L1 S1 F1 R1] [I2 L2 S2 F2 R2]. constructor.
  - exact (same_identity_trans _ _ _ I1 I2).
  - destruct L1 as (ps1 & rs1 & P1 & Q1 & A1).
    destruct L2 as (ps2 & rs2 & P2 & Q2 & A2).
    exists (ps1 ++ ps2)%list, (rs1 ++ rs2)%list.
    split; [rewrite P2, P1; now rewrite app_assoc|].
    split; [rewrite Q2, Q1; now rewrite app_assoc|].
    intros Ha. destruct (S1 Ha) as [Hb _].
    destruct (A1 Ha) as [A1p A1r]. destruct (A2 Hb) as [A2p A2r].
    rewrite map_app, !fold_left_app. rewrite A2p, A2r, A1p, A1r.
    split; reflexivity.
  - intros Ha. destruct (S1 Ha) as [Hb C1]. destruct (S2 Hb) as [Hc C2].
    split; [exact Hc|exact (same_content_trans _ _ _ C1 C2)].
  - intros Ha. pose proof (F1 Ha) as E. subst b. exact (F2 Ha).
  - auto.
Qed.

Lemma spec_edge_not_DRAFT t s : spec_edge t s DRAFT = false.
Proof. destruct t, s; reflexivity. Qed.

Lemma spec_edge_not_frozen d target :
  spec_edge (document_type d) (status d) target = true -> frozen d = false.
Proof.
  unfold frozen. rewrite <- allowed_spec_edge.
  destruct (document_type d), (status d); simpl; intros H;
    try reflexivity; try discriminate H.
Qed.

Lemma draft_not_frozen d : status d = DRAFT -> frozen d = false.
Proof.
  unfold frozen. intros ->. destruct (document_type d); reflexivity.
Qed.

Lemma payable_not_frozen d : payable d -> frozen d = false.
Proof.
  unfold payable, frozen. intros [-> |[-> H]]; [reflexivity|].
  destruct (status d); try reflexivity; discriminate H.
Qed.

Lemma invoice_type_not_frozen d :
  is_invoice_type (document_type d) = true -> status d <> CANCELLED ->
  frozen d = false.
Proof.
  unfold frozen. intros Ht Hs.
  destruct (document_type d); try discriminate Ht; [reflexivity|].
  destruct (status d); try reflexivity. contradiction.
Qed.

Lemma reminder_allowed_not_CANCELLED s : reminder_allowed s -> s <> CANCELLED.
Proof. intros [-> |[-> | ->]]; discriminate. Qed.

(** A status update of a stored document. *)
Lemma evolves_set_status cfg d now s :
  s <> DRAFT -> frozen d = false ->
  evolves cfg d (set_updated_at now (set_status s d)).
Proof.
  intros Hs Hf. constructor.
  - unfold same_identity; repeat split; reflexivity.
  - exists [], []. rewrite !app_nil_r. repeat split; reflexivity.
  - intros _. split; [exact Hs|unfold same_content; repeat split; reflexivity].
  - intros H. rewrite Hf in H. discriminate H.
  - auto.
Qed.

Lemma change_evolves cfg d d' : change cfg d d' -> evolves cfg d d'.
Proof.
  intros [now s He|d1 Hs He|now Ht Hs|now Ht Hs|now p Hp|now s Hp Hs
         |now r Ht Ha Hl Hm].
  - apply evolves_set_status.
    + intros ->. rewrite spec_edge_not_DRAFT in He. discriminate He.
    + exact (spec_edge_not_frozen _ _ He).
  - destruct He as (E1 & E2 & E3 & E4 & E5 & E6 & E7 & E8 & E9 & E10 & E11).
    constructor.
    + unfold same_identity. repeat split; assumption.
    + exists [], []. rewrite !app_nil_r.
      split; [exact E6|]. split; [exact E7|]. intros H. contradiction.
    + intros H. contradiction.
    + intros H. rewrite (draft_not_frozen _ Hs) in H. discriminate H.
    + unfold reminders_ok. now rewrite E7.
  - apply evolves_set_status; [discriminate|].
    unfold frozen. now rewrite Ht, Hs.
  - apply evolves_set_status; [discriminate|].
    exact (invoice_type_not_frozen _ Ht Hs).
  - constructor.
    + unfold same_identity; repeat split; reflexivity.
    + exists [p], []. rewrite app_nil_r. repeat split; reflexivity.
    + intros H. split; [exact H|unfold same_content; repeat split; reflexivity].
    + intros H. rewrite (payable_not_frozen _ Hp) in H. discriminate H.
    + auto.
  - apply evolves_set_status; [|exact (payable_not_frozen _ Hp)].
    destruct Hs as [-> | ->]; discriminate.
  - constructor.
    + unfold same_identity; repeat split; reflexivity.
    + exists [], [r]. rewrite app_nil_r. repeat split; reflexivity.
    + intros H. split; [exact H|unfold same_content; repeat split; reflexivity].
    + intros H.
      rewrite (invoice_type_not_frozen _ Ht
                 (reminder_allowed_not_CANCELLED _ Ha)) in H.
      discriminate H.
    + unfold reminders_ok. cbn [reminders set_updated_at set_reminders].
      intros [Hr _]. rewrite map_app, length_app, Hr. cbn [List.length map].
      rewrite Nat.add_1_r, seq_S. rewrite Hl, Nat.add_1_r.
      split; [reflexivity|]. rewrite Hl, Nat.add_1_r in Hm. exact Hm.
Qed.

(** ** Collections that grow *)

Lemma Forall2_refl {A} (R : A -> A -> Prop) l :
  (forall x, R x x) -> Forall2 R l l.
Proof. intros H. induction l; constructor; auto. Qed.

Lemma Forall2_trans {A} (R : A -> A -> Prop) :
  (forall a b c, R a b -> R b c -> R a c) ->
  forall l1 l2 l3, Forall2 R l1 l2 -> Forall2 R l2 l3 -> Forall2 R l1 l3.
Proof.
  intros Ht l1 l2 l3 H12. revert l3.
  induction H12 as [|x y l1 l2 Hxy _ IH]; intros l3 H23;
    inversion H23; subst; constructor; eauto.
Qed.

Lemma update_doc_app i f l1 l2 :
  update_doc i f (l1 ++ l2)
  = match find_doc i l1 with
    | Some _ => (update_doc i f l1 ++ l2)%list
    | None => (l1 ++ update_doc i f l2)%list
    end.
Proof.
  induction l1 as [|x r IH]; [reflexivity|].
  cbn [app update_doc find_doc].
  destruct (String.eqb (id x) i); [reflexivity|].
  rewrite IH. destruct (find_doc i r); reflexivity.
Qed.

Lemma Forall2_update_const (R : Document -> Document -> Prop) i d d' l :
  (forall x, R x x) ->
  find_doc i l = Some d -> R d d' ->
  Forall2 R l (update_doc i (fun _ => d') l).
Proof.
  intros Hr. induction l as [|x r IH]; [discriminate|].
  cbn [find_doc update_doc].
  destruct (String.eqb (id x) i).
  - intros [= ->] H. constructor; [exact H|apply Forall2_refl, Hr].
  - intros Hf H. constructor; [apply Hr|exact (IH Hf H)].
Qed.

Lemma Forall_update_const (N : Document -> Prop) i d d' l :
  find_doc i l = Some d -> (N d -> N d') ->
  Forall N l -> Forall N (update_doc i (fun _ => d') l).
Proof.
  induction l as [|x r IH]; [discriminate|].
  cbn [find_doc update_doc]. intros Hf Hd Hl. inversion Hl; subst.
  destruct (String.eqb (id x) i).
  - injection Hf as ->. constructor; auto.
  - constructor; auto.
Qed.

Lemma find_doc_app_None i l1 l2 :
  find_doc i l1 = None -> find_doc i (l1 ++ l2) = find_doc i l2.
Proof.
  induction l1 as [|x r IH]; [reflexivity|]. cbn [app find_doc].
  destruct (String.eqb (id x) i); [discriminate|exact IH].
Qed.

Lemma find_doc_app_Some i l1 l2 d :
  find_doc i l1 = Some d -> find_doc i (l1 ++ l2) = Some d.
Proof.
  induction l1 as [|x r IH]; [discriminate|]. cbn [app find_doc].
  destruct (String.eqb (id x) i); [auto|exact IH].
Qed.

Lemma find_doc_Forall2 (R : Document -> Document -> Prop) i l l' d' :
  (forall x y, R x y -> id y = id x) ->
  Forall2 R l l' -> find_doc i l' = Some d' ->
  exists d, find_doc i l = Some d /\ R d d'.
Proof.
  intros Hid H. induction H as [|x y l l' Hxy _ IH]; [discriminate|].
  cbn [find_doc]. rewrite (Hid _ _ Hxy).
  destruct (String.eqb (id x) i).
  - intros [= <-]. eauto.
  - exact IH.
Qed.

Lemma find_doc_Forall2_None (R : Document -> Document -> Prop) i l l' :
  (forall x y, R x y -> id y = id x) ->
  Forall2 R l l' -> find_doc i l' = None -> find_doc i l = None.
Proof.
  intros Hid H. induction H as [|x y l l' Hxy _ IH]; [reflexivity|].
  cbn [find_doc]. rewrite (Hid _ _ Hxy).
  destruct (String.eqb (id x) i); [discriminate|exact IH].
Qed.

Lemma grows_refl R N ds : (forall x, R x x) -> grows R N ds ds.
Proof.
  intros Hr. exists ds, []. rewrite app_nil_r.
  split; [reflexivity|]. split; [apply Forall2_refl, Hr|constructor].
Qed.

Lemma Forall2_app_inv_l' {A B} (R : A -> B -> Prop) l1 l2 l' :
  Forall2 R (l1 ++ l2) l' ->
  exists l1' l2', l' = (l1' ++ l2')%list /\ Forall2 R l1 l1'
                  /\ Forall2 R l2 l2'.
Proof.
  revert l'. induction l1 as [|x r IH]; intros l' H.
  - exists [], l'. repeat split; [constructor|exact H].
  - inversion H as [|? y ? l'' Hxy Hr]; subst.
    destruct (IH _ Hr) as (l1' & l2' & -> & H1 & H2).
    exists (y :: l1'), l2'. repeat split; [constructor; assumption|exact H2].
Qed.

Lemma Forall_Forall2 {A} (R : A -> A -> Prop) (N : A -> Prop) l l' :
  (forall x y, N x -> R x y -> N y) ->
  Forall N l -> Forall2 R l l' -> Forall N l'.
Proof.
  intros Hc Hl H. induction H as [|x y l l' Hxy _ IH]; [constructor|].
  inversion Hl; subst. constructor; eauto.
Qed.

Lemma grows_trans R N a b c :
  (forall x y z, R x y -> R y z -> R x z) ->
  (forall x y, N x -> R x y -> N y) ->
  grows R N a b -> grows R N b c -> grows R N a c.
Proof.
  intros Ht Hc (o1 & n1 & -> & H1 & N1) (o2 & n2 & -> & H2 & N2).
  apply Forall2_app_inv_l' in H2 as (o2a & o2b & -> & Ha & Hb).
  exists o2a, (o2b ++ n2)%list. rewrite app_assoc.
  split; [reflexivity|]. split.
  - exact (Forall2_trans R Ht _ _ _ H1 Ha).
  - apply Forall_app. split; [|exact N2].
    exact (Forall_Forall2 R N _ _ Hc N1 Hb).
Qed.

(** One write makes the collection grow, when the relation holds along
    every change of a document of the caller and the new documents are in
    [N]. *)
Lemma write_grows cfg company (R : Document -> Document -> Prop)
    (N : Document -> Prop) db db' :
  (forall x, R x x) ->
  (forall d d', owner d = company -> change cfg d d' -> R d d') ->
  (forall now t number d i,
     issued_new now company t number d -> N (set_id i d)) ->
  write cfg company db db' ->
  grows R N (documents db) (documents db').
Proof.
  intros Hr Hc Hn [i d d' Hf Ho Hch|t d Hd].
  - exists (update_doc i (fun _ => d') (documents db)), [].
    unfold replace. cbn [documents with_documents]. rewrite app_nil_r.
    split; [reflexivity|]. split; [|constructor].
    exact (Forall2_update_const R i d d' _ Hr Hf (Hc _ _ Ho Hch)).
  - exists (documents db), [set_id (oid (next_oid db)) d].
    unfold issue. cbn [documents with_next_oid with_documents].
    split; [reflexivity|]. split; [apply Forall2_refl, Hr|].
    constructor; [|constructor]. exact (Hn _ _ _ _ _ Hd).
Qed.

Lemma writes_grows cfg company (R : Document -> Document -> Prop)
    (N : Document -> Prop) db db' :
  (forall x, R x x) ->
  (forall x y z, R x y -> R y z -> R x z) ->
  (forall x y, N x -> R x y -> N y) ->
  (forall d d', owner d = company -> change cfg d d' -> R d d') ->
  (forall now t number d i,
     issued_new now company t number d -> N (set_id i d)) ->
  writes cfg company db db' ->
  grows R N (documents db) (documents db').
Proof.
  intros Hr Ht Hcl Hc Hn H.
  induction H as [|db1 db2 _ IH Hw]; [apply grows_refl, Hr|].
  exact (grows_trans R N _ _ _ Ht Hcl IH
           (write_grows cfg company R N _ _ Hr Hc Hn Hw)).
Qed.

Lemma call_grows cfg calc_due c (R : Document -> Document -> Prop)
    (N : Document -> Prop) db :
  (forall x, R x x) ->
  (forall x y z, R x y -> R y z -> R x z) ->
  (forall x y, N x -> R x y -> N y) ->
  (forall d d', owner d = caller c -> change cfg d d' -> R d d') ->
  (forall now t number d i,
     issued_new now (caller c) t number d -> N (set_id i d)) ->
  grows R N (documents db) (documents (snd (call cfg calc_due c db))).
Proof.
  intros Hr Ht Hcl Hc Hn.
  destruct (call_runs cfg calc_due c db)
    as [(a & db' & -> & Hw)|(code & detail & -> & _)]; cbn [snd].
  - exact (writes_grows cfg _ R N _ _ Hr Ht Hcl Hc Hn Hw).
  - apply grows_refl, Hr.
Qed.

Lemma newborn_issued now company t number d i :
  issued_new now company t number d -> newborn (set_id i d).
Proof.
  intros (customer & its & klein & notes & days & issue & service & due
          & related & ->).
  unfold newborn. repeat split; reflexivity.
Qed.

Lemma born_evolves cfg x y : born cfg x -> evolves cfg x y -> born cfg y.
Proof.
  intros (d & Hd & H) Hxy. exists d. split; [exact Hd|].
  exact (evolves_trans _ _ _ _ H Hxy).
Qed.

(** Over any series of calls, every stored document evolves and every
    further document was inserted as a new one and has evolved since. *)
Lemma serve_evolves cfg calc_due calls db :
  grows (evolves cfg) (born cfg) (documents db)
    (documents (serve cfg calc_due calls db)).
Proof.
  revert db. induction calls as [|c calls IH]; intros db.
  - apply grows_refl, evolves_refl.
  - cbn [serve fold_left].
    apply (grows_trans _ _ _ (documents (snd (call cfg calc_due c db)))).
    + apply evolves_trans.
    + apply born_evolves.
    + apply call_grows.
      * apply evolves_refl.
      * apply evolves_trans.
      * apply born_evolves.
      * intros d d' _. apply change_evolves.
      * intros now t number d i Hd. exists (set_id i d).
        split; [exact (newborn_issued _ _ _ _ _ _ Hd)|apply evolves_refl].
    + apply IH.
Qed.

(** ** What every call does and never does *)




Lemma grows_impl (R R' : Document -> Document -> Prop)
    (N N' : Document -> Prop) a b :
  (forall x y, R x y -> R' x y) -> (forall x, N x -> N' x) ->
  grows R N a b -> grows R' N' a b.
Proof.
  intros HR HN (olds & news & -> & H & Hn).
  exists olds, news. split; [reflexivity|]. split.
  - revert H. apply Forall2_impl. exact HR.
  - revert Hn. apply Forall_impl. exact HN.
Qed.

(** X12: A call writes only to documents of the company it is made for: every
    document stored before the call is still there, in its place, and is
    exactly as it was unless it belongs to that company, and every
    document the call adds belongs to that company.  No call moves a
    document to another company. *)
Theorem call_writes_only_to_documents_of_the_caller :
  forall cfg calc_due c db,
    grows (untouched_unless_of (caller c)) (fun d => owner d = caller c)
      (documents db) (documents (snd (call cfg calc_due c db))).
Proof.
  intros cfg calc_due c db. apply call_grows.
  - intros x. split; [reflexivity|auto].
  - intros x y z [O1 U1] [O2 U2]. split; [congruence|].
    intros H. rewrite (U2 ltac:(congruence)). exact (U1 H).
  - intros x y Hx [O _]. congruence.
  - intros d d' Ho Hc. split; [|contradiction].
    destruct (change_evolves _ _ _ Hc) as [(_ & H & _) _ _ _ _]. exact H.
  - intros now t number d i
           (customer & its & klein & notes & days & issue & service & due
            & related & ->).
    reflexivity.
Qed.

(** X13: Over any series of calls no stored document is deleted or moved, and
    none changes its identifier, company, type, number, related document,
    creation time, tax flag or PDF path; payments and reminders are only
    ever appended. *)
Theorem stored_documents_keep_their_identity_and_their_records :
  forall cfg calc_due calls db,
    grows
      (fun d d' =>
         same_identity d d'
         /\ (exists ps, payments d' = (payments d ++ ps)%list)
         /\ (exists rs, reminders d' = (reminders d ++ rs)%list))
      (fun _ => True)
      (documents db) (documents (serve cfg calc_due calls db)).
Proof.
  intros cfg calc_due calls db.
  apply (grows_impl (evolves cfg) _ (born cfg) _); [|auto|apply serve_evolves].
  intros x y [I (ps & rs & P & Q & _) _ _ _]. eauto.
Qed.

(** X14: Once a document has left the status DRAFT it never returns to it, and
    its items, its net, VAT and gross totals, its customer, notes,
    payment terms and dates stay as they are over any series of calls:
    only a draft can be edited. *)
Theorem issued_documents_keep_their_content :
  forall cfg calc_due calls db,
    grows
      (fun d d' =>
         status d <> DRAFT -> status d' <> DRAFT /\ same_content d d')
      (fun _ => True)
      (documents db) (documents (serve cfg calc_due calls db)).
Proof.
  intros cfg calc_due calls db.
  apply (grows_impl (evolves cfg) _ (born cfg) _); [|auto|apply serve_evolves].
  intros x y [_ _ S _ _]. exact S.
Qed.

(** X15: A frozen document stays exactly as it is over any series of calls: a
    cancelled partial invoice, and any quote, delivery note, order
    confirmation, credit note or cancellation that has reached a status
    without a transition. *)
Theorem frozen_documents_never_change :
  forall cfg calc_due calls db,
    grows (fun d d' => frozen d = true -> d' = d) (fun _ => True)
      (documents db) (documents (serve cfg calc_due calls db)).
Proof.
  intros cfg calc_due calls db.
  apply (grows_impl (evolves cfg) _ (born cfg) _); [|auto|apply serve_evolves].
  intros x y [_ _ _ F _]. exact F.
Qed.

(** X16: The paid and the remaining amount of an issued document move with
    the payments recorded on it and with nothing else: over any series of
    calls the paid amount grows by the appended payments, added one after
    the other, and the remaining amount falls by them. *)
Theorem paid_and_remaining_follow_the_recorded_payments :
  forall cfg calc_due calls db,
    grows
      (fun d d' =>
         status d <> DRAFT ->
         exists ps,
           payments d' = (payments d ++ ps)%list
           /\ paid_amount (totals d')
              = fold_left PrimFloat.add (map amount ps)
                  (paid_amount (totals d))
           /\ remaining_amount (totals d')
              = fold_left (fun r a => r + - a) (map amount ps)
                  (remaining_amount (totals d)))
      (fun _ => True)
      (documents db) (documents (serve cfg calc_due calls db)).
Proof.
  intros cfg calc_due calls db.
  apply (grows_impl (evolves cfg) _ (born cfg) _); [|auto|apply serve_evolves].
  intros x y [_ (ps & rs & P & _ & L) _ _ _] Hs.
  exists ps. destruct (L Hs). auto.
Qed.

Lemma newborn_reminders_ok cfg d : newborn d -> reminders_ok cfg d.
Proof.
  intros (_ & _ & H & _). unfold reminders_ok. rewrite H.
  split; [reflexivity|apply Nat.le_0_l].
Qed.

(** X17: The reminders of every document stay well numbered: when the stored
    documents have their reminders numbered 1, 2, ... up to at most
    [MAX_REMINDER_LEVEL], so have all documents after any series of
    calls. *)
Theorem reminders_stay_numbered_and_bounded :
  forall cfg calc_due calls db,
    Forall (reminders_ok cfg) (documents db) ->
    Forall (reminders_ok cfg) (documents (serve cfg calc_due calls db)).
Proof.
  intros cfg calc_due calls db H.
  destruct (serve_evolves cfg calc_due calls db)
    as (olds & news & -> & Ho & Hn).
  apply Forall_app. split.
  - clear Hn. induction Ho as [|x y l l' [_ _ _ _ R] _ IH]; [constructor|].
    inversion H; subst. constructor; auto.
  - revert Hn. apply Forall_impl.
    intros y (d & Hd & [_ _ _ _ R]). apply R.
    exact (newborn_reminders_ok cfg d Hd).
Qed.

(** Two reminders on the sent invoice. *)
Lemma reminders_stay_numbered_witness :
  Forall (reminders_ok settings)
    (documents
       (serve settings same_day
          [Add_reminder "2026-02-01" "c1" (oid 0)
             {| ReminderCreate.fee := 5 |};
           Add_reminder "2026-02-15" "c1" (oid 0)
             {| ReminderCreate.fee := 10 |}]
          db_1073_98)).
Proof.
  apply reminders_stay_numbered_and_bounded.
  repeat constructor; vm_compute; lia.
Defined.

(** ** Identifiers and document numbers *)

Lemma map_update_const {K} (key : Document -> K) i d d' l :
  find_doc i l = Some d -> key d' = key d ->
  map key (update_doc i (fun _ => d') l) = map key l.
Proof.
  intros Hf Hk. induction l as [|x r IH]; [reflexivity|].
  cbn [find_doc update_doc] in *.
  destruct (String.eqb (id x) i).
  - injection Hf as ->. cbn [map]. now rewrite Hk.
  - cbn [map]. now rewrite (IH Hf).
Qed.

Lemma NoDup_snoc {A} (x : A) l : NoDup l -> ~ In x l -> NoDup (l ++ [x]).
Proof.
  intros Hl Hx. induction Hl as [|y l Hy _ IH]; simpl.
  - constructor; [intros []|constructor].
  - constructor.
    + rewrite in_app_iff. intros [H|[H|[]]]; [contradiction|].
      subst. apply Hx. now left.
    + apply IH. intros H. apply Hx. now right.
Qed.

Lemma change_same_identity cfg d d' : change cfg d d' -> same_identity d d'.
Proof. intros H. now destruct (change_evolves _ _ _ H). Qed.

Lemma write_ids_ok cfg company db db' :
  write cfg company db db' -> ids_ok db -> ids_ok db'.
Proof.
  intros [i d d' Hf Ho Hc|t d Hd] [Hn Hk].
  - destruct (change_same_identity _ _ _ Hc) as (Hid & _).
    unfold ids_ok, replace.
    cbn [documents next_oid with_documents with_clock].
    split.
    + now rewrite (map_update_const id i d d' _ Hf Hid).
    + apply (Forall_update_const _ i d d' _ Hf); [|exact Hk].
      rewrite Hid. auto.
  - unfold ids_ok, issue.
    cbn [documents next_oid with_documents with_clock with_counters
         with_next_oid].
    split.
    + rewrite map_app. cbn [map id set_id]. apply NoDup_snoc; [exact Hn|].
      intros H. apply in_map_iff in H as (x & Hx & Hin).
      rewrite Forall_forall in Hk. destruct (Hk x Hin) as (k & Hlt & Hxk).
      rewrite Hxk in Hx. apply oid_inj in Hx. lia.
    + apply Forall_app. split.
      * revert Hk. apply Forall_impl. intros x (k & Hlt & Hx).
        exists k. split; [lia|exact Hx].
      * constructor; [|constructor]. exists (next_oid db).
        split; [lia|reflexivity].
Qed.

Lemma writes_preserve cfg company (I : DB -> Prop) db db' :
  (forall a b, write cfg company a b -> I a -> I b) ->
  writes cfg company db db' -> I db -> I db'.
Proof.
  intros Hw H. induction H as [|db1 db2 _ IH W]; [auto|].
  intros Hi. exact (Hw _ _ W (IH Hi)).
Qed.

Lemma serve_preserve cfg calc_due (I : DB -> Prop) :
  (forall company a b, write cfg company a b -> I a -> I b) ->
  forall calls db, I db -> I (serve cfg calc_due calls db).
Proof.
  intros Hw calls. induction calls as [|c calls IH]; intros db Hi; [exact Hi|].
  cbn [serve fold_left]. apply IH.
  destruct (call_runs cfg calc_due c db)
    as [(a & db' & -> & W)|(code & detail & -> & _)]; cbn [snd].
  - exact (writes_preserve cfg _ I _ _ (Hw _) W Hi).
  - exact Hi.
Qed.

Lemma NoDup_find_doc ds d :
  NoDup (map id ds) -> In d ds -> find_doc (id d) ds = Some d.
Proof.
  induction ds as [|x r IH]; [intros _ []|].
  cbn [map find_doc]. intros Hn [->|Hin].
  - now rewrite String.eqb_refl.
  - inversion Hn as [|? ? Hx Hr]; subst.
    destruct (String.eqb (id x) (id d)) eqn:E; [|exact (IH Hr Hin)].
    apply String.eqb_eq in E. exfalso. apply Hx. rewrite E.
    now apply in_map.
Qed.

(** X18: Identifiers stay unique.  When the stored documents have distinct
    identifiers, all issued below [next_oid], the same holds after any
    series of calls, and every stored document is then the one that
    [find_by_id] finds under its identifier. *)
Theorem identifiers_stay_unique :
  forall cfg calc_due calls db,
    ids_ok db ->
    ids_ok (serve cfg calc_due calls db)
    /\ forall d,
         In d (documents (serve cfg calc_due calls db)) ->
         DocumentRepository.find_by_id (id d) (serve cfg calc_due calls db)
         = (Return (Some d), serve cfg calc_due calls db).
Proof.
  intros cfg calc_due calls db H.
  assert (H' : ids_ok (serve cfg calc_due calls db)).
  { apply serve_preserve; [|exact H].
    intros company a b. apply write_ids_ok. }
  split; [exact H'|]. intros d Hin.
  unfold DocumentRepository.find_by_id.
  now rewrite (NoDup_find_doc _ _ (proj1 H') Hin).
Qed.

Lemma ids_ok_db_1073_98 : ids_ok db_1073_98.
Proof.
  split.
  - repeat constructor. intros [].
  - constructor; [|constructor]. exists 0%nat. split; [|reflexivity].
    vm_compute. lia.
Qed.

(** A credit note and a cancellation for the sent invoice. *)
Lemma identifiers_stay_unique_witness :
  let db' :=
    serve settings same_day
      [Create_credit_note "2026-02-01" "c1" (oid 0);
       Cancel_document "2026-02-02" "c1" (oid 0)] db_1073_98 in
  ids_ok db'
  /\ forall d,
       In d (documents db') ->
       DocumentRepository.find_by_id (id d) db' = (Return (Some d), db').
Proof.
  exact (identifiers_stay_unique settings same_day
           [Create_credit_note "2026-02-01" "c1" (oid 0);
            Cancel_document "2026-02-02" "c1" (oid 0)]
           db_1073_98 ids_ok_db_1073_98).
Defined.

Lemma sequence_issue_same company t d db :
  sequence company t (issue company t d db) = S (sequence company t db).
Proof. exact (proj1 (sequence_after_generate company t db)). Qed.

Lemma sequence_issue_le company' t' company t d db :
  (sequence company' t' db <= sequence company' t' (issue company t d db))%nat.
Proof.
  destruct (String.eqb company' company) eqn:Ec.
  - apply String.eqb_eq in Ec. subst company'.
    destruct (DocumentType_eqb t' t) eqn:Et.
    + apply DocumentType_eqb_eq in Et. subst t'.
      rewrite sequence_issue_same. lia.
    + assert (Hne : t' <> t).
      { intros ->. destruct t; discriminate Et. }
      change (sequence company t' (issue company t d db))
        with (sequence company t'
                (with_counters
                   (snd (CounterRepository.upsert_inc company
                           (counter_type_of t) (counters db))) db)).
      rewrite sequence_other; [lia|auto].
  - apply String.eqb_neq in Ec.
    change (sequence company' t' (issue company t d db))
      with (sequence company' t'
              (with_counters
                 (snd (CounterRepository.upsert_inc company
                         (counter_type_of t) (counters db))) db)).
    rewrite sequence_other; [lia|auto].
Qed.

Lemma documents_issue company t d db :
  documents (issue company t d db)
  = (documents db ++ [set_id (oid (next_oid db)) d])%list.
Proof. reflexivity. Qed.

Lemma write_numbers_ok cfg company db db' :
  write cfg company db db' -> numbers_ok db -> numbers_ok db'.
Proof.
  intros [i d d' Hf Ho Hc|t d Hd] [Hn Hk].
  - destruct (change_same_identity _ _ _ Hc) as (_ & Hown & Hty & Hnum & _).
    unfold numbers_ok, replace.
    cbn [documents with_documents with_clock].
    split.
    + rewrite (map_update_const number_key i d d' _ Hf); [exact Hn|].
      unfold number_key. now rewrite Hown, Hnum.
    + apply (Forall_update_const _ i d d' _ Hf); [|exact Hk].
      rewrite Hown, Hty, Hnum. auto.
  - destruct Hd as (customer & its & klein & notes & days & iss & service
                    & due & related & ->).
    unfold numbers_ok. split.
    + rewrite documents_issue.
      rewrite map_app. cbn [map]. apply NoDup_snoc; [exact Hn|].
      intros H. apply in_map_iff in H as (x & Hx & Hin).
      rewrite Forall_forall in Hk. destruct (Hk x Hin) as (n & Hle & Hxn).
      unfold number_key in Hx. cbn in Hx.
      injection Hx as Hxo Hxnum. rewrite Hxn in Hxnum.
      apply number_of_inj in Hxnum as [Hty ->].
      rewrite Hxo, Hty in Hle. lia.
    + rewrite documents_issue.
      apply Forall_app. split.
      * revert Hk. apply Forall_impl. intros x (n & Hle & Hx).
        exists n. split; [|exact Hx].
        eapply Nat.le_trans; [exact Hle|apply sequence_issue_le].
      * constructor; [|constructor].
        exists (S (sequence company t db)). split; [|reflexivity].
        cbn [owner company_id document_type set_id new_document].
        rewrite sequence_issue_same. lia.
Qed.

Lemma NoDup_find_by_key ds d :
  NoDup (map number_key ds) -> In d ds ->
  find (fun x =>
          String.eqb (company_id x) (owner d)
          && String.eqb (document_number x) (document_number d)) ds
  = Some d.
Proof.
  induction ds as [|x r IH]; [intros _ []|].
  cbn [map find]. intros Hn [->|Hin].
  - unfold owner. now rewrite !String.eqb_refl.
  - inversion Hn as [|? ? Hx Hr]; subst.
    destruct (String.eqb (company_id x) (owner d)
              && String.eqb (document_number x) (document_number d)) eqn:E;
      [|exact (IH Hr Hin)].
    apply andb_prop in E as [E1 E2]. apply String.eqb_eq in E1, E2.
    exfalso. apply Hx.
    replace (number_key x) with (number_key d)
      by (unfold number_key, owner in *; congruence).
    now apply in_map.
Qed.

(** X19: Document numbers stay unique within a company, so the unique index
    on company and number is never violated by an insertion.  When the
    numbers of the stored documents are distinct within each company and
    were issued by the counters, the same holds after any series of
    calls, and every stored document is then the one that
    [find_by_number] finds under its company and number. *)
Theorem document_numbers_stay_unique_within_a_company :
  forall cfg calc_due calls db,
    numbers_ok db ->
    numbers_ok (serve cfg calc_due calls db)
    /\ forall d,
         In d (documents (serve cfg calc_due calls db)) ->
         DocumentRepository.find_by_number (owner d) (document_number d)
           (serve cfg calc_due calls db)
         = (Return (Some d), serve cfg calc_due calls db).
Proof.
  intros cfg calc_due calls db H.
  assert (H' : numbers_ok (serve cfg calc_due calls db)).
  { apply serve_preserve; [|exact H].
    intros company a b. apply write_numbers_ok. }
  split; [exact H'|]. intros d Hin.
  unfold DocumentRepository.find_by_number.
  now rewrite (NoDup_find_by_key _ _ (proj1 H') Hin).
Qed.

Lemma numbers_ok_db_1073_98 : numbers_ok db_1073_98.
Proof.
  split.
  - repeat constructor. intros [].
  - constructor; [|constructor]. exists 1%nat. split; [|reflexivity].
    vm_compute. lia.
Qed.

(** A second invoice and a credit note beside the sent invoice. *)
Lemma document_numbers_stay_unique_witness :
  let db' :=
    serve settings same_day
      [Create_document "2026-02-01" "c1"
         (document_request INVOICE [free_text_item "Auftrag" 1 100 0.19 0]);
       Create_credit_note "2026-02-02" "c1" (oid 0)] db_1073_98 in
  numbers_ok db'
  /\ forall d,
       In d (documents db') ->
       DocumentRepository.find_by_number (owner d) (document_number d) db'
       = (Return (Some d), db').
Proof.
  exact (document_numbers_stay_unique_within_a_company settings same_day
           [Create_document "2026-02-01" "c1"
              (document_request INVOICE
                 [free_text_item "Auftrag" 1 100 0.19 0]);
            Create_credit_note "2026-02-02" "c1" (oid 0)]
           db_1073_98 numbers_ok_db_1073_98).
Defined.

(** ** Cancellation, credit note and conversion *)

Lemma ids_ok_fresh db :
  ids_ok db -> find_doc (oid (next_oid db)) (documents db) = None.
Proof.
  intros [_ Hk].
  destruct (find_doc (oid (next_oid db)) (documents db)) as [x|] eqn:Hf;
    [|reflexivity].
  pose proof (find_doc_In _ _ _ Hf) as Hin.
  pose proof (find_doc_id _ _ _ Hf) as Hid.
  rewrite Forall_forall in Hk. destruct (Hk x Hin) as (k & Hlt & Hx).
  rewrite Hx in Hid. apply oid_inj in Hid. lia.
Qed.

Lemma find_created_fresh company t d db :
  find_doc (oid (next_oid db)) (documents db) = None ->
  find_doc (oid (next_oid db)) (documents (issue company t d db))
  = Some (set_id (oid (next_oid db)) d).
Proof.
  intros H. rewrite documents_issue, find_doc_app, H.
  cbn [id set_id]. now rewrite String.eqb_refl.
Qed.

Lemma find_doc_replace_None i j d d' db :
  find_doc i (documents db) = Some d -> id d' = id d ->
  find_doc j (documents db) = None ->
  find_doc j (documents (replace i d' db)) = None.
Proof.
  intros Hf Hid Hj. now rewrite (find_doc_replace _ _ _ _ _ Hf Hid), Hj.
Qed.

Lemma String_eqb_true a b : a = b -> String.eqb a b = true.
Proof. intros ->. apply String.eqb_refl. Qed.

(** The cancellation document [cancel_document] inserts. *)
Lemma cancel_document_run today company i db d :
  ids_ok db ->
  find_doc i (documents db) = Some d ->
  owner d = company ->
  is_invoice_type (document_type d) = true ->
  status d <> CANCELLED ->
  let d1 := set_updated_at (clock db) (set_status CANCELLED d) in
  let c :=
    new_document (S (clock db)) company (customer_id d) CANCELLATION
      (number_of CANCELLATION (S (sequence company CANCELLATION db)))
      (items d) (is_kleinunternehmer d)
      ("Stornierung zu " ++ document_number d)
      14%Z today "" today "" i in
  cancel_document today company i db
  = (Return (set_id (oid (next_oid db)) c),
     issue company CANCELLATION c (replace i d1 db)).
Proof.
  intros Hids Hf Ho Ht Hs d1 c.
  unfold cancel_document. rewrite bind_get_document, Hf.
  rewrite (String_eqb_true _ _ Ho).
  rewrite bind_raise_if, Ht. simpl negb. cbv iota.
  rewrite bind_raise_if.
  destruct (DocumentStatus_eqb (status d) CANCELLED) eqn:E.
  { apply DocumentStatus_eqb_eq in E. contradiction. }
  rewrite bind_update_one, (update_is_replace _ _ _ _ Hf).
  fold d1. rewrite bind_issue, bind_find_created.
  change (next_oid (replace i d1 db)) with (next_oid db).
  rewrite (find_doc_replace_None i _ d d1 db Hf eq_refl (ids_ok_fresh _ Hids)).
  reflexivity.
Qed.



(** The credit note [create_credit_note] inserts. *)
Lemma create_credit_note_run today company i db d :
  ids_ok db ->
  find_doc i (documents db) = Some d ->
  owner d = company ->
  is_invoice_type (document_type d) = true ->
  status d <> CANCELLED ->
  let c :=
    new_document (clock db) company (customer_id d) CREDIT_NOTE
      (number_of CREDIT_NOTE (S (sequence company CREDIT_NOTE db)))
      (items d) (is_kleinunternehmer d)
      ("Gutschrift zu " ++ document_number d)
      14%Z today "" today "" i in
  create_credit_note today company i db
  = (Return (set_id (oid (next_oid db)) c), issue company CREDIT_NOTE c db).
Proof.
  intros Hids Hf Ho Ht Hs c.
  unfold create_credit_note. rewrite bind_get_document, Hf.
  rewrite (String_eqb_true _ _ Ho).
  rewrite bind_raise_if, Ht. simpl negb. cbv iota.
  rewrite bind_raise_if.
  destruct (DocumentStatus_eqb (status d) CANCELLED) eqn:E.
  { apply DocumentStatus_eqb_eq in E. contradiction. }
  rewrite bind_issue, bind_find_created.
  rewrite (ids_ok_fresh _ Hids). reflexivity.
Qed.



(** The invoice [convert_quote_to_invoice] inserts. *)
Lemma convert_quote_to_invoice_run today calc_due company i data db q :
  ids_ok db ->
  find_doc i (documents db) = Some q ->
  owner q = company ->
  document_type q = QUOTE ->
  status q = ACCEPTED ->
  let issue_date := str_or (ConvertQuoteRequest.issue_date data) today in
  let days := ConvertQuoteRequest.payment_terms_days data in
  let inv :=
    new_document (clock db) company (customer_id q) INVOICE
      (number_of INVOICE (S (sequence company INVOICE db)))
      (items q) (is_kleinunternehmer q) (notes q) days issue_date ""
      (str_or (ConvertQuoteRequest.due_date data) (calc_due issue_date days))
      "" i in
  let q' := set_updated_at (S (clock db)) (set_status CONVERTED q) in
  convert_quote_to_invoice today calc_due company i data db
  = (Return (set_id (oid (next_oid db)) inv),
     replace i q' (issue company INVOICE inv db)).
Proof.
  intros Hids Hf Ho Ht Hs issue_date days inv q'.
  unfold convert_quote_to_invoice. rewrite bind_get_document, Hf.
  rewrite (String_eqb_true _ _ Ho).
  rewrite bind_raise_if, Ht. simpl negb. cbv iota.
  rewrite bind_raise_if, Hs. simpl negb. cbv iota.
  cbv zeta. rewrite bind_issue.
  fold issue_date. fold days. fold inv.
  pose proof (find_doc_issue i company INVOICE inv db q Hf) as Hf1.
  rewrite bind_update_one, (update_is_replace _ _ _ _ Hf1).
  change (set_updated_at (clock (issue company INVOICE inv db))
            (set_status CONVERTED q)) with q'.
  unfold bind, DocumentRepository.find_by_id.
  rewrite (find_doc_replace i (oid (next_oid db)) q q' _ Hf1 eq_refl).
  rewrite (find_created_fresh _ _ _ _ (ids_ok_fresh _ Hids)).
  cbn [id set_id].
  destruct (String.eqb (oid (next_oid db)) i) eqn:E; [|reflexivity].
  apply String.eqb_eq in E. subst i.
  rewrite (ids_ok_fresh _ Hids) in Hf. discriminate Hf.
Qed.


Lemma ids_ok_db_accepted_quote : ids_ok db_accepted_quote.
Proof.
  split.
  - repeat constructor. intros [].
  - constructor; [|constructor]. exists 0%nat. split; [|reflexivity].
    vm_compute. lia.
Qed.


(** ** Editing a draft *)

Lemma update_document_rest i data db d
    (items_fields : list (Document -> Document)) :
  find_doc i (documents db) = Some d ->
  (let field {A} (v : option A) (set : A -> Document -> Document) :=
     match v with Some a => [set a] | None => [] end in
   let update_fields :=
     (items_fields
      ++ field (DocumentUpdate.customer_id data) set_customer_id
      ++ field (DocumentUpdate.notes data) set_notes
      ++ field (DocumentUpdate.payment_terms_days data)
           set_payment_terms_days
      ++ field (DocumentUpdate.issue_date data) set_issue_date
      ++ field (DocumentUpdate.service_date data) set_service_date
      ++ field (DocumentUpdate.due_date data) set_due_date)%list in
   raise_if match update_fields with [] => true | _ => false end
     (HTTPException HTTP_400_BAD_REQUEST No_fields_to_update) ;;;
   updated <-
     DocumentRepository.update_one i
       (fun d => fold_left (fun d' set => set d') update_fields d) ;;
   _serialize_dates updated) db
  = let rest :=
      ((match DocumentUpdate.customer_id data with
        | Some a => [set_customer_id a] | None => [] end)
       ++ (match DocumentUpdate.notes data with
           | Some a => [set_notes a] | None => [] end)
       ++ (match DocumentUpdate.payment_terms_days data with
           | Some a => [set_payment_terms_days a] | None => [] end)
       ++ (match DocumentUpdate.issue_date data with
           | Some a => [set_issue_date a] | None => [] end)
       ++ (match DocumentUpdate.service_date data with
           | Some a => [set_service_date a] | None => [] end)
       ++ (match DocumentUpdate.due_date data with
           | Some a => [set_due_date a] | None => [] end))%list in
    match (items_fields ++ rest)%list with
    | [] =>
        (Raised (HTTPException HTTP_400_BAD_REQUEST No_fields_to_update), db)
    | fs =>
        let d' :=
          set_updated_at (clock db) (fold_left (fun d' set => set d') fs d) in
        (Return d', replace i d' db)
    end.
Proof.
  intros Hf. cbv zeta. rewrite bind_raise_if.
  match goal with |- context [(items_fields ++ ?r)%list] => set (rest := r) end.
  destruct (items_fields ++ rest)%list as [|f fs] eqn:E; [reflexivity|].
  rewrite bind_update_one, (update_is_replace _ _ _ _ Hf), Hf.
  reflexivity.
Qed.

(** X23: [update_document] on a stored document of the company.  Only a draft
    is edited: any other document is refused with 400.  A request that
    sets no field is refused with 400, and one whose items name a product
    that is not a product of the company with 404; nothing is written.
    Otherwise the draft is stored and returned with each field of the
    request in place of the stored one: customer, notes, payment terms
    and the three dates as given, whoever the customer belongs to, and,
    when the request has items, the resolved items and the totals
    computed from them under the company's present tax flag, with nothing
    paid.  The document's own tax flag, its status, payments, reminders
    and identity stay as they are, and the due date is not recomputed
    from new payment terms or a new issue date. *)
Theorem update_document_edits_a_draft_and_only_a_draft :
  forall company i data db d,
    find_doc i (documents db) = Some d ->
    owner d = company ->
    (status d <> DRAFT ->
     update_document company i data db
     = (Raised (HTTPException HTTP_400_BAD_REQUEST
                  Only_DRAFT_documents_can_be_edited), db))
    /\ (status d = DRAFT ->
        data = empty_update ->
        update_document company i data db
        = (Raised (HTTPException HTTP_400_BAD_REQUEST No_fields_to_update),
           db))
    /\ (status d = DRAFT ->
        forall its p,
          DocumentUpdate.items data = Some its ->
          _resolve_line_items company its (company_flag company db) db
          = (Raised (HTTPException HTTP_404_NOT_FOUND (Product_not_found p)),
             db) ->
          update_document company i data db
          = (Raised (HTTPException HTTP_404_NOT_FOUND (Product_not_found p)),
             db))
    /\ (status d = DRAFT ->
        data <> empty_update ->
        forall resolved,
          match DocumentUpdate.items data with
          | Some its =>
              _resolve_line_items company its (company_flag company db) db
              = (Return resolved, db)
          | None => resolved = items d
          end ->
          exists d',
            update_document company i data db = (Return d', replace i d' db)
            /\ find_doc i (documents (replace i d' db)) = Some d'
            /\ items d' = resolved
            /\ totals d'
               = match DocumentUpdate.items data with
                 | Some _ =>
                     _calc_totals resolved (company_flag company db)
                       (document_type d)
                 | None => totals d
                 end
            /\ customer_id d'
               = or_stored (DocumentUpdate.customer_id data) (customer_id d)
            /\ notes d' = or_stored (DocumentUpdate.notes data) (notes d)
            /\ payment_terms_days d'
               = or_stored (DocumentUpdate.payment_terms_days data)
                   (payment_terms_days d)
            /\ issue_date d'
               = or_stored (DocumentUpdate.issue_date data) (issue_date d)
            /\ service_date d'
               = or_stored (DocumentUpdate.service_date data)
                   (service_date d)
            /\ due_date d'
               = or_stored (DocumentUpdate.due_date data) (due_date d)
            /\ status d' = DRAFT
            /\ payments d' = payments d
            /\ reminders d' = reminders d
            /\ same_identity d d'
            /\ updated_at d' = clock db).
Proof.
  intros company i data db d Hf Ho.
  assert (Hhead : forall B (k : Document -> M B),
            bind (get_document company i) k db = k d db).
  { intros B k. now rewrite bind_get_document, Hf, (String_eqb_true _ _ Ho). }
  split; [|split; [|split]].
  - intros Hs. unfold update_document. rewrite Hhead, bind_raise_if.
    destruct (DocumentStatus_eqb (status d) DRAFT) eqn:E; [|reflexivity].
    apply DocumentStatus_eqb_eq in E. contradiction.
  - intros Hs ->. unfold update_document.
    rewrite Hhead, bind_raise_if, Hs. reflexivity.
  - intros Hs its p Hi Hr. unfold update_document.
    rewrite Hhead, bind_raise_if, Hs. simpl negb. cbv iota.
    rewrite Hi, bind_assoc, bind_company_is_kleinunternehmer, bind_assoc.
    exact (bind_Raised _ _ _ _ _ Hr).
  - intros Hs Hne resolved Hr. unfold update_document.
    rewrite Hhead, bind_raise_if, Hs. simpl negb. cbv iota.
    destruct (DocumentUpdate.items data) as [its|] eqn:Ei.
    + rewrite bind_assoc, bind_company_is_kleinunternehmer, bind_assoc.
      fold (company_flag company db).
      rewrite (bind_Return _ _ _ _ _ Hr). cbv zeta. rewrite bind_ret.
      pose proof (update_document_rest i data db d
                    [set_items resolved;
                     set_totals (_calc_totals resolved
                                   (company_flag company db)
                                   (document_type d))] Hf) as Hrun.
      cbv beta zeta in Hrun. cbv beta zeta. rewrite Hrun. clear Hrun.
      cbn [app].
      eexists. split; [reflexivity|].
      split; [apply (find_doc_replace_same i d _ db Hf);
              destruct data as [c its' n p isd sd dd];
              destruct c, n, p, isd, sd, dd; reflexivity|].
      destruct data as [c its' n p isd sd dd].
      destruct c, n, p, isd, sd, dd;
        (repeat split; try reflexivity; exact Hs).
    + subst resolved. rewrite bind_ret.
      pose proof (update_document_rest i data db d [] Hf) as Hrun.
      cbv beta zeta in Hrun. cbv beta zeta. rewrite Hrun. clear Hrun.
      cbn [app].
      destruct data as [c its' n p isd sd dd].
      cbn [DocumentUpdate.items] in Ei. subst its'.
      destruct c, n, p, isd, sd, dd;
        try (exfalso; apply Hne; reflexivity);
        (eexists; split; [reflexivity|];
         split; [apply (find_doc_replace_same i d _ db Hf); reflexivity|];
         repeat split; try reflexivity; exact Hs).
Qed.

(** The draft quote gets new items, a customer and payment terms; the due
    date stays. *)
Lemma update_document_witness :
  let data :=
    {| DocumentUpdate.customer_id := Some "k9";
       DocumentUpdate.items := Some [free_text_item "Beratung" 2 100 0.19 0];
       DocumentUpdate.notes := None;
       DocumentUpdate.payment_terms_days := Some 60%Z;
       DocumentUpdate.issue_date := None;
       DocumentUpdate.service_date := None;
       DocumentUpdate.due_date := None |} in
  exists d',
    update_document "c1" (oid 0) data db_draft_quote
    = (Return d', replace (oid 0) d' db_draft_quote)
    /\ gross (totals d') = 238
    /\ customer_id d' = "k9"
    /\ payment_terms_days d' = 60%Z
    /\ due_date d' = "2026-01-31"
    /\ status d' = DRAFT.
Proof.
  intros data.
  destruct (update_document_edits_a_draft_and_only_a_draft
              "c1" (oid 0) data db_draft_quote draft_quote eq_refl eq_refl)
    as (_ & _ & _ & H).
  destruct (H eq_refl ltac:(discriminate)
              [new_line_item "" "Beratung" "" 2 "Stück" 100 0.19 0]
              eq_refl)
    as (d' & Hrun & _ & _ & Htot & Hc & _ & Hp & _ & _ & Hd & Hs & _).
  exists d'.
  split; [exact Hrun|].
  split; [rewrite Htot; vm_compute; reflexivity|].
  split; [rewrite Hc; reflexivity|].
  split; [rewrite Hp; reflexivity|].
  split; [rewrite Hd; reflexivity|exact Hs].
Defined.

(** ** Creating a document *)

Lemma _resolve_line_item_run company item klein db :
  (foreign_product company db item = false ->
   exists line,
     _resolve_line_item company item klein db = (Return line, db)
     /\ resolves klein item line)
  /\ (foreign_product company db item = true ->
      _resolve_line_item company item klein db
      = (Raised (HTTPException HTTP_404_NOT_FOUND
                   (Product_not_found
                      (str_or (LineItemCreate.product_id item) ""))), db)).
Proof.
  unfold foreign_product, _resolve_line_item, bind,
    ProductRepository.find_by_id, ret, raise.
  cbv zeta.
  destruct (String.eqb (str_or (LineItemCreate.product_id item) "") "").
  - split; [|discriminate]. intros _. eexists. split; [reflexivity|].
    unfold resolves. cbn. repeat split. now intros ->.
  - cbn [negb andb].
    destruct (assoc _ (products db)) as [pr|]; [|split; [discriminate|auto]].
    destruct (String.eqb (Product.company_id pr) company);
      cbn [negb]; [|split; [discriminate|auto]].
    split; [|discriminate]. intros _. eexists. split; [reflexivity|].
    unfold resolves. cbn. repeat split. now intros ->.
Qed.

Lemma _resolve_line_items_run :
  forall company items klein db,
    (existsb (foreign_product company db) items = false ->
     exists lines,
       _resolve_line_items company items klein db = (Return lines, db)
       /\ Forall2 (resolves klein) items lines)
    /\ (existsb (foreign_product company db) items = true ->
        exists item,
          find (foreign_product company db) items = Some item
          /\ _resolve_line_items company items klein db
             = (Raised (HTTPException HTTP_404_NOT_FOUND
                          (Product_not_found
                             (str_or (LineItemCreate.product_id item) ""))),
                db)).
Proof.
  intros company items klein db.
  induction items as [|item rest [IHok IHbad]];
    cbn [existsb find _resolve_line_items].
  - split; [|discriminate]. intros _. exists []. split; [reflexivity|].
    constructor.
  - destruct (_resolve_line_item_run company item klein db) as [Hok Hbad].
    destruct (foreign_product company db item) eqn:Ef; cbn [orb].
    + split; [discriminate|]. intros _. exists item.
      split; [reflexivity|]. exact (bind_Raised _ _ _ _ _ (Hbad eq_refl)).
    + destruct (Hok eq_refl) as (line & Hl & Hres).
      rewrite !(bind_Return _ _ _ _ _ Hl).
      split.
      * intros H. destruct (IHok H) as (lines & Hr & Hall).
        rewrite !(bind_Return _ _ _ _ _ Hr).
        exists (line :: lines). split; [reflexivity|].
        constructor; assumption.
      * intros H. destruct (IHbad H) as (bad & Hfind & Hr).
        exists bad. split; [exact Hfind|].
        exact (bind_Raised _ _ _ _ _ Hr).
Qed.




Lemma ids_ok_db_empty : ids_ok db_empty.
Proof. split; constructor. Qed.


(** ** Partial invoices *)

Lemma DocumentStatus_eqb_false a b : a <> b -> DocumentStatus_eqb a b = false.
Proof.
  intros H. destruct (DocumentStatus_eqb a b) eqn:E; [|reflexivity].
  apply DocumentStatus_eqb_eq in E. contradiction.
Qed.

(** X26: [create_partial_invoice] on a stored invoice of the company that is
    not cancelled, with a request that passes the check against the
    invoice total.  A new draft of type PARTIAL_INVOICE is stored and
    returned under the next TINV number, with the customer of the invoice
    and the invoice as its related document; the invoice itself stays as
    it is.  The total of the partial invoice is computed from its items:
    without items in the request there is one item "Abschlag zu" the
    invoice, of quantity 1, priced at the requested amount for an exempt
    company and at the amount divided by 1.19 and rounded otherwise; with
    items in the request the items are the resolved ones, and the
    requested amount, which the check was made with, does not enter the
    document. *)
Theorem create_partial_invoice_takes_its_total_from_the_items :
  forall today calc_due company i data db d,
    ids_ok db ->
    find_doc i (documents db) = Some d ->
    owner d = company ->
    document_type d = INVOICE ->
    status d <> CANCELLED ->
    (abs (gross (totals d)) + 0.01
     <? partial_sum (related_window company i db)
        + CreatePartialRequest.amount data) = false ->
    let klein := company_flag company db in
    let amount := CreatePartialRequest.amount data in
    forall lines,
      match CreatePartialRequest.items data with
      | Some (it :: rest) =>
          _resolve_line_items company (it :: rest) klein db
          = (Return lines, db)
      | _ =>
          lines
          = [new_line_item "" ("Abschlag zu " ++ document_number d) "" 1
               "Pauschal"
               (if klein then amount else Py.round2 (amount / (1 + 0.19)))
               (if klein then 0 else 0.19) 0]
      end ->
      exists p db',
        create_partial_invoice today calc_due company i data db
        = (Return p, db')
        /\ documents db' = (documents db ++ [p])%list
        /\ find_doc i (documents db') = Some d
        /\ find_doc (id p) (documents db') = Some p
        /\ document_type p = PARTIAL_INVOICE
        /\ status p = DRAFT
        /\ owner p = company
        /\ customer_id p = customer_id d
        /\ related_document_id p = i
        /\ document_number p
           = number_of PARTIAL_INVOICE
               (S (sequence company PARTIAL_INVOICE db))
        /\ is_kleinunternehmer p = klein
        /\ items p = (if klein then map zero_vat lines else lines)
        /\ totals p = _calc_totals lines klein PARTIAL_INVOICE
        /\ payments p = []
        /\ notes p
           = str_or (Some (CreatePartialRequest.notes data))
               ("Abschlagsrechnung zu " ++ document_number d)
        /\ issue_date p = today
        /\ due_date p
           = calc_due today (CreatePartialRequest.payment_terms_days data).
Proof.
  intros today calc_due company i data db d Hids Hf Ho Ht Hs Hcap klein
         amount lines Hlines.
  unfold create_partial_invoice.
  rewrite bind_get_document, Hf, (String_eqb_true _ _ Ho).
  rewrite bind_raise_if, Ht. cbn [DocumentType_eqb negb]. cbv iota.
  rewrite bind_raise_if, (DocumentStatus_eqb_false _ _ Hs).
  rewrite bind_find_related. cbv zeta. rewrite bind_raise_if, Hcap.
  rewrite bind_company_is_kleinunternehmer.
  fold (company_flag company db). fold klein.
  assert (Hres :
    forall B (k : list LineItem -> M B),
      bind
        match CreatePartialRequest.items data with
        | Some (it :: rest) =>
            _resolve_line_items company (it :: rest) klein
        | _ =>
            ret [new_line_item "" ("Abschlag zu " ++ document_number d) "" 1
                   "Pauschal"
                   (if Py.truthy (if klein then 0 else 0.19)
                    then Py.round2
                           (CreatePartialRequest.amount data
                            / (1 + (if klein then 0 else 0.19)))
                    else CreatePartialRequest.amount data)
                   (if klein then 0 else 0.19) 0]
        end k db
      = k lines db).
  { intros B k.
    destruct (CreatePartialRequest.items data) as [[|it rest]|].
    - rewrite bind_ret. subst lines. destruct klein; reflexivity.
    - exact (bind_Return _ _ _ _ _ Hlines).
    - rewrite bind_ret. subst lines. destruct klein; reflexivity. }
  rewrite Hres. rewrite bind_issue, bind_find_created.
  pose proof (ids_ok_fresh _ Hids) as Hfresh. rewrite Hfresh.
  do 2 eexists.
  split; [reflexivity|].
  split; [reflexivity|].
  split; [exact (find_doc_issue _ _ _ _ _ _ Hf)|].
  split; [exact (find_created_fresh _ _ _ _ Hfresh)|].
  repeat split; reflexivity.
Qed.

(** A partial invoice of 0.03 on the invoice of 1073.98 is stored with the
    gross total 0.04. *)
Lemma create_partial_invoice_witness :
  exists p db',
    create_partial_invoice "2026-02-01" same_day "c1" (oid 0)
      (partial_request 0.03) db_1073_98
    = (Return p, db')
    /\ document_number p = "TINV-000001"
    /\ related_document_id p = oid 0
    /\ net (totals p) = 0.03
    /\ vat (totals p) = 0.01
    /\ gross (totals p) = 0.04.
Proof.
  destruct (create_partial_invoice_takes_its_total_from_the_items
              "2026-02-01" same_day "c1" (oid 0) (partial_request 0.03)
              db_1073_98 invoice_1073_98 ids_ok_db_1073_98 eq_refl eq_refl
              eq_refl ltac:(discriminate) eq_refl _ eq_refl)
    as (p & db' & Hrun & _ & _ & _ & _ & _ & _ & _ & Hr & Hn & _ & _ & Htot
        & _).
  exists p, db'.
  split; [exact Hrun|].
  split; [rewrite Hn; vm_compute; reflexivity|].
  split; [exact Hr|].
  rewrite Htot. vm_compute. repeat split; reflexivity.
Defined.
